(** * Day-planner API: the user controller

    A shallow embedding of [src/api/controllers/user.controller.ts]:
    registration and activation, login and logout, access/refresh token
    rotation over the session cache, and the reminder dispatch routine.

    The handlers are written in a state-and-exception monad over the
    request, the response under construction and the world the handler talks
    to: user collection, session cache, CMS dataset, mail transport, clock.
    A thrown JavaScript exception is a [Throw]; [try]/[catch] is [try_catch];
    state changed before a throw stays changed.

    What the controller imports but does not define is a field of the class
    [Collaborators]. Every awaited call to a service is logged and may
    throw, as the [fault] oracle of the deployment decides, so a statement
    proved here holds for every behaviour of the services.

    Conventions: a JSON web token is described by its payload, signing key
    and [iat]/[exp] claims, the clock counts seconds, and [Math.random()]
    yields a rational number. *)

From Stdlib Require Import QArith Qround.
From Stdlib Require Import Ascii String DecimalString.
From stdpp Require Import base option list strings gmap.

Open Scope string_scope.
Open Scope Z_scope.

(** ** JavaScript values *)

(** A promise that settles: fulfilled with a value or rejected with an
    [Error] carrying a message. Synchronous throws use the same type. *)
Inductive Result (A : Type) : Type :=
| Ok (a : A)
| Throw (message : string).
Arguments Ok {A} a.
Arguments Throw {A} message.

(** What [JSON.parse] can return. *)
#[warnings="-register-all"]
Inductive Json : Type :=
| JNull
| JBool (b : bool)
| JNum (n : Z)
| JStr (s : string)
| JArr (items : list Json)
| JObj (fields : list (string * Json)).

(** [!!v] for a parsed value. *)
Definition truthy (v : Json) : bool :=
  match v with
  | JNull => false
  | JBool b => b
  | JNum n => negb (n =? 0)
  | JStr s => negb (String.eqb s EmptyString)
  | JArr _ | JObj _ => true
  end.

(** [!!s] for a value typed [string] that may be [undefined]. *)
Definition truthy_str (s : option string) : bool :=
  match s with
  | None => false
  | Some s => negb (String.eqb s EmptyString)
  end.

(** The string behind a value already known to be truthy. *)
Definition str (s : option string) : string := default EmptyString s.

(** Template-literal interpolation [`${s}`] of a possibly undefined string. *)
Definition interpolate (s : option string) : string := default "undefined" s.

Fixpoint assoc (k : string) (fields : list (string * Json)) : option Json :=
  match fields with
  | [] => None
  | (k', v) :: rest => if String.eqb k k' then Some v else assoc k rest
  end.

(** [v?.prop]: [undefined] on [null], on primitives and on a missing key. *)
Definition opt_prop (v : Json) (prop : string) : option Json :=
  match v with
  | JObj fields => assoc prop fields
  | _ => None
  end.

(** [v.prop]: reading a property of [null] throws a [TypeError]. *)
Definition get_prop (v : Json) (prop : string) : Result (option Json) :=
  match v with
  | JNull => Throw ("Cannot read properties of null (reading '" ++ prop ++ "')")
  | _ => Ok (opt_prop v prop)
  end.

(** An id read out of a parsed object and used [as string]. *)
Definition as_string (v : option Json) : option string :=
  match v with
  | Some (JStr s) => Some s
  | _ => None
  end.

(** ** Documents *)

(** [interface IRegisterUser]. *)
Record IRegisterUser : Type := {
  reg_name : string;
  reg_email : string;
  reg_password : string
}.

(** A document of the user collection ([IUser]); [u_password] is whatever the
    model stores for the password it was given. *)
Record IUser : Type := {
  u_id : string;
  u_name : string;
  u_email : string;
  u_password : string
}.

(** A CMS document of type [event]. *)
Record Event : Type := {
  ev_id : string;
  ev_title : string
}.

(** A CMS document of type [reminder]; [eventId] is a reference object whose
    [_ref] holds the event's id. Both may be missing. *)
Record Reminder : Type := {
  r_id : string;
  r_eventId : option (option string);
  r_userId : string;
  r_sent : bool;
  r_reminderTime : Z
}.

(** ** JSON web tokens *)

(** The two payload shapes this controller signs. *)
Inductive Payload : Type :=
| ActivationPayload (user : IRegisterUser) (activationCode : string)
| IdPayload (id : option string).

Definition payload_user (p : Payload) : option IRegisterUser :=
  match p with ActivationPayload u _ => Some u | IdPayload _ => None end.

Definition payload_activationCode (p : Payload) : option string :=
  match p with ActivationPayload _ c => Some c | IdPayload _ => None end.

Definition payload_id (p : Payload) : option string :=
  match p with ActivationPayload _ _ => None | IdPayload i => i end.

(** A token string is either a JWT, described by its payload, the key that
    signed it and its [iat]/[exp] claims (seconds), or some other text. *)
Inductive Token : Type :=
| Signed (payload : Payload) (key : string) (iat exp : Z)
| Raw (text : string).

Definition truthy_token (t : option Token) : bool :=
  match t with
  | None => false
  | Some (Raw s) => negb (String.eqb s EmptyString)
  | Some (Signed _ _ _ _) => true
  end.

Definition digit_of (c : ascii) : option Z :=
  let n := Z.of_nat (nat_of_ascii c) in
  if (48 <=? n) && (n <=? 57) then Some (n - 48) else None.

(** Leading decimal digits of [s] (accumulated onto [acc]) and what follows. *)
Fixpoint read_digits (s : string) (acc : Z) : Z * string :=
  match s with
  | String c rest =>
      match digit_of c with
      | Some d => read_digits rest (acc * 10 + d)
      | None => (acc, s)
      end
  | EmptyString => (acc, s)
  end.

(** The [ms] package on the time spans used here: digits and a one-letter
    unit, in milliseconds. *)
Definition ms (span : string) : option Z :=
  match span with
  | String c _ =>
      match digit_of c with
      | None => None
      | Some _ =>
          let (n, unit) := read_digits span 0 in
          if String.eqb unit "s" then Some (n * 1000)
          else if String.eqb unit "m" then Some (n * 60000)
          else if String.eqb unit "h" then Some (n * 3600000)
          else if String.eqb unit "d" then Some (n * 86400000)
          else None
      end
  | EmptyString => None
  end.

(** [jwt.sign(payload, secret, {expiresIn})] at clock reading [now]. *)
Definition jwt_sign (payload : Payload) (secret expiresIn : string) (now : Z)
  : Result Token :=
  match ms expiresIn with
  | Some span => Ok (Signed payload secret now (now + span / 1000))
  | None => Throw "invalid expiresIn option for string payload"
  end.

(** The number of parts of [text.split('.')]. *)
Fixpoint dot_parts (text : string) : nat :=
  match text with
  | EmptyString => 1%nat
  | String c rest =>
      if Ascii.eqb c "."%char then S (dot_parts rest) else dot_parts rest
  end.

(** [jwt.decode(token)]: the payload is readable without the key. *)
Definition jwt_decode (token : Token) : option Payload :=
  match token with
  | Signed payload _ _ _ => Some payload
  | Raw _ => None
  end.

(** ** Mail *)

(** The [data] handed to the two templates. *)
Inductive MailData : Type :=
| ActivationData (user_name : string) (activationCode : string)
| ReminderData (user_name : string) (event : Event) (eventLink : string).

Record Mail : Type := {
  m_template : string;
  m_email : string;
  m_subject : string;
  m_data : MailData
}.

(** ** The world *)

(** The calls to collaborators, as they are logged. *)
Inductive Call : Type :=
| C_findOne (email : string)
| C_findById (id : string)
| C_create (user : IRegisterUser)
| C_comparePasswords (user : IUser) (password : string)
| C_sendMail (mail : Mail)
| C_sendToken (user : IUser)
| C_redis_get (key : option string)
| C_redis_del (key : string)
| C_fetch_reminders
| C_fetch_event (eventId : string)
| C_patch_sent (reminderId : string)
| C_random.

Record World : Type := {
  users : list IUser;
  sessions : gmap string string;
  reminders : list Reminder;
  events : list Event;
  outbox : list Mail;
  now : Z;
  log : list (Call * bool)
}.

Definition with_users (us : list IUser) (w : World) : World :=
  {| users := us; sessions := sessions w; reminders := reminders w;
     events := events w; outbox := outbox w; now := now w; log := log w |}.

Definition with_sessions (ss : gmap string string) (w : World) : World :=
  {| users := users w; sessions := ss; reminders := reminders w;
     events := events w; outbox := outbox w; now := now w; log := log w |}.

Definition with_reminders (rs : list Reminder) (w : World) : World :=
  {| users := users w; sessions := sessions w; reminders := rs;
     events := events w; outbox := outbox w; now := now w; log := log w |}.

Definition with_outbox (ms : list Mail) (w : World) : World :=
  {| users := users w; sessions := sessions w; reminders := reminders w;
     events := events w; outbox := ms; now := now w; log := log w |}.

Definition with_log (l : list (Call * bool)) (w : World) : World :=
  {| users := users w; sessions := sessions w; reminders := reminders w;
     events := events w; outbox := outbox w; now := now w; log := l |}.

(** ** Request and response *)

Record Request : Type := {
  body_name : option string;
  body_email : option string;
  body_password : option string;
  body_activation_token : option Token;
  body_activation_code : option string;
  cookie_refresh_token : option Token;
  req_user : option Json
}.

Definition with_req_user (u : Json) (r : Request) : Request :=
  {| body_name := body_name r; body_email := body_email r;
     body_password := body_password r;
     body_activation_token := body_activation_token r;
     body_activation_code := body_activation_code r;
     cookie_refresh_token := cookie_refresh_token r;
     req_user := Some u |}.

(** [new ErrorHandler(message, statusCode)]. *)
Record ErrorHandler : Type := {
  message : string;
  statusCode : Z
}.

(** Cookie options: the two objects exported by [utils/jwt], and the literal
    [{maxAge: n}]. *)
Inductive CookieOptions : Type :=
| accessTokenOptions
| refreshTokenOptions
| maxAge (n : Z).

Record Cookie : Type := {
  c_name : string;
  c_value : Token;
  c_options : CookieOptions
}.

(** The JSON bodies the handlers send; all carry [success: true]. *)
Inductive Body : Type :=
| B_activation (message : string) (activationToken : Token)
| B_activated (user : IUser) (message : string)
| B_message (message : string)
| B_accessToken (accessToken : Token)
| B_user (user : Json).

Record Response : Type := {
  cookies : list Cookie;
  status : option Z;
  json : option Body;
  forwarded : list ErrorHandler
}.

Definition fresh_response : Response :=
  {| cookies := []; status := None; json := None; forwarded := [] |}.

Record St : Type := {
  world : World;
  req : Request;
  res : Response
}.

Definition with_world (w : World) (s : St) : St :=
  {| world := w; req := req s; res := res s |}.

Definition with_req (r : Request) (s : St) : St :=
  {| world := world s; req := r; res := res s |}.

Definition with_res (r : Response) (s : St) : St :=
  {| world := world s; req := req s; res := r |}.

(** ** The handler monad *)

Definition M (A : Type) : Type := St -> Result A * St.

Definition ret {A} (a : A) : M A := fun s => (Ok a, s).

Definition throw {A} (msg : string) : M A := fun s => (Throw msg, s).

Definition bind {A B} (m : M A) (k : A -> M B) : M B :=
  fun s =>
    match m s with
    | (Ok a, s') => k a s'
    | (Throw msg, s') => (Throw msg, s')
    end.

Notation "'let!' x := m 'in' k" := (bind m (fun x => k))
  (at level 10, x name, m at level 100, k at level 200, only parsing).
Notation "'exec' m ; k" := (bind m (fun _ => k))
  (at level 10, m at level 100, k at level 200, only parsing).

(** [try { body } catch (error) { handler(error.message) }]. *)
Definition try_catch {A} (body : M A) (handler : string -> M A) : M A :=
  fun s =>
    match body s with
    | (Ok a, s') => (Ok a, s')
    | (Throw msg, s') => handler msg s'
    end.

Definition lift {A} (r : Result A) : M A := fun s => (r, s).

Definition get_req : M Request := fun s => (Ok (req s), s).

Definition clock : M Z := fun s => (Ok (now (world s)), s).

(** [next(err)]. *)
Definition next (err : ErrorHandler) : M unit :=
  fun s =>
    let r := res s in
    (Ok tt, with_res {| cookies := cookies r; status := status r;
                        json := json r;
                        forwarded := forwarded r ++ [err] |} s).

(** [res.cookie(name, value, options)]. *)
Definition res_cookie (n : string) (v : Token) (o : CookieOptions) : M unit :=
  fun s =>
    let r := res s in
    (Ok tt, with_res {| cookies := cookies r ++ [Build_Cookie n v o];
                        status := status r; json := json r;
                        forwarded := forwarded r |} s).

(** [res.status(code).json(body)]. *)
Definition res_status_json (code : Z) (b : Body) : M unit :=
  fun s =>
    let r := res s in
    (Ok tt, with_res {| cookies := cookies r; status := Some code;
                        json := Some b; forwarded := forwarded r |} s).

(** [req.user = user]. *)
Definition set_req_user (u : Json) : M unit :=
  fun s => (Ok tt, with_req (with_req_user u (req s)) s).

(** ** Collaborators *)

(** What the controller imports and the deployment provides.
    - [isEmail], [isStrongPassword]: the two checks of the [validator]
      package;
    - [JSON_parse]: [JSON.parse] on a string;
    - [jwt_undecodable]: the message with which [jwt.verify] refuses text of
      three dot-separated parts that it cannot decode as a token ('invalid
      token', or the parse error of its payload);
    - [comparePasswords], [new_id], [stored_password]: the user model, which
      is not part of this file: the password comparison of a document, the
      [_id] given to a new document, and what is stored for a password;
    - [sendToken_effect]: what [sendToken] of [utils/jwt] does to the
      session cache and to the response;
    - [fault]: which call throws, with what message, in which world;
    - [Math_random]: the draw of [Math.random()], a number in [0, 1);
    - the environment variables, read [as string]. *)
Class Collaborators : Type := {
  isEmail : string -> bool;
  isStrongPassword : string -> bool;
  JSON_parse : string -> Result Json;
  jwt_undecodable : string -> string;
  comparePasswords : IUser -> string -> bool;
  new_id : list IUser -> string;
  stored_password : string -> string;
  sendToken_effect :
    IUser -> gmap string string -> Response -> gmap string string * Response;
  fault : Call -> World -> option string;
  Math_random : World -> Q;
  ACTIVATION_SECRET : string;
  ACCESS_TOKEN : string;
  REFRESH_TOKEN : string;
  FRONTEND_URL : string
}.

(** [jwt.verify(token, secret)] at clock reading [now]. Text that is no
    token is refused in the order of the library: an empty string as not
    provided, text that does not split into three parts as malformed, and
    other three-part text with the message of [jwt_undecodable]. A token is
    checked for its signature first and for its expiry second. *)
Definition jwt_verify `{Collaborators} (token : option Token) (secret : string)
    (now : Z) : Result Payload :=
  match token with
  | None => Throw "jwt must be provided"
  | Some (Raw text) =>
      if String.eqb text EmptyString then Throw "jwt must be provided"
      else if negb (dot_parts text =? 3)%nat then Throw "jwt malformed"
      else Throw (jwt_undecodable text)
  | Some (Signed payload key _ exp) =>
      if negb (String.eqb key secret) then Throw "invalid signature"
      else if exp <=? now then Throw "jwt expired"
      else Ok payload
  end.

(** [Number.prototype.toString()] of an integer. *)
Definition toString (n : Z) : string := NilZero.string_of_int (Z.to_int n).

(** [===] on two possibly undefined strings. *)
Definition strict_eq (a b : option string) : bool :=
  match a, b with
  | None, None => true
  | Some x, Some y => String.eqb x y
  | _, _ => false
  end.

(** [!!decoded] for a verified payload: an object is truthy. *)
Definition truthy_payload (_ : Payload) : bool := true.

(** The GROQ filter [sent == false && reminderTime <= now()]. *)
Definition due (t : Z) (r : Reminder) : bool :=
  negb (r_sent r) && (r_reminderTime r <=? t).

Definition mark_sent (r : Reminder) : Reminder :=
  {| r_id := r_id r; r_eventId := r_eventId r; r_userId := r_userId r;
     r_sent := true; r_reminderTime := r_reminderTime r |}.

(** [.patch(id).set({sent: true})] on the dataset. *)
Definition patch_sent (id : string) (rs : list Reminder) : list Reminder :=
  map (fun r => if String.eqb (r_id r) id then mark_sent r else r) rs.

(** [interface IActivationToken]. *)
Record IActivationToken : Type := {
  activationCode : string;
  token : Token
}.

(** ** Shapes of responses and worlds *)

(** The response of a handler that only called [next(e)]. *)
Definition error_only (e : ErrorHandler) : Response :=
  {| cookies := []; status := None; json := None; forwarded := [e] |}.

(** The response of a handler that only sent [b] with status [code]. *)
Definition sent_only (code : Z) (b : Body) : Response :=
  {| cookies := []; status := Some code; json := Some b; forwarded := [] |}.

(** [w] after the calls [cs] were logged. *)
Definition logged (cs : list (Call * bool)) (w : World) : World :=
  with_log (log w ++ cs) w.

Definition password_rule : string :=
  "Password must be at least 8 characters long and contain at least 1 lowercase, 1 uppercase, 1 number and 1 special character".

(** [name], [email] and [password] are all present in the body. *)
Definition present (rq : Request) : bool :=
  truthy_str (body_name rq) && truthy_str (body_email rq)
  && truthy_str (body_password rq).

(** Every [patch] in [cs] comes directly after a [sendMail] that returned;
    [prev] is the call before [cs]. *)
Fixpoint patch_after_mail (prev : option (Call * bool)) (cs : list (Call * bool))
  : bool :=
  match cs with
  | [] => true
  | c :: rest =>
      match fst c with
      | C_patch_sent _ =>
          match prev with
          | Some (C_sendMail _, true) => true
          | _ => false
          end
      | _ => true
      end
      && patch_after_mail (Some c) rest
  end.

(** The two cookies [logoutUser] overwrites: empty, expiring at once. *)
Definition cleared_cookies : list Cookie :=
  [ {| c_name := "access_token"; c_value := Raw EmptyString;
       c_options := maxAge 1 |};
    {| c_name := "refresh_token"; c_value := Raw EmptyString;
       c_options := maxAge 1 |} ].

(** A response that was settled once: one error forwarded and nothing
    sent, or one body sent with its status and nothing forwarded. *)
Definition settled (r : Response) : Prop :=
  (status r = None /\ json r = None /\ exists e, forwarded r = [e])
  \/ (exists code b, status r = Some code /\ json r = Some b /\ forwarded r = []).

(** [b] is [a], or [a] marked as sent. *)
Definition same_or_sent (a b : Reminder) : Prop := b = a \/ b = mark_sent a.

(** What the caller can read out of a response: the activation code inside
    the token of the body. *)
Definition code_in_response (r : Response) : option string :=
  match json r with
  | Some (B_activation _ t) =>
      match jwt_decode t with
      | Some p => payload_activationCode p
      | None => None
      end
  | _ => None
  end.

Section Controller.

Context `{Collaborators}.

(** An awaited call: it is logged, and either throws as [fault] says or
    takes effect on the world. *)
Definition await {A} (c : Call) (effect : World -> A * World) : M A :=
  fun s =>
    let w := world s in
    match fault c w with
    | Some msg => (Throw msg, with_world (with_log (log w ++ [(c, false)]) w) s)
    | None =>
        let (a, w') := effect w in
        (Ok a, with_world (with_log (log w' ++ [(c, true)]) w') s)
    end.

Definition userModel_findOne (email : string) : M (option IUser) :=
  await (C_findOne email)
    (fun w => (List.find (fun u => String.eqb (u_email u) email) (users w), w)).

Definition userModel_findById (id : string) : M (option IUser) :=
  await (C_findById id)
    (fun w => (List.find (fun u => String.eqb (u_id u) id) (users w), w)).

(** The document [userModel.create] stores for [u] in world [w]. *)
Definition created (w : World) (u : IRegisterUser) : IUser :=
  {| u_id := new_id (users w); u_name := reg_name u; u_email := reg_email u;
     u_password := stored_password (reg_password u) |}.

Definition userModel_create (u : IRegisterUser) : M IUser :=
  await (C_create u)
    (fun w => (created w u, with_users (users w ++ [created w u]) w)).

Definition user_comparePasswords (user : IUser) (password : string) : M bool :=
  await (C_comparePasswords user password)
    (fun w => (comparePasswords user password, w)).

Definition sendMail (mail : Mail) : M unit :=
  await (C_sendMail mail) (fun w => (tt, with_outbox (outbox w ++ [mail]) w)).

(** What the cache holds under [key]; nothing is stored under an undefined
    key. *)
Definition cache_lookup (w : World) (key : option string) : option string :=
  match key with
  | Some k => sessions w !! k
  | None => None
  end.

Definition redis_get (key : option string) : M (option string) :=
  await (C_redis_get key) (fun w => (cache_lookup w key, w)).

Definition redis_del (key : string) : M unit :=
  await (C_redis_del key)
    (fun w => (tt, with_sessions (delete key (sessions w)) w)).

Definition sanity_fetch_reminders : M (list Reminder) :=
  await C_fetch_reminders
    (fun w => (List.filter (due (now w)) (reminders w), w)).

Definition sanity_fetch_event (eventId : string) : M (option Event) :=
  await (C_fetch_event eventId)
    (fun w => (List.find (fun e => String.eqb (ev_id e) eventId) (events w), w)).

Definition sanity_patch_sent (id : string) : M unit :=
  await (C_patch_sent id)
    (fun w => (tt, with_reminders (patch_sent id (reminders w)) w)).

(** [sendToken(user, res)] of [utils/jwt]: its effect on the session cache
    and on the response is the collaborator's. *)
Definition sendToken (user : IUser) : M unit :=
  fun s =>
    let w := world s in
    match fault (C_sendToken user) w with
    | Some msg =>
        (Throw msg,
         with_world (with_log (log w ++ [(C_sendToken user, false)]) w) s)
    | None =>
        let (ss, r) := sendToken_effect user (sessions w) (res s) in
        (Ok tt,
         with_res r
           (with_world
              (with_log (log w ++ [(C_sendToken user, true)])
                 (with_sessions ss w)) s))
    end.

(** [Math.random()]. *)
Definition random : M Q :=
  fun s =>
    let w := world s in
    (Ok (Math_random w), with_world (with_log (log w ++ [(C_random, true)]) w) s).

Definition sign (payload : Payload) (secret expiresIn : string) : M Token :=
  let! t := clock in lift (jwt_sign payload secret expiresIn t).

Definition verify (token : option Token) (secret : string) : M Payload :=
  let! t := clock in lift (jwt_verify token secret t).

(** [JSON.parse(s)] where [s] may be [null]: [null] reads as the text
    [null]. *)
Definition parse_text (s : option string) : Result Json :=
  match s with
  | Some s => JSON_parse s
  | None => Ok JNull
  end.

Definition parse (s : option string) : M Json := lift (parse_text s).

(** ** The handlers *)

Definition createActivationToken (user : IRegisterUser) : M IActivationToken :=
  let! r := random in
  let activationCode := toString (Qfloor (r * 9000 + 1000)%Q) in
  let! token := sign (ActivationPayload user activationCode) ACTIVATION_SECRET "5m" in
  ret {| activationCode := activationCode; token := token |}.

Definition registerUser : M unit :=
  try_catch
    (let! rq := get_req in
     let name := body_name rq in
     let email := body_email rq in
     let password := body_password rq in
     if negb (truthy_str name) || negb (truthy_str email)
        || negb (truthy_str password)
     then next (Build_ErrorHandler "Please enter all fields" 400)
     else
       let isEmailValid := isEmail (str email) in
       if negb isEmailValid
       then next (Build_ErrorHandler "Invalid Email" 400)
       else
         let checkPassword := isStrongPassword (str password) in
         if negb checkPassword
         then next (Build_ErrorHandler password_rule 400)
         else
           let! emailExists := userModel_findOne (str email) in
           match emailExists with
           | Some _ => next (Build_ErrorHandler "Email already exists" 400)
           | None =>
               let user := {| reg_name := str name; reg_email := str email;
                              reg_password := str password |} in
               let! activationToken := createActivationToken user in
               let activationCode := activationCode activationToken in
               let data := ActivationData (reg_name user) activationCode in
               try_catch
                 (exec sendMail {| m_template := "activateEmail.ejs";
                                  m_email := reg_email user;
                                  m_subject := "Account Activation";
                                  m_data := data |} ;
                  res_status_json 201
                    (B_activation ("Activation code sent to " ++ reg_email user)
                       (token activationToken)))
                 (fun msg => next (Build_ErrorHandler msg 500))
           end)
    (fun msg => next (Build_ErrorHandler msg 500)).

Definition activateUser : M unit :=
  try_catch
    (let! rq := get_req in
     let activation_token := body_activation_token rq in
     let activation_code := body_activation_code rq in
     let! verifyToken := verify activation_token ACTIVATION_SECRET in
     if negb (strict_eq activation_code (payload_activationCode verifyToken))
     then next (Build_ErrorHandler "Invalid Activation Code" 400)
     else
       let! newUser := lift (match payload_user verifyToken with
                        | Some u => Ok u
                        | None =>
                            Throw "Cannot read properties of undefined (reading 'name')"
                        end) in
       let! user := userModel_create {| reg_name := reg_name newUser;
                                   reg_email := reg_email newUser;
                                   reg_password := reg_password newUser |} in
       res_status_json 201 (B_activated user "Account activated successfully"))
    (fun msg => next (Build_ErrorHandler msg 500)).

Definition userLogin : M unit :=
  try_catch
    (let! rq := get_req in
     let password := body_password rq in
     let email := body_email rq in
     if negb (truthy_str password) || negb (truthy_str email)
     then next (Build_ErrorHandler "Please provide all the fields" 400)
     else
       let! user := userModel_findOne (str email) in
       match user with
       | None => next (Build_ErrorHandler "email or password is invalid" 400)
       | Some user =>
           let! passwordCorrect := user_comparePasswords user (str password) in
           if negb passwordCorrect
           then next (Build_ErrorHandler "email or password is invalid" 400)
           else
             try_catch (sendToken user)
               (fun msg => next (Build_ErrorHandler msg 400))
       end)
    (fun msg => next (Build_ErrorHandler msg 400)).

(** [req.user?._id as string]. *)
Definition req_user_id (rq : Request) : option string :=
  match req_user rq with
  | Some u => as_string (opt_prop u "_id")
  | None => None
  end.

Definition logoutUser : M unit :=
  try_catch
    (exec res_cookie "access_token" (Raw EmptyString) (maxAge 1) ;
     exec res_cookie "refresh_token" (Raw EmptyString) (maxAge 1) ;
     let! rq := get_req in
     let redisUser := req_user_id rq in
     exec (if truthy_str redisUser then redis_del (str redisUser) else ret tt) ;
     res_status_json 200 (B_message "User logged out"))
    (fun msg => next (Build_ErrorHandler msg 400)).

Definition UpdateAccessToken : M unit :=
  try_catch
    (let! rq := get_req in
     let refresh_token := cookie_refresh_token rq in
     if negb (truthy_token refresh_token)
     then next (Build_ErrorHandler "Refresh token not found" 401)
     else
       let! decoded := verify refresh_token REFRESH_TOKEN in
       if negb (truthy_payload decoded)
       then next (Build_ErrorHandler "Refresh token not found" 401)
       else
         let! session := redis_get (payload_id decoded) in
         let! user := parse session in
         exec set_req_user user ;
         let! user_id := lift (get_prop user "_id") in
         let! accessToken := sign (IdPayload (as_string user_id)) ACCESS_TOKEN "5m" in
         let! refreshToken := sign (IdPayload (as_string user_id)) REFRESH_TOKEN "7d" in
         exec res_cookie "access_token" accessToken accessTokenOptions ;
         exec res_cookie "refresh_token" refreshToken refreshTokenOptions ;
         res_status_json 200 (B_accessToken accessToken))
    (fun msg => next (Build_ErrorHandler msg 400)).

Definition getUserInfo : M unit :=
  try_catch
    (let! rq := get_req in
     let userId := req_user_id rq in
     let! redisUser := redis_get userId in
     let! user := parse redisUser in
     if negb (truthy user)
     then next (Build_ErrorHandler
                  ("user: " ++ interpolate userId ++ " not found") 404)
     else res_status_json 200 (B_user user))
    (fun msg => next (Build_ErrorHandler msg 400)).

(** [for (const x of items) body(x)]. *)
Fixpoint for_of {A} (items : list A) (body : A -> M unit) : M unit :=
  match items with
  | [] => ret tt
  | x :: rest => exec body x ; for_of rest body
  end.

(** The mail of a reminder for [event] to [user]. *)
Definition reminder_mail (user : IUser) (event : Event) : Mail :=
  let data := ReminderData (u_name user) event
                (FRONTEND_URL ++ "events/" ++ ev_id event) in
  {| m_template := "reminderEvent.ejs";
     m_email := u_email user;
     m_subject := "Reminder: " ++ ev_title event;
     m_data := data |}.

(** The body of the loop of [setReminder]; [continue] is [ret tt]. *)
Definition setReminder_body (reminder : Reminder) : M unit :=
  match r_eventId reminder with
  | None => ret tt
  | Some _ref =>
      if negb (truthy_str _ref) then ret tt
      else
        let eventId := str _ref in
        let! event := sanity_fetch_event eventId in
        match event with
        | None => ret tt
        | Some event =>
            let! user := userModel_findById (r_userId reminder) in
            match user with
            | None => ret tt
            | Some user =>
                try_catch
                  (exec sendMail (reminder_mail user event) ;
                   sanity_patch_sent (r_id reminder))
                  (fun _ => ret tt)
            end
        end
  end.

Definition setReminder : M unit :=
  try_catch
    (let! reminders := sanity_fetch_reminders in
     if (length reminders =? 0)%nat
     then res_status_json 200 (B_message "No reminders to send")
     else
       exec for_of reminders setReminder_body ;
       res_status_json 200 (B_message "Reminders processed successfully"))
    (fun msg => next (Build_ErrorHandler msg 500)).

(** ** Vocabulary for the statements *)

(** The activation code drawn by a registration in world [w]; the draw comes
    after the lookup of [email]. *)
Definition drawn_code (w : World) (email : string) : string :=
  toString
    (Qfloor (Math_random (logged [(C_findOne email, true)] w) * 9000 + 1000)%Q).

Definition registering (rq : Request) : IRegisterUser :=
  {| reg_name := str (body_name rq); reg_email := str (body_email rq);
     reg_password := str (body_password rq) |}.

Definition activation_mail (w : World) (rq : Request) : Mail :=
  {| m_template := "activateEmail.ejs";
     m_email := str (body_email rq);
     m_subject := "Account Activation";
     m_data := ActivationData (str (body_name rq))
                 (drawn_code w (str (body_email rq))) |}.

Definition activation_jwt (w : World) (rq : Request) : Token :=
  Signed (ActivationPayload (registering rq) (drawn_code w (str (body_email rq))))
    ACTIVATION_SECRET (now w) (now w + 300).

(** The response of a token rotation for user id [id] at the clock of [w]:
    both cookies, status 200 and the new access token in the body. *)
Definition rotated (w : World) (id : option string) : Response :=
  let accessToken := Signed (IdPayload id) ACCESS_TOKEN (now w) (now w + 300) in
  let refreshToken :=
    Signed (IdPayload id) REFRESH_TOKEN (now w) (now w + 604800) in
  {| cookies := [ {| c_name := "access_token"; c_value := accessToken;
                     c_options := accessTokenOptions |};
                  {| c_name := "refresh_token"; c_value := refreshToken;
                     c_options := refreshTokenOptions |} ];
     status := Some 200;
     json := Some (B_accessToken accessToken);
     forwarded := [] |}.

(** *** The reminder loop, one iteration at a time *)

(** The event id a reminder refers to, when the reference is usable. *)
Definition event_ref (r : Reminder) : option string :=
  match r_eventId r with
  | Some _ref => if truthy_str _ref then Some (str _ref) else None
  | None => None
  end.

Definition find_event (w : World) (eventId : string) : option Event :=
  List.find (fun e => String.eqb (ev_id e) eventId) (events w).

Definition find_user (w : World) (id : string) : option IUser :=
  List.find (fun u => String.eqb (u_id u) id) (users w).

(** One iteration for reminder [r] from world [w]: how it ends and in which
    world. *)
Inductive body_step (r : Reminder) (w : World) : Result unit -> World -> Prop :=
| step_skip :
    event_ref r = None ->
    body_step r w (Ok tt) w
| step_fetch_fails e msg :
    event_ref r = Some e ->
    fault (C_fetch_event e) w = Some msg ->
    body_step r w (Throw msg) (logged [(C_fetch_event e, false)] w)
| step_no_event e :
    event_ref r = Some e ->
    fault (C_fetch_event e) w = None ->
    find_event w e = None ->
    body_step r w (Ok tt) (logged [(C_fetch_event e, true)] w)
| step_lookup_fails e ev msg :
    event_ref r = Some e ->
    fault (C_fetch_event e) w = None ->
    find_event w e = Some ev ->
    fault (C_findById (r_userId r)) (logged [(C_fetch_event e, true)] w)
    = Some msg ->
    body_step r w (Throw msg)
      (logged [(C_fetch_event e, true); (C_findById (r_userId r), false)] w)
| step_no_user e ev :
    event_ref r = Some e ->
    fault (C_fetch_event e) w = None ->
    find_event w e = Some ev ->
    fault (C_findById (r_userId r)) (logged [(C_fetch_event e, true)] w)
    = None ->
    find_user w (r_userId r) = None ->
    body_step r w (Ok tt)
      (logged [(C_fetch_event e, true); (C_findById (r_userId r), true)] w)
| step_mail_fails e ev u msg :
    event_ref r = Some e ->
    fault (C_fetch_event e) w = None ->
    find_event w e = Some ev ->
    fault (C_findById (r_userId r)) (logged [(C_fetch_event e, true)] w)
    = None ->
    find_user w (r_userId r) = Some u ->
    fault (C_sendMail (reminder_mail u ev))
      (logged [(C_fetch_event e, true); (C_findById (r_userId r), true)] w)
    = Some msg ->
    body_step r w (Ok tt)
      (logged [(C_fetch_event e, true); (C_findById (r_userId r), true);
               (C_sendMail (reminder_mail u ev), false)] w)
| step_patch_fails e ev u msg :
    event_ref r = Some e ->
    fault (C_fetch_event e) w = None ->
    find_event w e = Some ev ->
    fault (C_findById (r_userId r)) (logged [(C_fetch_event e, true)] w)
    = None ->
    find_user w (r_userId r) = Some u ->
    fault (C_sendMail (reminder_mail u ev))
      (logged [(C_fetch_event e, true); (C_findById (r_userId r), true)] w)
    = None ->
    fault (C_patch_sent (r_id r))
      (with_outbox (outbox w ++ [reminder_mail u ev])
         (logged [(C_fetch_event e, true); (C_findById (r_userId r), true);
                  (C_sendMail (reminder_mail u ev), true)] w))
    = Some msg ->
    body_step r w (Ok tt)
      (with_outbox (outbox w ++ [reminder_mail u ev])
         (logged [(C_fetch_event e, true); (C_findById (r_userId r), true);
                  (C_sendMail (reminder_mail u ev), true);
                  (C_patch_sent (r_id r), false)] w))
| step_sent e ev u :
    event_ref r = Some e ->
    fault (C_fetch_event e) w = None ->
    find_event w e = Some ev ->
    fault (C_findById (r_userId r)) (logged [(C_fetch_event e, true)] w)
    = None ->
    find_user w (r_userId r) = Some u ->
    fault (C_sendMail (reminder_mail u ev))
      (logged [(C_fetch_event e, true); (C_findById (r_userId r), true)] w)
    = None ->
    fault (C_patch_sent (r_id r))
      (with_outbox (outbox w ++ [reminder_mail u ev])
         (logged [(C_fetch_event e, true); (C_findById (r_userId r), true);
                  (C_sendMail (reminder_mail u ev), true)] w))
    = None ->
    body_step r w (Ok tt)
      (with_reminders (patch_sent (r_id r) (reminders w))
         (with_outbox (outbox w ++ [reminder_mail u ev])
            (logged [(C_fetch_event e, true); (C_findById (r_userId r), true);
                     (C_sendMail (reminder_mail u ev), true);
                     (C_patch_sent (r_id r), true)] w))).

(** The loop over [rs] from world [w]: iterations follow one another until
    the list is exhausted or one of them throws. *)
Inductive loop_run : list Reminder -> World -> Result unit -> World -> Prop :=
| loop_done w :
    loop_run [] w (Ok tt) w
| loop_next r rs w w1 res w2 :
    body_step r w (Ok tt) w1 ->
    loop_run rs w1 res w2 ->
    loop_run (r :: rs) w res w2
| loop_abort r rs w msg w1 :
    body_step r w (Throw msg) w1 ->
    loop_run (r :: rs) w (Throw msg) w1.

(** The three checks of [registerUser] that need no lookup. *)
Definition checks_pass (rq : Request) : Prop :=
  present rq = true /\ isEmail (str (body_email rq)) = true
  /\ isStrongPassword (str (body_password rq)) = true.

(** No awaited call throws. *)
Definition services_up : Prop := forall c w, fault c w = None.

End Controller.

(** The state in which a handler leaves the world, the request and the
    response when it is run on request [rq] in world [w]. *)
Definition serve (h : M unit) (w : World) (rq : Request) : St :=
  snd (h {| world := w; req := rq; res := fresh_response |}).

(** The calls made between [w] and [w']. *)
Definition calls_since (w w' : World) : list (Call * bool) :=
  drop (length (log w)) (log w').

Definition is_userModel_call (c : Call) : bool :=
  match c with
  | C_findOne _ | C_findById _ | C_create _ | C_comparePasswords _ _ => true
  | _ => false
  end.

Definition is_sendMail (c : Call) : bool :=
  match c with C_sendMail _ => true | _ => false end.

(** A reminder that can be delivered in world [w]: its reference is usable,
    the event is in the dataset and the user is in the collection. *)
Definition deliverable (w : World) (r : Reminder) : Prop :=
  exists e ev u,
    event_ref r = Some e /\ find_event w e = Some ev
    /\ find_user w (r_userId r) = Some u.

(** ** A concrete deployment *)

Module Demo.

Fixpoint count_chars (p : ascii -> bool) (s : string) : nat :=
  match s with
  | EmptyString => 0%nat
  | String c rest => ((if p c then 1 else 0) + count_chars p rest)%nat
  end.

Definition between (lo hi : nat) (c : ascii) : bool :=
  let n := nat_of_ascii c in (lo <=? n)%nat && (n <=? hi)%nat.

Definition is_symbol (c : ascii) : bool :=
  negb (between 48 57 c) && negb (between 65 90 c) && negb (between 97 122 c)
  && between 33 126 c.

(** An address check: exactly one [@], not at either end. *)
Definition simple_isEmail (s : string) : bool :=
  (count_chars (Ascii.eqb "@") s =? 1)%nat
  && negb (String.prefix "@" s)
  && negb (Ascii.eqb (default "@"%char (String.get (String.length s - 1) s)) "@").

(** The default rule of [isStrongPassword]. *)
Definition simple_isStrongPassword (s : string) : bool :=
  (8 <=? String.length s)%nat
  && (1 <=? count_chars (between 97 122) s)%nat
  && (1 <=? count_chars (between 65 90) s)%nat
  && (1 <=? count_chars (between 48 57) s)%nat
  && (1 <=? count_chars is_symbol s)%nat.

(** Sessions are cached here as the text [id=] followed by the user id. *)
Definition session_text (id : string) : string := "id=" ++ id.

(** [JSON.parse] on the texts this deployment caches. *)
Definition simple_parse (s : string) : Result Json :=
  if String.eqb s "null" then Ok JNull
  else if String.prefix "id=" s
       then Ok (JObj [("_id", JStr (String.substring 3 (String.length s - 3) s))])
       else Throw "Unexpected token in JSON at position 0".

Definition hashed (p : string) : string := "hash:" ++ p.

(** A deployment whose services throw as [f] says. *)
Definition deployment (f : Call -> World -> option string) : Collaborators :=
  {| isEmail := simple_isEmail;
     isStrongPassword := simple_isStrongPassword;
     JSON_parse := simple_parse;
     jwt_undecodable := fun _ => "invalid token";
     comparePasswords := fun u p => String.eqb (u_password u) (hashed p);
     new_id := fun us => "u" ++ toString (Z.of_nat (length us) + 1);
     stored_password := hashed;
     sendToken_effect := fun u ss r => (<[u_id u := session_text (u_id u)]> ss, r);
     fault := f;
     Math_random := fun _ => (1 # 2)%Q;
     ACTIVATION_SECRET := "activation-secret";
     ACCESS_TOKEN := "access-secret";
     REFRESH_TOKEN := "refresh-secret";
     FRONTEND_URL := "https://planner.example/" |}.

(** All services up. *)
Definition healthy : Collaborators := deployment (fun _ _ => None).

(** The mail transport is down. *)
Definition mail_down : Collaborators :=
  deployment (fun c _ => if is_sendMail c then Some "connect ECONNREFUSED" else None).

(** The user collection rejects lookups by id. *)
Definition lookup_down : Collaborators :=
  deployment (fun c _ =>
                match c with
                | C_findById _ => Some "Cast to ObjectId failed"
                | _ => None
                end).

Definition ada : IUser :=
  {| u_id := "u1"; u_name := "Ada"; u_email := "ada@example.org";
     u_password := hashed "Secret#2024" |}.

Definition standup : Event := {| ev_id := "e1"; ev_title := "Stand-up" |}.

Definition remind (id : string) (ref : option (option string)) (sent : bool)
  (at_time : Z) : Reminder :=
  {| r_id := id; r_eventId := ref; r_userId := "u1"; r_sent := sent;
     r_reminderTime := at_time |}.

Definition empty_world : World :=
  {| users := []; sessions := ∅; reminders := []; events := []; outbox := [];
     now := 1000; log := [] |}.

(** Ada is registered and logged in; two reminders are due. *)
Definition busy_world : World :=
  {| users := [ada];
     sessions := {[ "u1" := session_text "u1" ]};
     reminders := [remind "r1" (Some (Some "e1")) false 900;
                   remind "r2" (Some (Some "e1")) false 950;
                   remind "r3" (Some (Some "e1")) false 5000;
                   remind "r4" (Some (Some "e1")) true 100];
     events := [standup];
     outbox := [];
     now := 1000;
     log := [] |}.

Definition empty_request : Request :=
  {| body_name := None; body_email := None; body_password := None;
     body_activation_token := None; body_activation_code := None;
     cookie_refresh_token := None; req_user := None |}.

Definition register_request (n e p : string) : Request :=
  {| body_name := Some n; body_email := Some e; body_password := Some p;
     body_activation_token := None; body_activation_code := None;
     cookie_refresh_token := None; req_user := None |}.

Definition activation_request (t : Token) (code : string) : Request :=
  {| body_name := None; body_email := None; body_password := None;
     body_activation_token := Some t; body_activation_code := Some code;
     cookie_refresh_token := None; req_user := None |}.

Definition refresh_request (t : Token) : Request :=
  {| body_name := None; body_email := None; body_password := None;
     body_activation_token := None; body_activation_code := None;
     cookie_refresh_token := Some t; req_user := None |}.

Definition login_request (e p : string) : Request :=
  {| body_name := None; body_email := Some e; body_password := Some p;
     body_activation_token := None; body_activation_code := None;
     cookie_refresh_token := None; req_user := None |}.

End Demo.

(** ** Scenarios *)

Module Scenario.

Import Demo.

Definition bob_registers : Request :=
  register_request "Bob" "bob@example.org" "Secret#2024".

(** The token and code [bob_registers] is answered with in [empty_world]. *)
Definition bob_token : Token :=
  Signed
    (ActivationPayload
       {| reg_name := "Bob"; reg_email := "bob@example.org";
          reg_password := "Secret#2024" |} "5500")
    "activation-secret" 1000 1300.

Definition bob_activates : Request := activation_request bob_token "5500".

(** Ada's refresh token, signed at 900 for seven days. *)
Definition ada_refresh_token : Token :=
  Signed (IdPayload (Some "u1")) "refresh-secret" 900 605700.

Definition ada_session : Json := JObj [("_id", JStr "u1")].

(** A request of the logged-in Ada, as the authentication middleware hands
    it on. *)
Definition ada_request : Request :=
  {| body_name := None; body_email := None; body_password := None;
     body_activation_token := None; body_activation_code := None;
     cookie_refresh_token := Some ada_refresh_token;
     req_user := Some ada_session |}.

(** [busy_world] after Ada logged out. *)
Definition after_logout : World :=
  world (serve (@logoutUser healthy) busy_world ada_request).

(** [empty_world] once Bob's token has expired. *)
Definition five_minutes_later : World :=
  {| users := []; sessions := ∅; reminders := []; events := []; outbox := [];
     now := 1300; log := [] |}.

(** Bob's record as [userModel.create] stores it in [empty_world]. *)
Definition bob : IUser :=
  {| u_id := "u1"; u_name := "Bob"; u_email := "bob@example.org";
     u_password := hashed "Secret#2024" |}.

(** A world in which nothing is due. *)
Definition quiet_world : World :=
  {| users := [ada]; sessions := ∅;
     reminders := [remind "r3" (Some (Some "e1")) false 5000;
                   remind "r4" (Some (Some "e1")) true 100];
     events := [standup]; outbox := []; now := 1000; log := [] |}.

End Scenario.

Module MoreScenarios.

Import Demo Scenario.

(** The session cache is unreachable. *)
Definition cache_down : Collaborators :=
  deployment (fun c _ =>
                match c with
                | C_redis_get _ | C_redis_del _ => Some "Connection is closed."
                | _ => None
                end).

(** The user collection has a unique index on the e-mail: [create] throws
    when a record with the e-mail is already stored. *)
Definition unique_email : Collaborators :=
  deployment (fun c w =>
                match c with
                | C_create u =>
                    if existsb (fun d => String.eqb (u_email d) (reg_email u))
                         (users w)
                    then Some "E11000 duplicate key error collection"
                    else None
                | _ => None
                end).

(** Three due reminders nobody can be reminded of: no reference, an event
    that is not in the dataset, a user who is not in the collection. *)
Definition no_reference : Reminder := remind "r5" None false 10.

Definition dangling_event : Reminder := remind "r6" (Some (Some "e9")) false 10.

Definition unknown_user : Reminder :=
  {| r_id := "r7"; r_eventId := Some (Some "e1"); r_userId := "u9";
     r_sent := false; r_reminderTime := 10 |}.

End MoreScenarios.

(** * Properties *)

Arguments str : simpl never.
Arguments interpolate : simpl never.
Arguments truthy_str : simpl never.
Arguments truthy_token : simpl never.
Arguments toString : simpl never.
Arguments jwt_sign : simpl never.
Arguments jwt_verify : simpl never.
Arguments patch_sent : simpl never.
Arguments due : simpl never.
Arguments String.append : simpl never.
Arguments Qfloor : simpl never.
Arguments cache_lookup : simpl never.
Arguments parse_text : simpl never.
Arguments get_prop : simpl never.
Arguments opt_prop : simpl never.
Arguments req_user_id : simpl never.

(** Unfold the monad and the services down to states. *)
Ltac run_monad :=
  unfold serve, userModel_findOne, userModel_findById, userModel_create,
    user_comparePasswords, sendMail, redis_get, redis_del,
    sanity_fetch_reminders, sanity_fetch_event, sanity_patch_sent, sendToken,
    random, sign, verify, parse, await, try_catch, bind, ret, throw, lift,
    get_req, clock, next, res_cookie, res_status_json, set_req_user;
  simpl.

(** Follow the path the hypotheses select. *)
Ltac use_hyps :=
  repeat (simpl;
          match goal with
          | H : ?c = _ |- context [?c] => rewrite H
          end);
  simpl.

(** Bring worlds and responses to constructor form. *)
Ltac open_state :=
  unfold error_only, sent_only, logged, with_res, with_world, with_req,
    with_log, with_outbox, with_users, with_reminders, with_sessions,
    fresh_response;
  simpl; rewrite <- ?app_assoc; simpl.

Ltac open_state_in H :=
  unfold error_only, sent_only, logged, with_res, with_world, with_req,
    with_log, with_outbox, with_users, with_reminders, with_sessions,
    fresh_response in H;
  simpl in H; rewrite <- ?app_assoc in H; simpl in H.

(** Compare two states field by field. *)
Ltac same_state := open_state; try reflexivity.

(** Split membership in an explicit list into its cases. *)
Ltac in_list H :=
  simpl in H;
  repeat match type of H with
         | _ \/ _ => destruct H as [H | H]
         end;
  try contradiction; try discriminate H.

(** Run a handler along the path the hypotheses select. *)
Ltac walk :=
  run_monad;
  repeat match goal with
         | H : fault _ _ = _ |- _ => progress (open_state_in H)
         end;
  repeat (progress (use_hyps; open_state));
  try reflexivity.

Lemma is_null_dec (v : Json) : {v = JNull} + {v <> JNull}.
Proof. destruct v; (left; reflexivity) || (right; discriminate). Qed.

Lemma get_prop_not_null (v : Json) (prop : string) :
  v <> JNull -> get_prop v prop = Ok (opt_prop v prop).
Proof. destruct v; intros Hv; try reflexivity. destruct Hv; reflexivity. Qed.

Lemma verified_is_truthy `{Collaborators} (t : option Token) (secret : string)
    (n : Z) (p : Payload) :
  jwt_verify t secret n = Ok p -> truthy_token t = true.
Proof.
  destruct t as [[? ? ? ? | text] |]; unfold jwt_verify; intros Hv;
    try discriminate; try reflexivity.
  destruct (String.eqb text EmptyString); [discriminate |].
  destruct (negb (dot_parts text =? 3)%nat); discriminate.
Qed.

Lemma calls_since_logged (cs : list (Call * bool)) (w : World) :
  calls_since w (logged cs w) = cs.
Proof. unfold calls_since, logged. simpl. apply drop_app_length. Qed.

Lemma calls_since_refl (w : World) : calls_since w w = [].
Proof. unfold calls_since. apply drop_all. Qed.

Lemma find_email_none (us : list IUser) (e : string) :
  find (fun u => String.eqb (u_email u) e) us = None ->
  forall u, In u us -> u_email u <> e.
Proof.
  intros Hf u Hin He. apply (find_none _ _ Hf) in Hin.
  rewrite He, String.eqb_refl in Hin. discriminate.
Qed.

Lemma find_email_some (us : list IUser) (e : string) (u : IUser) :
  In u us -> u_email u = e ->
  exists u', find (fun u => String.eqb (u_email u) e) us = Some u'.
Proof.
  intros Hin He. destruct (find _ us) eqn:Hf; eauto.
  apply (find_none _ _ Hf) in Hin.
  rewrite He, String.eqb_refl in Hin. discriminate.
Qed.

Lemma present_true (rq : Request) :
  present rq = true ->
  truthy_str (body_name rq) = true /\ truthy_str (body_email rq) = true
  /\ truthy_str (body_password rq) = true.
Proof.
  unfold present. intros Hp.
  apply andb_prop in Hp as [Hp ?]. apply andb_prop in Hp as [? ?]. auto.
Qed.

(** Decimal rendering of a four-digit number has four characters. *)
Lemma toString_four_digits (n : Z) :
  1000 <= n <= 9999 -> String.length (toString n) = 4%nat.
Proof.
  intros Hn.
  assert (Hall : forallb (fun k => Nat.eqb (String.length (toString (1000 + Z.of_nat k))) 4)
                   (seq 0 (Z.to_nat 9000)) = true) by (vm_compute; reflexivity).
  rewrite forallb_forall in Hall.
  specialize (Hall (Z.to_nat (n - 1000))).
  rewrite Z2Nat.id in Hall by lia.
  replace (1000 + (n - 1000)) with n in Hall by lia.
  apply Nat.eqb_eq, Hall, in_seq. lia.
Qed.

(** [Math.floor(r * 9000 + 1000)] for a draw [r] in [0, 1). *)
Lemma code_range (r : Q) :
  (0 <= r)%Q -> (r < 1)%Q -> 1000 <= Qfloor (r * 9000 + 1000)%Q <= 9999.
Proof.
  intros H0 H1.
  assert (Hlo : (inject_Z 1000 <= r * 9000 + 1000)%Q).
  { destruct r as [a b]. unfold Qle, Qlt, Qmult, Qplus, inject_Z in *.
    cbn [Qnum Qden] in *. lia. }
  assert (Hhi : (r * 9000 + 1000 < inject_Z 10000)%Q).
  { destruct r as [a b]. unfold Qle, Qlt, Qmult, Qplus, inject_Z in *.
    cbn [Qnum Qden] in *. lia. }
  split.
  - apply Qfloor_resp_le in Hlo. rewrite Qfloor_Z in Hlo. exact Hlo.
  - pose proof (Qfloor_le (r * 9000 + 1000)%Q) as Hle.
    assert (Hz : (inject_Z (Qfloor (r * 9000 + 1000)%Q) < inject_Z 10000)%Q)
      by (eapply Qle_lt_trans; eauto).
    rewrite <- Zlt_Qlt in Hz. lia.
Qed.

Section RegisterUser.

Context `{Collaborators}.

Lemma registerUser_missing w rq :
  present rq = false ->
  serve registerUser w rq =
    Build_St w rq (error_only (Build_ErrorHandler "Please enter all fields" 400)).
Proof.
  unfold present. intros Hp. unfold registerUser. run_monad.
  destruct (truthy_str (body_name rq)), (truthy_str (body_email rq)),
    (truthy_str (body_password rq)); try discriminate; reflexivity.
Qed.

Lemma registerUser_invalid_email w rq :
  present rq = true -> isEmail (str (body_email rq)) = false ->
  serve registerUser w rq =
    Build_St w rq (error_only (Build_ErrorHandler "Invalid Email" 400)).
Proof.
  intros (Hn & He & Hp)%present_true Hv. unfold registerUser. run_monad.
  use_hyps. reflexivity.
Qed.

Lemma registerUser_weak_password w rq :
  present rq = true -> isEmail (str (body_email rq)) = true ->
  isStrongPassword (str (body_password rq)) = false ->
  serve registerUser w rq =
    Build_St w rq (error_only (Build_ErrorHandler password_rule 400)).
Proof.
  intros (Hn & He & Hp)%present_true Hv Hs. unfold registerUser. run_monad.
  use_hyps. reflexivity.
Qed.

Lemma registerUser_lookup_fails w rq msg :
  checks_pass rq ->
  fault (C_findOne (str (body_email rq))) w = Some msg ->
  serve registerUser w rq =
    Build_St (logged [(C_findOne (str (body_email rq)), false)] w) rq
      (error_only (Build_ErrorHandler msg 500)).
Proof.
  intros ((Hn & He & Hp)%present_true & Hv & Hs) Hf.
  unfold registerUser. run_monad. use_hyps. reflexivity.
Qed.

Lemma registerUser_email_exists w rq u :
  checks_pass rq ->
  fault (C_findOne (str (body_email rq))) w = None ->
  find (fun u => String.eqb (u_email u) (str (body_email rq))) (users w) = Some u ->
  serve registerUser w rq =
    Build_St (logged [(C_findOne (str (body_email rq)), true)] w) rq
      (error_only (Build_ErrorHandler "Email already exists" 400)).
Proof.
  intros ((Hn & He & Hp)%present_true & Hv & Hs) Hf Hu.
  unfold registerUser. run_monad. use_hyps. reflexivity.
Qed.

Lemma registerUser_mail_fails w rq msg :
  checks_pass rq ->
  fault (C_findOne (str (body_email rq))) w = None ->
  find (fun u => String.eqb (u_email u) (str (body_email rq))) (users w) = None ->
  fault (C_sendMail (activation_mail w rq))
    (logged [(C_findOne (str (body_email rq)), true); (C_random, true)] w)
  = Some msg ->
  serve registerUser w rq =
    Build_St
      (logged [(C_findOne (str (body_email rq)), true); (C_random, true);
               (C_sendMail (activation_mail w rq), false)] w)
      rq (error_only (Build_ErrorHandler msg 500)).
Proof.
  intros ((Hn & He & Hp)%present_true & Hv & Hs) Hf Hu Hm.
  unfold registerUser, createActivationToken. run_monad. use_hyps.
  revert Hm. unfold activation_mail, drawn_code. same_state.
  intros Hm. rewrite Hm. same_state.
Qed.

Lemma registerUser_sends w rq :
  checks_pass rq ->
  fault (C_findOne (str (body_email rq))) w = None ->
  find (fun u => String.eqb (u_email u) (str (body_email rq))) (users w) = None ->
  fault (C_sendMail (activation_mail w rq))
    (logged [(C_findOne (str (body_email rq)), true); (C_random, true)] w)
  = None ->
  serve registerUser w rq =
    Build_St
      (with_outbox (outbox w ++ [activation_mail w rq])
         (logged [(C_findOne (str (body_email rq)), true); (C_random, true);
                  (C_sendMail (activation_mail w rq), true)] w))
      rq
      (sent_only 201
         (B_activation ("Activation code sent to " ++ str (body_email rq))
            (activation_jwt w rq))).
Proof.
  intros ((Hn & He & Hp)%present_true & Hv & Hs) Hf Hu Hm.
  unfold registerUser, createActivationToken. run_monad. use_hyps.
  revert Hm. unfold activation_mail, drawn_code. same_state.
  intros Hm. rewrite Hm. same_state.
Qed.

(** Every run of [registerUser] ends in one of four ways. *)
Lemma registerUser_cases w rq :
  let e := str (body_email rq) in
  (exists err, serve registerUser w rq = Build_St w rq (error_only err))
  \/ (exists err ok,
        serve registerUser w rq =
          Build_St (logged [(C_findOne e, ok)] w) rq (error_only err))
  \/ (checks_pass rq
      /\ find (fun u => String.eqb (u_email u) e) (users w) = None
      /\ exists msg,
           serve registerUser w rq =
             Build_St
               (logged [(C_findOne e, true); (C_random, true);
                        (C_sendMail (activation_mail w rq), false)] w)
               rq (error_only (Build_ErrorHandler msg 500)))
  \/ (checks_pass rq
      /\ find (fun u => String.eqb (u_email u) e) (users w) = None
      /\ serve registerUser w rq =
           Build_St
             (with_outbox (outbox w ++ [activation_mail w rq])
                (logged [(C_findOne e, true); (C_random, true);
                         (C_sendMail (activation_mail w rq), true)] w))
             rq
             (sent_only 201
                (B_activation ("Activation code sent to " ++ e)
                   (activation_jwt w rq)))).
Proof.
  intros e. subst e.
  destruct (present rq) eqn:Hp;
    [| left; eexists; apply registerUser_missing; assumption].
  destruct (isEmail (str (body_email rq))) eqn:Hv;
    [| left; eexists; apply registerUser_invalid_email; assumption].
  destruct (isStrongPassword (str (body_password rq))) eqn:Hs;
    [| left; eexists; apply registerUser_weak_password; assumption].
  assert (Hc : checks_pass rq) by (repeat split; assumption).
  destruct (fault (C_findOne (str (body_email rq))) w) eqn:Hf;
    [right; left; do 2 eexists; apply registerUser_lookup_fails; eassumption |].
  destruct (find (fun u => String.eqb (u_email u) (str (body_email rq))) (users w))
    eqn:Hu;
    [right; left; do 2 eexists; eapply registerUser_email_exists; eassumption |].
  destruct (fault (C_sendMail (activation_mail w rq))
              (logged [(C_findOne (str (body_email rq)), true); (C_random, true)] w))
    eqn:Hm.
  - right; right; left. repeat split; try assumption.
    eexists. apply registerUser_mail_fails; eassumption.
  - right; right; right. repeat split; try assumption.
    apply registerUser_sends; assumption.
Qed.

(** C3. [registerUser] forwards a 400 error, and calls no mail transport,
    when a field of the body is missing, when the e-mail is not valid, when
    the password is not strong, and when the lookup finds a user with the
    e-mail; it responds 201 or calls the mail transport only when the three
    checks pass and no user has the e-mail, and then, with the services up,
    the activation mail is sent and the response is 201 with the token. *)
Theorem registerUser_validation (w : World) (rq : Request) :
  let email := str (body_email rq) in
  let s' := serve registerUser w rq in
  (present rq = false ->
     s' = Build_St w rq
            (error_only (Build_ErrorHandler "Please enter all fields" 400)))
  /\ (present rq = true -> isEmail email = false ->
     s' = Build_St w rq (error_only (Build_ErrorHandler "Invalid Email" 400)))
  /\ (present rq = true -> isEmail email = true ->
      isStrongPassword (str (body_password rq)) = false ->
     s' = Build_St w rq (error_only (Build_ErrorHandler password_rule 400)))
  /\ (checks_pass rq -> fault (C_findOne email) w = None ->
      (exists u, In u (users w) /\ u_email u = email) ->
     s' = Build_St (logged [(C_findOne email, true)] w) rq
            (error_only (Build_ErrorHandler "Email already exists" 400)))
  /\ (status (res s') = Some 201
      \/ (exists m ok, In (C_sendMail m, ok) (calls_since w (world s'))) ->
     checks_pass rq /\ forall u, In u (users w) -> u_email u <> email)
  /\ (checks_pass rq -> (forall u, In u (users w) -> u_email u <> email) ->
      services_up ->
     outbox (world s') = (outbox w ++ [activation_mail w rq])%list
     /\ res s' =
          sent_only 201
            (B_activation ("Activation code sent to " ++ email)
               (activation_jwt w rq))).
Proof.
  intros email s'. subst email s'.
  refine (conj _ (conj _ (conj _ (conj _ (conj _ _))))).
  - apply registerUser_missing.
  - apply registerUser_invalid_email.
  - apply registerUser_weak_password.
  - intros Hc Hf (u & Hin & He).
    destruct (find_email_some _ _ _ Hin He) as [u' Hu'].
    eapply registerUser_email_exists; eassumption.
  - intros Hdone.
    destruct (registerUser_cases w rq)
      as [[err E] | [(err & ok & E) | [(Hc & Hu & msg & E) | (Hc & Hu & E)]]];
      rewrite E in Hdone; simpl in Hdone.
    + destruct Hdone as [? | (m & ok & Hin)]; [discriminate |].
      rewrite calls_since_refl in Hin. destruct Hin.
    + destruct Hdone as [? | (m & ok' & Hin)]; [discriminate |].
      rewrite calls_since_logged in Hin. destruct Hin as [? | []]. discriminate.
    + split; [assumption | apply find_email_none; assumption].
    + split; [assumption | apply find_email_none; assumption].
  - intros Hc Hnone Hup.
    assert (Hu : find (fun u => String.eqb (u_email u) (str (body_email rq)))
                   (users w) = None).
    { destruct (find _ (users w)) eqn:Hu; [| reflexivity].
      apply find_some in Hu as [Hin He]. apply String.eqb_eq in He.
      exfalso. eapply Hnone; eassumption. }
    rewrite registerUser_sends; auto.
Qed.

(** C10. Whenever [registerUser] responds 201, the body carries the
    activation token; its payload, readable without the key, holds the
    name, e-mail and password exactly as submitted together with the
    activation code, which is the code of the mail just sent and, for a draw
    in [0, 1), has four digits. The caller reads the code off the response. *)
Theorem registerUser_response_discloses_code (w : World) (rq : Request) :
  let s' := serve registerUser w rq in
  (forall w', (0 <= Math_random w')%Q /\ (Math_random w' < 1)%Q) ->
  status (res s') = Some 201 ->
  exists t code,
    json (res s') =
      Some (B_activation ("Activation code sent to " ++ str (body_email rq)) t)
    /\ jwt_decode t = Some (ActivationPayload (registering rq) code)
    /\ reg_password (registering rq) = str (body_password rq)
    /\ String.length code = 4%nat
    /\ (exists sent,
          outbox (world s') = (sent ++ [activation_mail w rq])%list
          /\ m_data (activation_mail w rq)
             = ActivationData (str (body_name rq)) code)
    /\ code_in_response (res s') = Some code.
Proof.
  intros s' Hr H201. subst s'.
  destruct (registerUser_cases w rq)
    as [[err E] | [(err & ok & E) | [(Hc & Hu & msg & E) | (Hc & Hu & E)]]];
    rewrite E in *; simpl in H201; try discriminate.
  exists (activation_jwt w rq), (drawn_code w (str (body_email rq))).
  simpl. repeat split.
  - apply toString_four_digits, code_range; apply Hr.
  - exists (outbox w). split; reflexivity.
Qed.

End RegisterUser.

Section ActivateUser.

Context `{Collaborators}.

Lemma activateUser_verify_fails w rq msg :
  jwt_verify (body_activation_token rq) ACTIVATION_SECRET (now w) = Throw msg ->
  serve activateUser w rq = Build_St w rq (error_only (Build_ErrorHandler msg 500)).
Proof.
  intros Hv. unfold activateUser. run_monad. use_hyps. reflexivity.
Qed.

Lemma activateUser_wrong_code w rq p :
  jwt_verify (body_activation_token rq) ACTIVATION_SECRET (now w) = Ok p ->
  strict_eq (body_activation_code rq) (payload_activationCode p) = false ->
  serve activateUser w rq =
    Build_St w rq (error_only (Build_ErrorHandler "Invalid Activation Code" 400)).
Proof.
  intros Hv Hc. unfold activateUser. run_monad. use_hyps. reflexivity.
Qed.

Lemma activateUser_no_user w rq id :
  jwt_verify (body_activation_token rq) ACTIVATION_SECRET (now w) = Ok (IdPayload id) ->
  body_activation_code rq = None ->
  serve activateUser w rq =
    Build_St w rq
      (error_only
         (Build_ErrorHandler
            "Cannot read properties of undefined (reading 'name')" 500)).
Proof.
  intros Hv Hc. unfold activateUser. run_monad. use_hyps. reflexivity.
Qed.

Lemma activateUser_create_fails w rq u code msg :
  jwt_verify (body_activation_token rq) ACTIVATION_SECRET (now w)
  = Ok (ActivationPayload u code) ->
  body_activation_code rq = Some code ->
  fault (C_create u) w = Some msg ->
  serve activateUser w rq =
    Build_St (logged [(C_create u, false)] w) rq
      (error_only (Build_ErrorHandler msg 500)).
Proof.
  intros Hv Hc Hf. unfold activateUser. run_monad. use_hyps.
  rewrite String.eqb_refl. simpl. destruct u; simpl in *. use_hyps. reflexivity.
Qed.

Lemma activateUser_creates w rq u code :
  jwt_verify (body_activation_token rq) ACTIVATION_SECRET (now w)
  = Ok (ActivationPayload u code) ->
  body_activation_code rq = Some code ->
  fault (C_create u) w = None ->
  serve activateUser w rq =
    Build_St
      (with_users (users w ++ [created w u]) (logged [(C_create u, true)] w))
      rq
      (sent_only 201 (B_activated (created w u) "Account activated successfully")).
Proof.
  intros Hv Hc Hf. unfold activateUser. run_monad. use_hyps.
  rewrite String.eqb_refl. simpl. destruct u; simpl in *. use_hyps. reflexivity.
Qed.

Lemma strict_eq_some (a : option string) (c : string) :
  strict_eq a (Some c) = true -> a = Some c.
Proof.
  destruct a as [x |]; simpl; [| discriminate].
  intros Hx. apply String.eqb_eq in Hx. congruence.
Qed.

Lemma strict_eq_none (a : option string) : strict_eq a None = true -> a = None.
Proof. destruct a; simpl; [discriminate | reflexivity]. Qed.

(** Every run of [activateUser] ends in one of three ways. *)
Lemma activateUser_cases w rq :
  (exists err, serve activateUser w rq = Build_St w rq (error_only err))
  \/ (exists u err,
        serve activateUser w rq =
          Build_St (logged [(C_create u, false)] w) rq (error_only err))
  \/ (exists u code,
        jwt_verify (body_activation_token rq) ACTIVATION_SECRET (now w)
        = Ok (ActivationPayload u code)
        /\ body_activation_code rq = Some code
        /\ fault (C_create u) w = None
        /\ serve activateUser w rq =
             Build_St
               (with_users (users w ++ [created w u])
                  (logged [(C_create u, true)] w))
               rq
               (sent_only 201
                  (B_activated (created w u) "Account activated successfully"))).
Proof.
  destruct (jwt_verify (body_activation_token rq) ACTIVATION_SECRET (now w))
    as [p | msg] eqn:Hv;
    [| left; eexists; apply activateUser_verify_fails; eassumption].
  destruct (strict_eq (body_activation_code rq) (payload_activationCode p))
    eqn:Hc;
    [| left; eexists; eapply activateUser_wrong_code; eassumption].
  destruct p as [u code | id]; simpl in Hc.
  - apply strict_eq_some in Hc.
    destruct (fault (C_create u) w) eqn:Hf.
    + right; left. do 2 eexists. eapply activateUser_create_fails; eassumption.
    + right; right. exists u, code. repeat split; try assumption.
      eapply activateUser_creates; eassumption.
  - apply strict_eq_none in Hc.
    left; eexists. eapply activateUser_no_user; eassumption.
Qed.

(** What [createActivationToken] returns, and when its token verifies. *)
Lemma createActivationToken_expiry (u : IRegisterUser) (s0 : St) :
  exists code t,
    fst (createActivationToken u s0)
    = Ok {| activationCode := code; token := t |}
    /\ jwt_decode t = Some (ActivationPayload u code)
    /\ forall n,
         jwt_verify (Some t) ACTIVATION_SECRET n
         = if now (world s0) + 300 <=? n then Throw "jwt expired"
           else Ok (ActivationPayload u code).
Proof.
  unfold createActivationToken. run_monad.
  do 2 eexists. split; [reflexivity |]. split; [reflexivity |].
  intros n. unfold jwt_verify. rewrite String.eqb_refl. reflexivity.
Qed.

(** C2. [activateUser] verifies the submitted token against the activation
    secret and forwards the verification error otherwise; a token issued by
    [createActivationToken] expires 300 seconds after it was signed and fails
    verification from then on; with a verified token, a submitted code that
    differs from the token's forwards 'Invalid Activation Code', and a
    matching code makes the handler call [userModel.create] with the token's
    name, e-mail and password, the only call it makes, and, once the record
    is created, respond 201 'Account activated successfully'. *)
Theorem activateUser_activation (w : World) (rq : Request) :
  let s' := serve activateUser w rq in
  let verified :=
    jwt_verify (body_activation_token rq) ACTIVATION_SECRET (now w) in
  (forall msg, verified = Throw msg ->
     s' = Build_St w rq (error_only (Build_ErrorHandler msg 500)))
  /\ (forall u s0, exists code t,
        fst (createActivationToken u s0)
        = Ok {| activationCode := code; token := t |}
        /\ forall n,
             jwt_verify (Some t) ACTIVATION_SECRET n
             = if now (world s0) + 300 <=? n then Throw "jwt expired"
               else Ok (ActivationPayload u code))
  /\ (forall p, verified = Ok p ->
        strict_eq (body_activation_code rq) (payload_activationCode p) = false ->
        s' = Build_St w rq
               (error_only (Build_ErrorHandler "Invalid Activation Code" 400)))
  /\ (forall u code, verified = Ok (ActivationPayload u code) ->
        body_activation_code rq = Some code ->
        (exists ok, calls_since w (world s') = [(C_create u, ok)])
        /\ (fault (C_create u) w = None ->
            users (world s') = (users w ++ [created w u])%list
            /\ u_name (created w u) = reg_name u
            /\ u_email (created w u) = reg_email u
            /\ u_password (created w u) = stored_password (reg_password u)
            /\ res s' =
                 sent_only 201
                   (B_activated (created w u) "Account activated successfully"))).
Proof.
  intros s' verified. subst s' verified.
  refine (conj _ (conj _ (conj _ _))).
  - intros msg Hv. apply activateUser_verify_fails. assumption.
  - intros u s0. destruct (createActivationToken_expiry u s0)
      as (code & t & Hr & _ & Hn). eauto.
  - intros p Hv Hc. eapply activateUser_wrong_code; eassumption.
  - intros u code Hv Hc. split.
    + destruct (fault (C_create u) w) eqn:Hf.
      * erewrite activateUser_create_fails by eassumption.
        eexists. apply calls_since_logged.
      * erewrite activateUser_creates by eassumption.
        eexists. simpl. apply calls_since_logged.
    + intros Hf. erewrite activateUser_creates by eassumption.
      simpl. repeat split.
Qed.

End ActivateUser.

Section UserLogin.

Context `{Collaborators}.

Lemma userLogin_missing w rq :
  truthy_str (body_password rq) && truthy_str (body_email rq) = false ->
  serve userLogin w rq =
    Build_St w rq
      (error_only (Build_ErrorHandler "Please provide all the fields" 400)).
Proof.
  intros Hp. unfold userLogin. run_monad.
  destruct (truthy_str (body_password rq)), (truthy_str (body_email rq));
    try discriminate; reflexivity.
Qed.

Lemma userLogin_lookup_fails w rq msg :
  truthy_str (body_password rq) = true -> truthy_str (body_email rq) = true ->
  fault (C_findOne (str (body_email rq))) w = Some msg ->
  serve userLogin w rq =
    Build_St (logged [(C_findOne (str (body_email rq)), false)] w) rq
      (error_only (Build_ErrorHandler msg 400)).
Proof.
  intros Hp He Hf. unfold userLogin. walk.
Qed.

Lemma userLogin_unknown_email w rq :
  truthy_str (body_password rq) = true -> truthy_str (body_email rq) = true ->
  fault (C_findOne (str (body_email rq))) w = None ->
  find (fun u => String.eqb (u_email u) (str (body_email rq))) (users w) = None ->
  serve userLogin w rq =
    Build_St (logged [(C_findOne (str (body_email rq)), true)] w) rq
      (error_only (Build_ErrorHandler "email or password is invalid" 400)).
Proof.
  intros Hp He Hf Hu. unfold userLogin. walk.
Qed.

Lemma userLogin_compare_fails w rq u msg :
  truthy_str (body_password rq) = true -> truthy_str (body_email rq) = true ->
  fault (C_findOne (str (body_email rq))) w = None ->
  find (fun u => String.eqb (u_email u) (str (body_email rq))) (users w) = Some u ->
  fault (C_comparePasswords u (str (body_password rq)))
    (logged [(C_findOne (str (body_email rq)), true)] w) = Some msg ->
  serve userLogin w rq =
    Build_St
      (logged [(C_findOne (str (body_email rq)), true);
               (C_comparePasswords u (str (body_password rq)), false)] w)
      rq (error_only (Build_ErrorHandler msg 400)).
Proof.
  intros Hp He Hf Hu Hc. unfold userLogin. walk.
Qed.

Lemma userLogin_wrong_password w rq u :
  truthy_str (body_password rq) = true -> truthy_str (body_email rq) = true ->
  fault (C_findOne (str (body_email rq))) w = None ->
  find (fun u => String.eqb (u_email u) (str (body_email rq))) (users w) = Some u ->
  fault (C_comparePasswords u (str (body_password rq)))
    (logged [(C_findOne (str (body_email rq)), true)] w) = None ->
  comparePasswords u (str (body_password rq)) = false ->
  serve userLogin w rq =
    Build_St
      (logged [(C_findOne (str (body_email rq)), true);
               (C_comparePasswords u (str (body_password rq)), true)] w)
      rq (error_only (Build_ErrorHandler "email or password is invalid" 400)).
Proof.
  intros Hp He Hf Hu Hc Hw. unfold userLogin. walk.
Qed.

Lemma userLogin_sendToken_fails w rq u msg :
  truthy_str (body_password rq) = true -> truthy_str (body_email rq) = true ->
  fault (C_findOne (str (body_email rq))) w = None ->
  find (fun u => String.eqb (u_email u) (str (body_email rq))) (users w) = Some u ->
  fault (C_comparePasswords u (str (body_password rq)))
    (logged [(C_findOne (str (body_email rq)), true)] w) = None ->
  comparePasswords u (str (body_password rq)) = true ->
  fault (C_sendToken u)
    (logged [(C_findOne (str (body_email rq)), true);
             (C_comparePasswords u (str (body_password rq)), true)] w)
  = Some msg ->
  serve userLogin w rq =
    Build_St
      (logged [(C_findOne (str (body_email rq)), true);
               (C_comparePasswords u (str (body_password rq)), true);
               (C_sendToken u, false)] w)
      rq (error_only (Build_ErrorHandler msg 400)).
Proof.
  intros Hp He Hf Hu Hc Hw Ht. unfold userLogin. walk.
Qed.

Lemma userLogin_sendToken w rq u :
  truthy_str (body_password rq) = true -> truthy_str (body_email rq) = true ->
  fault (C_findOne (str (body_email rq))) w = None ->
  find (fun u => String.eqb (u_email u) (str (body_email rq))) (users w) = Some u ->
  fault (C_comparePasswords u (str (body_password rq)))
    (logged [(C_findOne (str (body_email rq)), true)] w) = None ->
  comparePasswords u (str (body_password rq)) = true ->
  fault (C_sendToken u)
    (logged [(C_findOne (str (body_email rq)), true);
             (C_comparePasswords u (str (body_password rq)), true)] w)
  = None ->
  serve userLogin w rq =
    Build_St
      (with_sessions (fst (sendToken_effect u (sessions w) fresh_response))
         (logged [(C_findOne (str (body_email rq)), true);
                  (C_comparePasswords u (str (body_password rq)), true);
                  (C_sendToken u, true)] w))
      rq (snd (sendToken_effect u (sessions w) fresh_response)).
Proof.
  intros Hp He Hf Hu Hc Hw Ht. unfold userLogin. walk.
  destruct (sendToken_effect u (sessions w) _) as [ss r]. same_state.
Qed.

(** Every run of [userLogin] either forwards one error without calling
    [sendToken] or with a failed call of it, or has found the user, matched
    the password and called [sendToken]. *)
Lemma userLogin_cases w rq :
  let lookup :=
    find (fun u => String.eqb (u_email u) (str (body_email rq))) (users w) in
  (exists err cs,
     serve userLogin w rq = Build_St (logged cs w) rq (error_only err)
     /\ forall u ok, ~ In (C_sendToken u, ok) cs)
  \/ (exists u cs,
        lookup = Some u
        /\ comparePasswords u (str (body_password rq)) = true
        /\ calls_since w (world (serve userLogin w rq))
           = (cs ++ [(C_sendToken u, false)])%list
        /\ forall u' ok, ~ In (C_sendToken u', ok) cs)
  \/ (exists u cs,
        lookup = Some u
        /\ comparePasswords u (str (body_password rq)) = true
        /\ calls_since w (world (serve userLogin w rq))
           = (cs ++ [(C_sendToken u, true)])%list
        /\ forall u' ok, ~ In (C_sendToken u', ok) cs).
Proof.
  intros lookup. subst lookup.
  assert (Hno : forall (cs : list (Call * bool)),
             Forall (fun c => match fst c with C_sendToken _ => False | _ => True end) cs ->
             forall u ok, ~ In (C_sendToken u, ok) cs).
  { intros cs Hall u ok Hin. rewrite Forall_forall in Hall.
    apply list_elem_of_In, Hall in Hin. exact Hin. }
  destruct (truthy_str (body_password rq)) eqn:Hp.
  2:{ left. exists (Build_ErrorHandler "Please provide all the fields" 400), [].
      split; [| intros u ok []].
      rewrite userLogin_missing by (rewrite Hp; reflexivity).
      unfold logged. rewrite app_nil_r. destruct w; reflexivity. }
  destruct (truthy_str (body_email rq)) eqn:He.
  2:{ left. exists (Build_ErrorHandler "Please provide all the fields" 400), [].
      split; [| intros u ok []].
      rewrite userLogin_missing by (rewrite Hp, He; reflexivity).
      unfold logged. rewrite app_nil_r. destruct w; reflexivity. }
  destruct (fault (C_findOne (str (body_email rq))) w) eqn:Hf.
  { left. do 2 eexists. split; [apply userLogin_lookup_fails; eassumption |].
    apply Hno. repeat constructor. }
  destruct (find (fun u => String.eqb (u_email u) (str (body_email rq))) (users w))
    as [u |] eqn:Hu.
  2:{ left. do 2 eexists. split; [apply userLogin_unknown_email; eassumption |].
      apply Hno. repeat constructor. }
  destruct (fault (C_comparePasswords u (str (body_password rq)))
              (logged [(C_findOne (str (body_email rq)), true)] w)) eqn:Hc.
  { left. do 2 eexists. split; [eapply userLogin_compare_fails; eassumption |].
    apply Hno. repeat constructor. }
  destruct (comparePasswords u (str (body_password rq))) eqn:Hw.
  2:{ left. do 2 eexists. split; [eapply userLogin_wrong_password; eassumption |].
      apply Hno. repeat constructor. }
  destruct (fault (C_sendToken u)
              (logged [(C_findOne (str (body_email rq)), true);
                       (C_comparePasswords u (str (body_password rq)), true)] w))
    eqn:Ht.
  - right; left. exists u. eexists. split; [reflexivity |]. split; [exact Hw |].
    erewrite userLogin_sendToken_fails by eassumption. simpl.
    rewrite calls_since_logged. split.
    + instantiate (1 := [(C_findOne (str (body_email rq)), true);
                         (C_comparePasswords u (str (body_password rq)), true)]).
      reflexivity.
    + apply Hno. repeat constructor.
  - right; right. exists u. eexists. split; [reflexivity |]. split; [exact Hw |].
    erewrite userLogin_sendToken by eassumption. simpl.
    change (with_sessions ?ss (logged ?cs w)) with (logged cs (with_sessions ss w)).
    unfold calls_since, logged. simpl. rewrite drop_app_length. split.
    + instantiate (1 := [(C_findOne (str (body_email rq)), true);
                         (C_comparePasswords u (str (body_password rq)), true)]).
      reflexivity.
    + apply Hno. repeat constructor.
Qed.

(** C4. [userLogin] forwards a 400 error when the e-mail or the password is
    absent, when no user has the e-mail, and when the password comparison
    fails, with the same message 'email or password is invalid' in the last
    two cases; it calls [sendToken] only for the user found under the e-mail
    and only after the comparison succeeded, and with the services up it
    does call it then. *)
Theorem userLogin_credentials (w : World) (rq : Request) :
  let email := str (body_email rq) in
  let password := str (body_password rq) in
  let lookup := find (fun u => String.eqb (u_email u) email) (users w) in
  let s' := serve userLogin w rq in
  (truthy_str (body_password rq) && truthy_str (body_email rq) = false ->
     s' = Build_St w rq
            (error_only (Build_ErrorHandler "Please provide all the fields" 400)))
  /\ (truthy_str (body_password rq) && truthy_str (body_email rq) = true ->
      fault (C_findOne email) w = None ->
      (forall u, In u (users w) -> u_email u <> email) ->
     s' = Build_St (logged [(C_findOne email, true)] w) rq
            (error_only (Build_ErrorHandler "email or password is invalid" 400)))
  /\ (forall u,
        truthy_str (body_password rq) && truthy_str (body_email rq) = true ->
        fault (C_findOne email) w = None ->
        lookup = Some u ->
        fault (C_comparePasswords u password) (logged [(C_findOne email, true)] w)
        = None ->
        comparePasswords u password = false ->
        s' = Build_St
               (logged [(C_findOne email, true);
                        (C_comparePasswords u password, true)] w)
               rq
               (error_only (Build_ErrorHandler "email or password is invalid" 400)))
  /\ (forall u ok, In (C_sendToken u, ok) (calls_since w (world s')) ->
        In u (users w) /\ u_email u = email
        /\ comparePasswords u password = true)
  /\ (forall u,
        truthy_str (body_password rq) && truthy_str (body_email rq) = true ->
        services_up -> lookup = Some u -> comparePasswords u password = true ->
        In (C_sendToken u, true) (calls_since w (world s'))).
Proof.
  intros email password lookup s'. subst email password lookup s'.
  refine (conj _ (conj _ (conj _ (conj _ _)))).
  - apply userLogin_missing.
  - intros [Hp He]%andb_prop Hf Hnone.
    apply userLogin_unknown_email; try assumption.
    destruct (find _ (users w)) eqn:Hu; [| reflexivity].
    apply find_some in Hu as [Hin Heq]. apply String.eqb_eq in Heq.
    exfalso. eapply Hnone; eassumption.
  - intros u [Hp He]%andb_prop Hf Hu Hc Hw.
    apply userLogin_wrong_password; assumption.
  - intros u ok Hin.
    assert (Hfound :
              find (fun u => String.eqb (u_email u) (str (body_email rq))) (users w)
              = Some u
              /\ comparePasswords u (str (body_password rq)) = true).
    { destruct (userLogin_cases w rq)
        as [(err & cs & E & Hno) | [(u0 & cs & Hu & Hw & E & Hno)
                                   | (u0 & cs & Hu & Hw & E & Hno)]].
      - rewrite E in Hin. simpl in Hin. rewrite calls_since_logged in Hin.
        exfalso. eapply Hno; eassumption.
      - rewrite E in Hin. apply in_app_or in Hin as [Hin | [Hin | []]].
        + exfalso. eapply Hno; eassumption.
        + inversion Hin; subst. auto.
      - rewrite E in Hin. apply in_app_or in Hin as [Hin | [Hin | []]].
        + exfalso. eapply Hno; eassumption.
        + inversion Hin; subst. auto. }
    destruct Hfound as [Hu Hw]. apply find_some in Hu as [Hin' Heq].
    apply String.eqb_eq in Heq. auto.
  - intros u [Hp He]%andb_prop Hup Hu Hw.
    erewrite userLogin_sendToken by (try eassumption; apply Hup). simpl.
    change (with_sessions ?ss (logged ?cs w)) with (logged cs (with_sessions ss w)).
    unfold calls_since, logged. simpl. rewrite drop_app_length.
    simpl. auto.
Qed.

End UserLogin.

Section UpdateAccessToken.

Context `{Collaborators}.

Lemma UpdateAccessToken_no_cookie w rq :
  truthy_token (cookie_refresh_token rq) = false ->
  serve UpdateAccessToken w rq =
    Build_St w rq (error_only (Build_ErrorHandler "Refresh token not found" 401)).
Proof. intros Ht. unfold UpdateAccessToken. walk. Qed.

Lemma UpdateAccessToken_verify_fails w rq msg :
  truthy_token (cookie_refresh_token rq) = true ->
  jwt_verify (cookie_refresh_token rq) REFRESH_TOKEN (now w) = Throw msg ->
  serve UpdateAccessToken w rq =
    Build_St w rq (error_only (Build_ErrorHandler msg 400)).
Proof. intros Ht Hv. unfold UpdateAccessToken. walk. Qed.

Lemma UpdateAccessToken_cache_fails w rq decoded msg :
  jwt_verify (cookie_refresh_token rq) REFRESH_TOKEN (now w) = Ok decoded ->
  fault (C_redis_get (payload_id decoded)) w = Some msg ->
  serve UpdateAccessToken w rq =
    Build_St (logged [(C_redis_get (payload_id decoded), false)] w) rq
      (error_only (Build_ErrorHandler msg 400)).
Proof.
  intros Hv Hf. pose proof (verified_is_truthy _ _ _ _ Hv) as Ht.
  unfold UpdateAccessToken. walk.
Qed.

Lemma UpdateAccessToken_parse_fails w rq decoded msg :
  jwt_verify (cookie_refresh_token rq) REFRESH_TOKEN (now w) = Ok decoded ->
  fault (C_redis_get (payload_id decoded)) w = None ->
  parse_text (cache_lookup w (payload_id decoded)) = Throw msg ->
  serve UpdateAccessToken w rq =
    Build_St (logged [(C_redis_get (payload_id decoded), true)] w) rq
      (error_only (Build_ErrorHandler msg 400)).
Proof.
  intros Hv Hf Hp. pose proof (verified_is_truthy _ _ _ _ Hv) as Ht.
  unfold UpdateAccessToken. walk.
Qed.

Lemma UpdateAccessToken_no_session w rq decoded :
  jwt_verify (cookie_refresh_token rq) REFRESH_TOKEN (now w) = Ok decoded ->
  fault (C_redis_get (payload_id decoded)) w = None ->
  parse_text (cache_lookup w (payload_id decoded)) = Ok JNull ->
  serve UpdateAccessToken w rq =
    Build_St (logged [(C_redis_get (payload_id decoded), true)] w)
      (with_req_user JNull rq)
      (error_only
         (Build_ErrorHandler "Cannot read properties of null (reading '_id')" 400)).
Proof.
  intros Hv Hf Hp. pose proof (verified_is_truthy _ _ _ _ Hv) as Ht.
  unfold UpdateAccessToken. walk.
Qed.

Lemma UpdateAccessToken_rotates w rq decoded user :
  jwt_verify (cookie_refresh_token rq) REFRESH_TOKEN (now w) = Ok decoded ->
  fault (C_redis_get (payload_id decoded)) w = None ->
  parse_text (cache_lookup w (payload_id decoded)) = Ok user ->
  user <> JNull ->
  serve UpdateAccessToken w rq =
    Build_St (logged [(C_redis_get (payload_id decoded), true)] w)
      (with_req_user user rq)
      (rotated w (as_string (opt_prop user "_id"))).
Proof.
  intros Hv Hf Hp Hu. pose proof (verified_is_truthy _ _ _ _ Hv) as Ht.
  pose proof (get_prop_not_null user "_id" Hu) as Hg.
  unfold UpdateAccessToken. walk.
Qed.

Lemma getUserInfo_cache_fails w rq msg :
  fault (C_redis_get (req_user_id rq)) w = Some msg ->
  serve getUserInfo w rq =
    Build_St (logged [(C_redis_get (req_user_id rq), false)] w) rq
      (error_only (Build_ErrorHandler msg 400)).
Proof. intros Hf. unfold getUserInfo. walk. Qed.

Lemma getUserInfo_parse_fails w rq msg :
  fault (C_redis_get (req_user_id rq)) w = None ->
  parse_text (cache_lookup w (req_user_id rq)) = Throw msg ->
  serve getUserInfo w rq =
    Build_St (logged [(C_redis_get (req_user_id rq), true)] w) rq
      (error_only (Build_ErrorHandler msg 400)).
Proof. intros Hf Hp. unfold getUserInfo. walk. Qed.

Lemma getUserInfo_not_found w rq user :
  fault (C_redis_get (req_user_id rq)) w = None ->
  parse_text (cache_lookup w (req_user_id rq)) = Ok user ->
  truthy user = false ->
  serve getUserInfo w rq =
    Build_St (logged [(C_redis_get (req_user_id rq), true)] w) rq
      (error_only
         (Build_ErrorHandler
            ("user: " ++ interpolate (req_user_id rq) ++ " not found") 404)).
Proof. intros Hf Hp Ht. unfold getUserInfo. walk. Qed.

Lemma getUserInfo_found w rq user :
  fault (C_redis_get (req_user_id rq)) w = None ->
  parse_text (cache_lookup w (req_user_id rq)) = Ok user ->
  truthy user = true ->
  serve getUserInfo w rq =
    Build_St (logged [(C_redis_get (req_user_id rq), true)] w) rq
      (sent_only 200 (B_user user)).
Proof. intros Hf Hp Ht. unfold getUserInfo. walk. Qed.

(** The calls of any run of [UpdateAccessToken]: none, or one cache read. *)
Lemma UpdateAccessToken_calls w rq :
  calls_since w (world (serve UpdateAccessToken w rq)) = []
  \/ exists key ok,
       calls_since w (world (serve UpdateAccessToken w rq))
       = [(C_redis_get key, ok)].
Proof.
  destruct (truthy_token (cookie_refresh_token rq)) eqn:Ht.
  2:{ left. rewrite UpdateAccessToken_no_cookie by assumption.
      apply calls_since_refl. }
  destruct (jwt_verify (cookie_refresh_token rq) REFRESH_TOKEN (now w))
    as [decoded | msg] eqn:Hv.
  2:{ left. erewrite UpdateAccessToken_verify_fails by eassumption.
      apply calls_since_refl. }
  right. exists (payload_id decoded).
  destruct (fault (C_redis_get (payload_id decoded)) w) eqn:Hf.
  { eexists. erewrite UpdateAccessToken_cache_fails by eassumption.
    apply calls_since_logged. }
  destruct (parse_text (cache_lookup w (payload_id decoded))) as [user | msg] eqn:Hp.
  2:{ eexists. erewrite UpdateAccessToken_parse_fails by eassumption.
      apply calls_since_logged. }
  destruct (is_null_dec user) as [-> | Hu].
  - eexists. erewrite UpdateAccessToken_no_session by eassumption.
    apply calls_since_logged.
  - eexists. erewrite UpdateAccessToken_rotates by eassumption.
    apply calls_since_logged.
Qed.

(** The calls of any run of [getUserInfo]: one cache read. *)
Lemma getUserInfo_calls w rq :
  exists ok,
    calls_since w (world (serve getUserInfo w rq))
    = [(C_redis_get (req_user_id rq), ok)].
Proof.
  destruct (fault (C_redis_get (req_user_id rq)) w) eqn:Hf.
  { eexists. erewrite getUserInfo_cache_fails by eassumption.
    apply calls_since_logged. }
  destruct (parse_text (cache_lookup w (req_user_id rq))) as [user | msg] eqn:Hp.
  2:{ eexists. erewrite getUserInfo_parse_fails by eassumption.
      apply calls_since_logged. }
  destruct (truthy user) eqn:Ht.
  - eexists. erewrite getUserInfo_found by eassumption.
    apply calls_since_logged.
  - eexists. erewrite getUserInfo_not_found by eassumption.
    apply calls_since_logged.
Qed.

(** C1 (amended). When the [refresh_token] cookie verifies against the
    refresh secret, the cache answers, and the session cached under the
    decoded id parses to a value other than [null], [UpdateAccessToken]
    signs an access token expiring 300 seconds and a refresh token expiring
    604800 seconds from now for the session's [_id], sets both as cookies
    and responds 200 with the access token. When the cookie is absent it
    forwards 401 'Refresh token not found' and sets no cookie. *)
Theorem UpdateAccessToken_rotation (w : World) (rq : Request) :
  let s' := serve UpdateAccessToken w rq in
  (truthy_token (cookie_refresh_token rq) = false ->
     s' = Build_St w rq
            (error_only (Build_ErrorHandler "Refresh token not found" 401))
     /\ cookies (res s') = [])
  /\ (forall decoded user,
        jwt_verify (cookie_refresh_token rq) REFRESH_TOKEN (now w) = Ok decoded ->
        fault (C_redis_get (payload_id decoded)) w = None ->
        parse_text (cache_lookup w (payload_id decoded)) = Ok user ->
        user <> JNull ->
        let id := IdPayload (as_string (opt_prop user "_id")) in
        let accessToken := Signed id ACCESS_TOKEN (now w) (now w + 5 * 60) in
        let refreshToken :=
          Signed id REFRESH_TOKEN (now w) (now w + 7 * 24 * 60 * 60) in
        res s' =
          {| cookies := [ {| c_name := "access_token"; c_value := accessToken;
                             c_options := accessTokenOptions |};
                          {| c_name := "refresh_token"; c_value := refreshToken;
                             c_options := refreshTokenOptions |} ];
             status := Some 200;
             json := Some (B_accessToken accessToken);
             forwarded := [] |}).
Proof.
  intros s'. subst s'. split.
  - intros Ht. rewrite UpdateAccessToken_no_cookie by assumption.
    split; reflexivity.
  - intros decoded user Hv Hf Hp Hu.
    erewrite UpdateAccessToken_rotates by eassumption. reflexivity.
Qed.

(** C7. [UpdateAccessToken], given a cookie that verifies, makes exactly one
    call, a cache read under the id decoded from the token, and sets
    [req.user] to the parsed session; [getUserInfo] makes exactly one call,
    a cache read under [req.user._id], forwards 404 when nothing is cached
    there and answers 200 with the parsed session when it is truthy. No run
    of either calls the user model. *)
Theorem session_lookup_is_cache_backed (w : World) (rq : Request) :
  let s1 := serve UpdateAccessToken w rq in
  let s2 := serve getUserInfo w rq in
  (forall decoded,
     jwt_verify (cookie_refresh_token rq) REFRESH_TOKEN (now w) = Ok decoded ->
     (exists ok, calls_since w (world s1) = [(C_redis_get (payload_id decoded), ok)])
     /\ (forall user,
           fault (C_redis_get (payload_id decoded)) w = None ->
           parse_text (cache_lookup w (payload_id decoded)) = Ok user ->
           req_user (req s1) = Some user))
  /\ (exists ok, calls_since w (world s2) = [(C_redis_get (req_user_id rq), ok)])
  /\ (fault (C_redis_get (req_user_id rq)) w = None ->
      cache_lookup w (req_user_id rq) = None ->
      s2 = Build_St (logged [(C_redis_get (req_user_id rq), true)] w) rq
             (error_only
                (Build_ErrorHandler
                   ("user: " ++ interpolate (req_user_id rq) ++ " not found")
                   404)))
  /\ (forall user,
        fault (C_redis_get (req_user_id rq)) w = None ->
        parse_text (cache_lookup w (req_user_id rq)) = Ok user ->
        truthy user = true ->
        res s2 = sent_only 200 (B_user user))
  /\ (forall c ok,
        In (c, ok) (calls_since w (world s1))
        \/ In (c, ok) (calls_since w (world s2)) ->
        is_userModel_call c = false).
Proof.
  intros s1 s2. subst s1 s2.
  refine (conj _ (conj _ (conj _ (conj _ _)))).
  - intros decoded Hv. split.
    + destruct (fault (C_redis_get (payload_id decoded)) w) eqn:Hf.
      { eexists. erewrite UpdateAccessToken_cache_fails by eassumption.
        apply calls_since_logged. }
      destruct (parse_text (cache_lookup w (payload_id decoded)))
        as [user | msg] eqn:Hp.
      2:{ eexists. erewrite UpdateAccessToken_parse_fails by eassumption.
          apply calls_since_logged. }
      destruct (is_null_dec user) as [-> | Hu].
      * eexists. erewrite UpdateAccessToken_no_session by eassumption.
        apply calls_since_logged.
      * eexists. erewrite UpdateAccessToken_rotates by eassumption.
        apply calls_since_logged.
    + intros user Hf Hp.
      destruct (is_null_dec user) as [-> | Hu].
      * erewrite UpdateAccessToken_no_session by eassumption. reflexivity.
      * erewrite UpdateAccessToken_rotates by eassumption. reflexivity.
  - apply getUserInfo_calls.
  - intros Hf Hc. eapply getUserInfo_not_found; try eassumption.
    + rewrite Hc. reflexivity.
    + reflexivity.
  - intros user Hf Hp Ht. erewrite getUserInfo_found by eassumption. reflexivity.
  - intros c ok [Hin | Hin].
    + destruct (UpdateAccessToken_calls w rq) as [E | (key & ok' & E)];
        rewrite E in Hin.
      * destruct Hin.
      * destruct Hin as [Hin | []]. inversion Hin. reflexivity.
    + destruct (getUserInfo_calls w rq) as [ok' E]. rewrite E in Hin.
      destruct Hin as [Hin | []]. inversion Hin. reflexivity.
Qed.

End UpdateAccessToken.

Section SetReminder.

Context `{Collaborators}.

Lemma body_step_eq r w res w1 w2 :
  body_step r w res w1 -> w1 = w2 -> body_step r w res w2.
Proof. intros Hs <-. exact Hs. Qed.

Lemma event_ref_some r ref :
  r_eventId r = Some ref -> truthy_str ref = true -> event_ref r = Some (str ref).
Proof. unfold event_ref. intros -> ->. reflexivity. Qed.

(** An iteration of the loop is a [body_step] on the world and touches
    neither the request nor the response. *)
Lemma setReminder_body_step (r : Reminder) (s : St) :
  exists res w1,
    setReminder_body r s = (res, with_world w1 s)
    /\ body_step r (world s) res w1.
Proof.
  destruct s as [w rq rs]. unfold setReminder_body. simpl.
  destruct (r_eventId r) as [ref |] eqn:Href.
  2:{ exists (Ok tt), w. split; [reflexivity |].
      apply step_skip. unfold event_ref. rewrite Href. reflexivity. }
  destruct (truthy_str ref) eqn:Ht; simpl.
  2:{ exists (Ok tt), w. split; [reflexivity |].
      apply step_skip. unfold event_ref. rewrite Href, Ht. reflexivity. }
  pose proof (event_ref_some r ref Href Ht) as Hr.
  run_monad.
  destruct (fault (C_fetch_event (str ref)) w) as [msg |] eqn:Hfe; simpl.
  { do 2 eexists. split; [reflexivity |].
    eapply body_step_eq; [eapply step_fetch_fails; eassumption | same_state]. }
  fold (find_event w (str ref)).
  destruct (find_event w (str ref)) as [ev |] eqn:Hev; simpl.
  2:{ do 2 eexists. split; [reflexivity |].
      eapply body_step_eq; [eapply step_no_event; eassumption | same_state]. }
  destruct (fault (C_findById (r_userId r)) _) as [msg |] eqn:Hfb; simpl.
  { do 2 eexists. split; [reflexivity |].
    eapply body_step_eq;
      [eapply (step_lookup_fails r w (str ref) ev msg); eassumption | same_state]. }
  fold (find_user w (r_userId r)).
  destruct (find_user w (r_userId r)) as [u |] eqn:Hu; simpl.
  2:{ do 2 eexists. split; [reflexivity |].
      eapply body_step_eq;
        [eapply (step_no_user r w (str ref) ev); eassumption | same_state]. }
  destruct (fault (C_sendMail (reminder_mail u ev)) _) as [msg |] eqn:Hsm; simpl.
  { do 2 eexists. split; [reflexivity |]. open_state_in Hsm.
    eapply body_step_eq;
      [eapply (step_mail_fails r w (str ref) ev u msg); eassumption
      | same_state]. }
  destruct (fault (C_patch_sent (r_id r)) _) as [msg |] eqn:Hps; simpl.
  { do 2 eexists. split; [reflexivity |]. open_state_in Hsm. open_state_in Hps.
    eapply body_step_eq;
      [eapply (step_patch_fails r w (str ref) ev u msg); eassumption
      | same_state]. }
  do 2 eexists. split; [reflexivity |]. open_state_in Hsm. open_state_in Hps.
  eapply body_step_eq;
    [eapply (step_sent r w (str ref) ev u); eassumption | same_state].
Qed.

(** The loop is a [loop_run] on the world and touches neither the request
    nor the response. *)
Lemma for_of_loop_run (rs : list Reminder) :
  forall s : St,
    exists res w',
      for_of rs setReminder_body s = (res, with_world w' s)
      /\ loop_run rs (world s) res w'.
Proof.
  induction rs as [| r rs IH]; intros s.
  - exists (Ok tt), (world s). split; [destruct s; reflexivity | constructor].
  - destruct (setReminder_body_step r s) as (res1 & w1 & E1 & Hstep).
    simpl. unfold bind. rewrite E1.
    destruct res1 as [[] | msg].
    + destruct (IH (with_world w1 s)) as (res & w2 & E2 & Hloop).
      rewrite E2. exists res, w2. split; [reflexivity |].
      econstructor; eassumption.
    + exists (Throw msg), w1. split; [reflexivity |].
      apply loop_abort. assumption.
Qed.

(** *** What one iteration logs *)

Lemma patch_after_mail_app prev cs1 cs2 :
  patch_after_mail prev cs1 = true ->
  (forall q, patch_after_mail q cs2 = true) ->
  patch_after_mail prev (cs1 ++ cs2) = true.
Proof.
  revert prev. induction cs1 as [| c cs1 IH]; intros prev H1 H2; simpl in *.
  - apply H2.
  - apply andb_prop in H1 as [Hc H1]. rewrite Hc. simpl. apply IH; assumption.
Qed.

(** In a list the checker accepts, what precedes a [patch] ends with a
    [sendMail] that returned. *)
Lemma patch_after_mail_sound cs :
  forall prev l1 id ok l2,
    patch_after_mail prev cs = true ->
    cs = (l1 ++ (C_patch_sent id, ok) :: l2)%list ->
    (l1 = [] /\ exists m, prev = Some (C_sendMail m, true))
    \/ exists l0 m, l1 = (l0 ++ [(C_sendMail m, true)])%list.
Proof.
  induction cs as [| c cs IH]; intros prev l1 id ok l2 Hchk E.
  - destruct l1; discriminate.
  - simpl in Hchk. apply andb_prop in Hchk as [Hc Hchk].
    destruct l1 as [| c' l1]; simpl in E; inversion E; subst.
    + left. split; [reflexivity |]. simpl in Hc.
      destruct prev as [[[] []] |]; try discriminate. eauto.
    + right. destruct (IH _ _ _ _ _ Hchk eq_refl) as [[-> [m Em]] | (l0 & m & ->)].
      * inversion Em; subst. exists [], m. reflexivity.
      * exists (c' :: l0), m. reflexivity.
Qed.

(** The calls of one iteration, with what they say about reminder [r]. *)
Lemma body_step_calls r w res w1 :
  body_step r w res w1 ->
  exists cs,
    log w1 = (log w ++ cs)%list
    /\ (forall q, patch_after_mail q cs = true)
    /\ (forall id ok, In (C_patch_sent id, ok) cs ->
        id = r_id r
        /\ exists m, In (C_sendMail m, true) cs
                     /\ outbox w1 = (outbox w ++ [m])%list)
    /\ (forall m, In (C_sendMail m, false) cs ->
        (forall id ok, ~ In (C_patch_sent id, ok) cs)
        /\ reminders w1 = reminders w /\ outbox w1 = outbox w)
    /\ (forall e, event_ref r = Some e ->
        In (C_fetch_event e, true) cs
        \/ exists msg w0, res = Throw msg /\ fault (C_fetch_event e) w0 = Some msg)
    /\ (forall r0, In r0 (reminders w) ->
        ~ In (C_patch_sent (r_id r0), true) cs -> In r0 (reminders w1)).
Proof.
  intros Hstep.
  assert (Hkeep : forall r0 rs0, In r0 rs0 -> r_id r0 <> r_id r ->
                                 In r0 (patch_sent (r_id r) rs0)).
  { intros r0 rs0 Hin Hne. unfold patch_sent. apply in_map_iff.
    exists r0. split; [| assumption].
    destruct (String.eqb (r_id r0) (r_id r)) eqn:E; [| reflexivity].
    apply String.eqb_eq in E. contradiction. }
  inversion Hstep; subst; eexists;
    (split; [unfold logged; simpl; try reflexivity;
             try (symmetry; apply app_nil_r) |]);
    (split; [intros q; reflexivity |]);
    refine (conj _ (conj _ (conj _ _))).
  all: try (intros id ok Hin; in_list Hin; inversion Hin; subst;
            (split; [reflexivity |]); eexists;
            (split; [simpl; eauto 6 | reflexivity])).
  all: try (intros m Hin; in_list Hin; fail).
  all: try (intros m Hin; in_list Hin;
            (split; [| split; reflexivity]);
            intros id ok Hin'; in_list Hin'; fail).
  all: try (intros e' He'; rewrite He' in *; try discriminate;
            match goal with
            | Hr : Some _ = Some _ |- _ => inversion Hr; subst
            end;
            first [left; simpl; auto; fail | right; eauto; fail]).
  all: try (intros r0 Hin0 Hnot; simpl; assumption).
  intros r0 Hin0 Hnot. simpl.
  apply Hkeep; [assumption |].
  intros E. apply Hnot. rewrite E. simpl. auto.
Qed.

(** *** What the loop logs *)

Lemma loop_run_calls rs w res w' :
  loop_run rs w res w' ->
  exists cs,
    log w' = (log w ++ cs)%list
    /\ (forall q, patch_after_mail q cs = true)
    /\ (forall id ok, In (C_patch_sent id, ok) cs ->
        exists r, In r rs /\ r_id r = id)
    /\ (forall r0, In r0 (reminders w) ->
        ~ In (C_patch_sent (r_id r0), true) cs -> In r0 (reminders w')).
Proof.
  induction 1 as [w | r rs w w1 res w2 Hstep Hloop IH | r rs w msg w1 Hstep].
  - exists []. split; [symmetry; apply app_nil_r |].
    split; [reflexivity |]. split; [intros id ok [] | auto].
  - destruct (body_step_calls _ _ _ _ Hstep)
      as (cs1 & L1 & G1 & P1 & _ & _ & K1).
    destruct IH as (cs2 & L2 & G2 & P2 & K2).
    exists (cs1 ++ cs2)%list. split; [rewrite L2, L1, app_assoc; reflexivity |].
    split; [intros q; apply patch_after_mail_app; auto |].
    split.
    + intros id ok Hin. apply in_app_or in Hin as [Hin | Hin].
      * exists r. split; [left; reflexivity |].
        symmetry. apply (P1 _ _ Hin).
      * destruct (P2 _ _ Hin) as (r' & Hr' & E). exists r'. split; [right |]; auto.
    + intros r0 Hin0 Hnot. apply K2.
      * apply K1; [assumption |]. intros Hin. apply Hnot, in_or_app. auto.
      * intros Hin. apply Hnot, in_or_app. auto.
  - destruct (body_step_calls _ _ _ _ Hstep)
      as (cs1 & L1 & G1 & P1 & _ & _ & K1).
    exists cs1. split; [assumption |]. split; [assumption |]. split.
    + intros id ok Hin. exists r. split; [left; reflexivity |].
      symmetry. apply (P1 _ _ Hin).
    + assumption.
Qed.

(** With event fetches and user lookups that do not throw, the loop visits
    every reminder and ends normally. *)
Lemma loop_run_visits_all rs w res w' :
  (forall e w0, fault (C_fetch_event e) w0 = None) ->
  (forall id w0, fault (C_findById id) w0 = None) ->
  loop_run rs w res w' ->
  res = Ok tt
  /\ forall r e, In r rs -> event_ref r = Some e ->
                 exists l1 l2, log w' = (log w ++ l1 ++ (C_fetch_event e, true) :: l2)%list.
Proof.
  intros Hfe Hfb.
  induction 1 as [w | r rs w w1 res w2 Hstep Hloop IH | r rs w msg w1 Hstep].
  - split; [reflexivity | intros r e []].
  - destruct IH as [-> IH]. split; [reflexivity |].
    destruct (body_step_calls _ _ _ _ Hstep) as (cs1 & L1 & _ & _ & _ & V1 & _).
    destruct (loop_run_calls _ _ _ _ Hloop) as (cs2 & L2 & _).
    intros r' e [<- | Hin] He.
    + destruct (V1 e He) as [Hin | (msg & w0 & Hm & _)]; [| discriminate].
      apply in_split in Hin as (l1 & l2 & ->).
      exists l1, (l2 ++ cs2)%list. rewrite L2, L1.
      rewrite <- !app_assoc. reflexivity.
    + destruct (IH r' e Hin He) as (l1 & l2 & E).
      exists (cs1 ++ l1)%list, l2. rewrite E, L1. rewrite <- !app_assoc. reflexivity.
  - exfalso. inversion Hstep; subst.
    + rewrite Hfe in *. discriminate.
    + rewrite Hfb in *. discriminate.
Qed.

(** *** The whole routine *)

Lemma setReminder_fetch_fails w rq msg :
  fault C_fetch_reminders w = Some msg ->
  serve setReminder w rq =
    Build_St (logged [(C_fetch_reminders, false)] w) rq
      (error_only (Build_ErrorHandler msg 500)).
Proof. intros Hf. unfold setReminder. walk. Qed.

Lemma setReminder_nothing_due w rq :
  fault C_fetch_reminders w = None ->
  List.filter (due (now w)) (reminders w) = [] ->
  serve setReminder w rq =
    Build_St (logged [(C_fetch_reminders, true)] w) rq
      (sent_only 200 (B_message "No reminders to send")).
Proof. intros Hf Hd. unfold setReminder. walk. Qed.

Lemma setReminder_loop w rq :
  fault C_fetch_reminders w = None ->
  List.filter (due (now w)) (reminders w) <> [] ->
  exists res w',
    loop_run (List.filter (due (now w)) (reminders w))
      (logged [(C_fetch_reminders, true)] w) res w'
    /\ serve setReminder w rq =
         Build_St w' rq
           match res with
           | Ok _ => sent_only 200 (B_message "Reminders processed successfully")
           | Throw msg => error_only (Build_ErrorHandler msg 500)
           end.
Proof.
  intros Hf Hd.
  destruct (for_of_loop_run (List.filter (due (now w)) (reminders w))
              (Build_St (logged [(C_fetch_reminders, true)] w) rq fresh_response))
    as (res & w' & E & Hloop).
  exists res, w'. split; [exact Hloop |].
  unfold setReminder, serve, try_catch, bind, sanity_fetch_reminders, await.
  simpl. rewrite Hf. simpl.
  destruct (List.filter (due (now w)) (reminders w)) as [| r rs] eqn:Hrs;
    [contradiction |].
  change (length (r :: rs) =? 0)%nat with false. cbv iota beta.
  change (with_world ?x (Build_St w rq fresh_response))
    with (Build_St x rq fresh_response).
  unfold logged in E. rewrite E.
  destruct res as [[] |]; reflexivity.
Qed.

(** Every run of [setReminder], by its calls. *)
Lemma setReminder_calls w rq :
  exists cs,
    log (world (serve setReminder w rq)) = (log w ++ cs)%list
    /\ (forall q, patch_after_mail q cs = true)
    /\ (forall id ok, In (C_patch_sent id, ok) cs ->
        exists r, In r (List.filter (due (now w)) (reminders w)) /\ r_id r = id)
    /\ (forall r0, In r0 (reminders w) ->
        ~ In (C_patch_sent (r_id r0), true) cs ->
        In r0 (reminders (world (serve setReminder w rq)))).
Proof.
  destruct (fault C_fetch_reminders w) as [msg |] eqn:Hf.
  { rewrite (setReminder_fetch_fails w rq msg Hf). eexists.
    split; [reflexivity |]. split; [intros q; reflexivity |].
    split; [intros id ok Hin; in_list Hin | intros r0 Hin _; exact Hin]. }
  destruct (List.filter (due (now w)) (reminders w)) as [| r rs] eqn:Hrs.
  { rewrite (setReminder_nothing_due w rq Hf Hrs). eexists.
    split; [reflexivity |]. split; [intros q; reflexivity |].
    split; [intros id ok Hin; in_list Hin | intros r0 Hin _; exact Hin]. }
  destruct (setReminder_loop w rq Hf) as (res & w' & Hloop & E);
    [rewrite Hrs; discriminate |].
  rewrite E. simpl. rewrite Hrs in Hloop.
  destruct (loop_run_calls _ _ _ _ Hloop) as (cs & L & G & P & K).
  exists ((C_fetch_reminders, true) :: cs). simpl in L.
  split; [rewrite L, <- app_assoc; reflexivity |].
  split; [intros q; simpl; apply G |].
  split.
  - intros id ok [Hin | Hin]; [discriminate | apply (P _ _ Hin)].
  - intros r0 Hin Hnot. apply K; [exact Hin |].
    intros Hin'. apply Hnot. right. exact Hin'.
Qed.

Lemma due_spec (t : Z) (r : Reminder) :
  due t r = true <-> r_sent r = false /\ r_reminderTime r <= t.
Proof.
  unfold due. rewrite andb_true_iff, negb_true_iff, Z.leb_le. reflexivity.
Qed.

Lemma calls_since_app (w w' : World) (cs : list (Call * bool)) :
  log w' = (log w ++ cs)%list -> calls_since w w' = cs.
Proof. unfold calls_since. intros ->. apply drop_app_length. Qed.

(** C5 (amended). When the reminders were fetched, some are due, and the
    event fetches and user lookups of the loop do not throw, then whatever
    the mail transport and the patch calls do, [setReminder] visits every
    reminder of the list and responds 200 'Reminders processed
    successfully': a failure of [sendMail] or of the patch is caught for
    its item alone. *)
Theorem setReminder_mail_failures_are_local (w : World) (rq : Request) :
  let due_now := List.filter (due (now w)) (reminders w) in
  let s' := serve setReminder w rq in
  fault C_fetch_reminders w = None ->
  due_now <> [] ->
  (forall e w0, fault (C_fetch_event e) w0 = None) ->
  (forall id w0, fault (C_findById id) w0 = None) ->
  res s' = sent_only 200 (B_message "Reminders processed successfully")
  /\ forall r e, In r due_now -> event_ref r = Some e ->
                 In (C_fetch_event e, true) (calls_since w (world s')).
Proof.
  intros due_now s' Hf Hd Hfe Hfb. subst due_now s'.
  destruct (setReminder_loop w rq Hf Hd) as (res & w' & Hloop & E).
  rewrite E. simpl.
  destruct (loop_run_visits_all _ _ _ _ Hfe Hfb Hloop) as [-> Hvisit].
  split; [reflexivity |].
  intros r e Hin He. destruct (Hvisit r e Hin He) as (l1 & l2 & L).
  simpl in L. rewrite <- app_assoc in L.
  rewrite (calls_since_app _ _ _ L). apply in_or_app. right.
  apply in_or_app. right. left. reflexivity.
Qed.

(** C6. The reminders [setReminder] fetches are exactly the stored ones
    with [sent == false] and [reminderTime <= now()], and every patch it
    issues is for one of them; when none is due it makes that one fetch,
    responds 200 'No reminders to send', sends no mail and leaves the
    reminders as they were. *)
Theorem setReminder_polls_due_unsent (w : World) (rq : Request) :
  let s' := serve setReminder w rq in
  (forall rs,
     fst (sanity_fetch_reminders (Build_St w rq fresh_response)) = Ok rs ->
     forall r, In r rs <->
               In r (reminders w) /\ r_sent r = false /\ r_reminderTime r <= now w)
  /\ (forall id ok, In (C_patch_sent id, ok) (calls_since w (world s')) ->
        exists r, In r (reminders w) /\ r_id r = id
                  /\ r_sent r = false /\ r_reminderTime r <= now w)
  /\ (fault C_fetch_reminders w = None ->
      List.filter (due (now w)) (reminders w) = [] ->
      s' = Build_St (logged [(C_fetch_reminders, true)] w) rq
             (sent_only 200 (B_message "No reminders to send"))
      /\ calls_since w (world s') = [(C_fetch_reminders, true)]
      /\ outbox (world s') = outbox w
      /\ reminders (world s') = reminders w).
Proof.
  intros s'. subst s'. refine (conj _ (conj _ _)).
  - intros rs Hrs r. unfold sanity_fetch_reminders, await in Hrs. simpl in Hrs.
    destruct (fault C_fetch_reminders w); [discriminate |].
    simpl in Hrs. inversion Hrs; subst.
    rewrite filter_In, due_spec. reflexivity.
  - intros id ok Hin.
    destruct (setReminder_calls w rq) as (cs & L & _ & P & _).
    rewrite (calls_since_app _ _ _ L) in Hin.
    destruct (P _ _ Hin) as (r & Hr & E).
    apply filter_In in Hr as [Hr Hdue]. apply due_spec in Hdue.
    exists r. tauto.
  - intros Hf Hd. rewrite (setReminder_nothing_due w rq Hf Hd). simpl.
    split; [reflexivity |]. split; [apply calls_since_logged |].
    split; reflexivity.
Qed.

(** C9. In every run of [setReminder] a patch comes directly after a
    [sendMail] that returned, and never directly after one that threw; a
    stored reminder for which no patch succeeded is still stored as it
    was. In every iteration, a patch is for the reminder of that iteration
    and follows its delivered mail; if [sendMail] throws, the iteration
    issues no patch and leaves reminders and outbox untouched. *)
Theorem setReminder_patch_after_mail (w : World) (rq : Request) :
  let s' := serve setReminder w rq in
  let calls := calls_since w (world s') in
  (forall l1 id ok l2,
     calls = (l1 ++ (C_patch_sent id, ok) :: l2)%list ->
     exists l0 m, l1 = (l0 ++ [(C_sendMail m, true)])%list)
  /\ (forall l1 m l2 id ok l3,
        calls = (l1 ++ (C_sendMail m, false) :: l2)%list ->
        l2 <> (C_patch_sent id, ok) :: l3)
  /\ (forall r0, In r0 (reminders w) ->
        ~ In (C_patch_sent (r_id r0), true) calls ->
        In r0 (reminders (world s')))
  /\ (forall (r : Reminder) (s : St),
        let s1 := snd (setReminder_body r s) in
        let cs := calls_since (world s) (world s1) in
        (forall id ok, In (C_patch_sent id, ok) cs ->
           id = r_id r
           /\ exists m, In (C_sendMail m, true) cs
                        /\ outbox (world s1) = (outbox (world s) ++ [m])%list)
        /\ (forall m, In (C_sendMail m, false) cs ->
              (forall id ok, ~ In (C_patch_sent id, ok) cs)
              /\ reminders (world s1) = reminders (world s)
              /\ outbox (world s1) = outbox (world s))).
Proof.
  intros s' calls. subst s' calls.
  destruct (setReminder_calls w rq) as (cs & L & G & _ & K).
  rewrite (calls_since_app _ _ _ L).
  assert (Hord : forall l1 id ok l2,
             cs = (l1 ++ (C_patch_sent id, ok) :: l2)%list ->
             exists l0 m, l1 = (l0 ++ [(C_sendMail m, true)])%list).
  { intros l1 id ok l2 E.
    destruct (patch_after_mail_sound cs None l1 id ok l2 (G None) E)
      as [[_ [m Hm]] | Hex]; [discriminate | exact Hex]. }
  refine (conj Hord (conj _ (conj K _))).
  - intros l1 m l2 id ok l3 E ->.
    change (l1 ++ (C_sendMail m, false) :: (C_patch_sent id, ok) :: l3)%list
      with (l1 ++ [(C_sendMail m, false)] ++ (C_patch_sent id, ok) :: l3)%list in E.
    rewrite app_assoc in E.
    destruct (Hord _ _ _ _ E) as (l0 & m' & E').
    apply app_inj_tail in E' as [_ E']. discriminate.
  - intros r s s1 cs1. subst s1 cs1.
    destruct (setReminder_body_step r s) as (res & w1 & E & Hstep).
    rewrite E. simpl.
    destruct (body_step_calls _ _ _ _ Hstep) as (cs1 & L1 & _ & P1 & M1 & _).
    rewrite (calls_since_app _ _ _ L1). split; assumption.
Qed.

End SetReminder.

(** * Further properties of the handlers *)

Section LogoutUser.

Context `{Collaborators}.

Lemma logoutUser_anonymous w rq :
  truthy_str (req_user_id rq) = false ->
  serve logoutUser w rq =
    Build_St w rq
      {| cookies := cleared_cookies; status := Some 200;
         json := Some (B_message "User logged out"); forwarded := [] |}.
Proof. intros Hu. unfold logoutUser. walk. Qed.

Lemma logoutUser_deletes w rq :
  truthy_str (req_user_id rq) = true ->
  fault (C_redis_del (str (req_user_id rq))) w = None ->
  serve logoutUser w rq =
    Build_St
      (with_sessions (delete (str (req_user_id rq)) (sessions w))
         (logged [(C_redis_del (str (req_user_id rq)), true)] w))
      rq
      {| cookies := cleared_cookies; status := Some 200;
         json := Some (B_message "User logged out"); forwarded := [] |}.
Proof. intros Hu Hf. unfold logoutUser. walk. Qed.

Lemma logoutUser_cache_fails w rq msg :
  truthy_str (req_user_id rq) = true ->
  fault (C_redis_del (str (req_user_id rq))) w = Some msg ->
  serve logoutUser w rq =
    Build_St (logged [(C_redis_del (str (req_user_id rq)), false)] w) rq
      {| cookies := cleared_cookies; status := None; json := None;
         forwarded := [Build_ErrorHandler msg 400] |}.
Proof. intros Hu Hf. unfold logoutUser. walk. Qed.

Lemma truthy_str_some (o : option string) :
  truthy_str o = true -> exists k, o = Some k /\ str o = k /\ interpolate o = k.
Proof.
  destruct o as [k |]; [| discriminate]. intros _. exists k. repeat split.
Qed.

(** X1. [logoutUser] always overwrites both token cookies with empty,
    expiring values and never touches the user collection. Without a user on
    the request it makes no call and answers 200; with one, it deletes that
    user's session, and only that one, and answers 200 'User logged out';
    if the cache throws, the error is forwarded with status 400, the session
    stays, and the cookies are cleared all the same. *)
Theorem logoutUser_clears_cookies (w : World) (rq : Request) :
  let s' := serve logoutUser w rq in
  let id := req_user_id rq in
  cookies (res s') = cleared_cookies
  /\ users (world s') = users w
  /\ (truthy_str id = false ->
      s' = Build_St w rq
             {| cookies := cleared_cookies; status := Some 200;
                json := Some (B_message "User logged out"); forwarded := [] |})
  /\ (truthy_str id = true -> fault (C_redis_del (str id)) w = None ->
      status (res s') = Some 200
      /\ json (res s') = Some (B_message "User logged out")
      /\ forwarded (res s') = []
      /\ calls_since w (world s') = [(C_redis_del (str id), true)]
      /\ sessions (world s') !! str id = None
      /\ forall k, k <> str id -> sessions (world s') !! k = sessions w !! k)
  /\ (forall msg,
        truthy_str id = true -> fault (C_redis_del (str id)) w = Some msg ->
        status (res s') = None
        /\ json (res s') = None
        /\ forwarded (res s') = [Build_ErrorHandler msg 400]
        /\ sessions (world s') = sessions w).
Proof.
  intros s' id. subst s' id.
  refine (conj _ (conj _ (conj _ (conj _ _)))).
  - destruct (truthy_str (req_user_id rq)) eqn:Hu.
    + destruct (fault (C_redis_del (str (req_user_id rq))) w) eqn:Hf.
      * erewrite logoutUser_cache_fails by eassumption. reflexivity.
      * erewrite logoutUser_deletes by eassumption. reflexivity.
    + rewrite logoutUser_anonymous by assumption. reflexivity.
  - destruct (truthy_str (req_user_id rq)) eqn:Hu.
    + destruct (fault (C_redis_del (str (req_user_id rq))) w) eqn:Hf.
      * erewrite logoutUser_cache_fails by eassumption. reflexivity.
      * erewrite logoutUser_deletes by eassumption. reflexivity.
    + rewrite logoutUser_anonymous by assumption. reflexivity.
  - apply logoutUser_anonymous.
  - intros Hu Hf. rewrite logoutUser_deletes by assumption. simpl.
    do 3 (split; [reflexivity |]).
    split; [| split].
    + apply calls_since_app. reflexivity.
    + apply lookup_delete_eq.
    + intros k Hk. apply lookup_delete_ne. congruence.
  - intros msg Hu Hf. erewrite logoutUser_cache_fails by eassumption.
    repeat split.
Qed.

End LogoutUser.

Section AfterLogout.

Context `{Collaborators}.

(** X2. Logging out ends the session for the other handlers: right after a
    successful [logoutUser], [getUserInfo] for the same user forwards 404,
    and [UpdateAccessToken] with a refresh token for that user, although the
    token still verifies, forwards a 400 error and sets no cookie. *)
Theorem logout_ends_session (w : World) (rq : Request) :
  let w1 := world (serve logoutUser w rq) in
  let id := req_user_id rq in
  truthy_str id = true ->
  fault (C_redis_del (str id)) w = None ->
  (fault (C_redis_get id) w1 = None ->
   serve getUserInfo w1 rq =
     Build_St (logged [(C_redis_get id, true)] w1) rq
       (error_only (Build_ErrorHandler ("user: " ++ str id ++ " not found") 404)))
  /\ (forall rq2 decoded,
        jwt_verify (cookie_refresh_token rq2) REFRESH_TOKEN (now w1) = Ok decoded ->
        payload_id decoded = id ->
        fault (C_redis_get id) w1 = None ->
        res (serve UpdateAccessToken w1 rq2) =
          error_only
            (Build_ErrorHandler
               "Cannot read properties of null (reading '_id')" 400)
        /\ cookies (res (serve UpdateAccessToken w1 rq2)) = []).
Proof.
  intros w1 id Hu Hf. subst w1 id.
  destruct (truthy_str_some _ Hu) as (k & Hk & Hs & Hi).
  assert (Hgone : cache_lookup (world (serve logoutUser w rq)) (req_user_id rq) = None).
  { rewrite logoutUser_deletes by assumption. rewrite Hs, Hk.
    unfold cache_lookup. simpl. apply lookup_delete_eq. }
  split.
  - intros Hg. rewrite (getUserInfo_not_found _ _ JNull); try assumption.
    + rewrite Hi, Hs. reflexivity.
    + rewrite Hgone. reflexivity.
    + reflexivity.
  - intros rq2 decoded Hv Hid Hg.
    rewrite (UpdateAccessToken_no_session _ _ decoded); try assumption.
    + split; reflexivity.
    + rewrite Hid. assumption.
    + rewrite Hid, Hgone. reflexivity.
Qed.

End AfterLogout.

Section RegisterThenActivate.

Context `{Collaborators}.

Lemma activation_jwt_verifies w rq n :
  jwt_verify (Some (activation_jwt w rq)) ACTIVATION_SECRET n
  = if now w + 300 <=? n then Throw "jwt expired"
    else Ok (ActivationPayload (registering rq)
               (drawn_code w (str (body_email rq)))).
Proof. unfold jwt_verify, activation_jwt. rewrite String.eqb_refl. reflexivity. Qed.

Lemma strict_eq_differs (a : option string) (c : string) :
  a <> Some c -> strict_eq a (Some c) = false.
Proof.
  destruct a as [x |]; simpl; [| reflexivity].
  intros Hx. destruct (String.eqb x c) eqn:E; [| reflexivity].
  apply String.eqb_eq in E. congruence.
Qed.

(** X3. The token a successful [registerUser] answers with activates the
    account: submitted to [activateUser] together with the code of the
    activation mail, less than 300 seconds after registration, it creates the
    record for the registered name, e-mail and password; with any other code
    it is refused as 'Invalid Activation Code', and from 300 seconds on it is
    refused as expired; in both refusals nothing is created. *)
Theorem registration_token_activates (w : World) (rq : Request) :
  let s1 := serve registerUser w rq in
  status (res s1) = Some 201 ->
  exists t code,
    json (res s1)
    = Some (B_activation ("Activation code sent to " ++ str (body_email rq)) t)
    /\ In {| m_template := "activateEmail.ejs"; m_email := str (body_email rq);
             m_subject := "Account Activation";
             m_data := ActivationData (str (body_name rq)) code |}
         (outbox (world s1))
    /\ forall w2 rq2,
         body_activation_token rq2 = Some t ->
         let s2 := serve activateUser w2 rq2 in
         (now w + 300 <= now w2 ->
          s2 = Build_St w2 rq2 (error_only (Build_ErrorHandler "jwt expired" 500)))
         /\ (now w2 < now w + 300 -> body_activation_code rq2 <> Some code ->
             s2 = Build_St w2 rq2
                    (error_only (Build_ErrorHandler "Invalid Activation Code" 400)))
         /\ (now w2 < now w + 300 -> body_activation_code rq2 = Some code ->
             fault (C_create (registering rq)) w2 = None ->
             users (world s2) = (users w2 ++ [created w2 (registering rq)])%list
             /\ u_name (created w2 (registering rq)) = str (body_name rq)
             /\ u_email (created w2 (registering rq)) = str (body_email rq)
             /\ u_password (created w2 (registering rq))
                = stored_password (str (body_password rq))
             /\ status (res s2) = Some 201).
Proof.
  intros s1 H201. subst s1.
  destruct (registerUser_cases w rq)
    as [[err E] | [(err & ok & E) | [(Hc & Hu & msg & E) | (Hc & Hu & E)]]];
    rewrite E in *; simpl in H201; try discriminate.
  exists (activation_jwt w rq), (drawn_code w (str (body_email rq))).
  split; [reflexivity |]. split.
  { simpl. apply in_or_app. right. left. reflexivity. }
  intros w2 rq2 Ht s2. subst s2.
  pose proof (activation_jwt_verifies w rq (now w2)) as Hv.
  rewrite <- Ht in Hv.
  refine (conj _ (conj _ _)).
  - intros Hlate. apply activateUser_verify_fails.
    rewrite Hv. destruct (Z.leb_spec (now w + 300) (now w2)); [reflexivity | lia].
  - intros Hearly Hcode.
    apply (activateUser_wrong_code w2 rq2
             (ActivationPayload (registering rq) (drawn_code w (str (body_email rq))))).
    + rewrite Hv. destruct (Z.leb_spec (now w + 300) (now w2)); [lia | reflexivity].
    + apply strict_eq_differs. assumption.
  - intros Hearly Hcode Hf.
    rewrite (activateUser_creates w2 rq2 (registering rq)
               (drawn_code w (str (body_email rq)))); try assumption.
    + repeat split.
    + rewrite Hv. destruct (Z.leb_spec (now w + 300) (now w2)); [lia | reflexivity].
Qed.

(** X4. [registerUser] writes to no store and sets no cookie: users,
    sessions, reminders and events are as before in every run. If the
    e-mail lookup throws, or the mail transport throws, the thrown message is
    forwarded with status 500, no response body is sent, and the outbox is
    unchanged, so no activation token leaves the server. *)
Theorem registerUser_writes_nothing (w : World) (rq : Request) :
  let s' := serve registerUser w rq in
  let email := str (body_email rq) in
  (users (world s') = users w /\ sessions (world s') = sessions w
   /\ reminders (world s') = reminders w /\ events (world s') = events w
   /\ cookies (res s') = [])
  /\ (forall msg, checks_pass rq -> fault (C_findOne email) w = Some msg ->
        res s' = error_only (Build_ErrorHandler msg 500)
        /\ outbox (world s') = outbox w)
  /\ (forall msg, checks_pass rq -> fault (C_findOne email) w = None ->
        (forall u, In u (users w) -> u_email u <> email) ->
        fault (C_sendMail (activation_mail w rq))
          (logged [(C_findOne email, true); (C_random, true)] w) = Some msg ->
        res s' = error_only (Build_ErrorHandler msg 500)
        /\ outbox (world s') = outbox w).
Proof.
  intros s' email. subst s' email. refine (conj _ (conj _ _)).
  - destruct (registerUser_cases w rq)
      as [[err E] | [(err & ok & E) | [(Hc & Hu & msg & E) | (Hc & Hu & E)]]];
      rewrite E; repeat split.
  - intros msg Hc Hf. rewrite (registerUser_lookup_fails w rq msg Hc Hf).
    split; reflexivity.
  - intros msg Hc Hf Hnone Hm.
    rewrite (registerUser_mail_fails w rq msg Hc Hf); [split; reflexivity | | exact Hm].
    destruct (find _ (users w)) eqn:Hu; [| reflexivity].
    apply find_some in Hu as [Hin He]. apply String.eqb_eq in He.
    exfalso. eapply Hnone; eassumption.
Qed.

(** X5. [activateUser] changes the user collection only by appending one
    record, and exactly when it answers 201: in every other run the
    collection is as before and one error is forwarded. A [create] that
    throws is forwarded with its message and status 500. Sessions and
    outbox are never touched. *)
Theorem activateUser_appends_one_record (w : World) (rq : Request) :
  let s' := serve activateUser w rq in
  (status (res s') = Some 201 ->
   exists u, users (world s') = (users w ++ [created w u])%list
             /\ json (res s')
                = Some (B_activated (created w u) "Account activated successfully")
             /\ forwarded (res s') = [])
  /\ (status (res s') <> Some 201 ->
      users (world s') = users w
      /\ status (res s') = None /\ json (res s') = None
      /\ exists err, forwarded (res s') = [err])
  /\ (sessions (world s') = sessions w /\ outbox (world s') = outbox w)
  /\ (forall u code msg,
        jwt_verify (body_activation_token rq) ACTIVATION_SECRET (now w)
        = Ok (ActivationPayload u code) ->
        body_activation_code rq = Some code ->
        fault (C_create u) w = Some msg ->
        res s' = error_only (Build_ErrorHandler msg 500)
        /\ users (world s') = users w).
Proof.
  intros s'. subst s'. refine (conj _ (conj _ (conj _ _))).
  - intros H201.
    destruct (activateUser_cases w rq)
      as [[err E] | [(u0 & err & E) | (u0 & c0 & _ & _ & _ & E)]];
      rewrite E in *; simpl in H201; try discriminate.
    exists u0. repeat split.
  - intros Hnot.
    destruct (activateUser_cases w rq)
      as [[err E] | [(u0 & err & E) | (u0 & c0 & _ & _ & _ & E)]];
      rewrite E in *; simpl in *.
    + repeat split. eauto.
    + repeat split. eauto.
    + contradiction Hnot. reflexivity.
  - destruct (activateUser_cases w rq)
      as [[err E] | [(u0 & err & E) | (u0 & c0 & _ & _ & _ & E)]];
      rewrite E; split; reflexivity.
  - intros u code msg Hv Hc Hf.
    rewrite (activateUser_create_fails w rq u code msg Hv Hc Hf).
    split; reflexivity.
Qed.

End RegisterThenActivate.

Section UserLoginOutcome.

Context `{Collaborators}.

(** Every run of [userLogin]: one forwarded error with status 400, or the
    hand-over to [sendToken] for the user found. *)
Lemma userLogin_outcomes w rq :
  (exists msg cs,
     serve userLogin w rq =
       Build_St (logged cs w) rq (error_only (Build_ErrorHandler msg 400)))
  \/ (exists u,
        find (fun u => String.eqb (u_email u) (str (body_email rq))) (users w)
        = Some u
        /\ comparePasswords u (str (body_password rq)) = true
        /\ serve userLogin w rq =
             Build_St
               (with_sessions (fst (sendToken_effect u (sessions w) fresh_response))
                  (logged [(C_findOne (str (body_email rq)), true);
                           (C_comparePasswords u (str (body_password rq)), true);
                           (C_sendToken u, true)] w))
               rq (snd (sendToken_effect u (sessions w) fresh_response))).
Proof.
  destruct (truthy_str (body_password rq)) eqn:Hp.
  2:{ left. exists "Please provide all the fields", [].
      rewrite userLogin_missing by (rewrite Hp; reflexivity).
      unfold logged. rewrite app_nil_r. destruct w; reflexivity. }
  destruct (truthy_str (body_email rq)) eqn:He.
  2:{ left. exists "Please provide all the fields", [].
      rewrite userLogin_missing by (rewrite Hp, He; reflexivity).
      unfold logged. rewrite app_nil_r. destruct w; reflexivity. }
  destruct (fault (C_findOne (str (body_email rq))) w) eqn:Hf.
  { left. do 2 eexists. apply userLogin_lookup_fails; eassumption. }
  destruct (find (fun u => String.eqb (u_email u) (str (body_email rq))) (users w))
    as [u |] eqn:Hu.
  2:{ left. do 2 eexists. apply userLogin_unknown_email; eassumption. }
  destruct (fault (C_comparePasswords u (str (body_password rq)))
              (logged [(C_findOne (str (body_email rq)), true)] w)) eqn:Hc.
  { left. do 2 eexists. eapply userLogin_compare_fails; eassumption. }
  destruct (comparePasswords u (str (body_password rq))) eqn:Hw.
  2:{ left. do 2 eexists. eapply userLogin_wrong_password; eassumption. }
  destruct (fault (C_sendToken u)
              (logged [(C_findOne (str (body_email rq)), true);
                       (C_comparePasswords u (str (body_password rq)), true)] w))
    eqn:Ht.
  - left. do 2 eexists. eapply userLogin_sendToken_fails; eassumption.
  - right. exists u. split; [reflexivity |]. split; [exact Hw |].
    eapply userLogin_sendToken; eassumption.
Qed.

(** X6. [userLogin] never changes the user collection or the outbox. Every
    run either forwards exactly one error, always with status 400, sets no
    cookie, sends no body and leaves the session cache as it was, or hands
    cache and response to [sendToken] for a stored user who has the
    submitted e-mail and whose password comparison succeeded. *)
Theorem userLogin_fails_clean (w : World) (rq : Request) :
  let s' := serve userLogin w rq in
  users (world s') = users w
  /\ outbox (world s') = outbox w
  /\ ((exists msg,
         res s' = error_only (Build_ErrorHandler msg 400)
         /\ sessions (world s') = sessions w)
      \/ (exists u,
            In u (users w) /\ u_email u = str (body_email rq)
            /\ comparePasswords u (str (body_password rq)) = true
            /\ (sessions (world s'), res s')
               = sendToken_effect u (sessions w) fresh_response)).
Proof.
  intros s'. subst s'.
  destruct (userLogin_outcomes w rq) as [(msg & cs & E) | (u & Hu & Hw & E)];
    rewrite E; simpl.
  - split; [reflexivity |]. split; [reflexivity |]. left. eauto.
  - split; [reflexivity |]. split; [reflexivity |]. right. exists u.
    apply find_some in Hu as [Hin He]. apply String.eqb_eq in He.
    repeat split; try assumption.
    destruct (sendToken_effect u (sessions w) fresh_response); reflexivity.
Qed.

End UserLoginOutcome.

Section RefreshTokens.

Context `{Collaborators}.

Lemma UpdateAccessToken_reads_cache w rq decoded :
  jwt_verify (cookie_refresh_token rq) REFRESH_TOKEN (now w) = Ok decoded ->
  exists ok,
    calls_since w (world (serve UpdateAccessToken w rq))
    = [(C_redis_get (payload_id decoded), ok)].
Proof.
  intros Hv.
  destruct (fault (C_redis_get (payload_id decoded)) w) eqn:Hf.
  { eexists. erewrite UpdateAccessToken_cache_fails by eassumption.
    apply calls_since_logged. }
  destruct (parse_text (cache_lookup w (payload_id decoded)))
    as [user | msg] eqn:Hp.
  2:{ eexists. erewrite UpdateAccessToken_parse_fails by eassumption.
      apply calls_since_logged. }
  destruct (is_null_dec user) as [-> | Hu].
  - eexists. erewrite UpdateAccessToken_no_session by eassumption.
    apply calls_since_logged.
  - eexists. erewrite UpdateAccessToken_rotates by eassumption.
    apply calls_since_logged.
Qed.

(** X7. [UpdateAccessToken] refuses a cookie that does not verify before it
    touches the cache. Text that does not split into three dot-separated
    parts is forwarded as 'jwt malformed'; three-part text that is no token
    is forwarded with the message the library reports for it; a token
    signed with another key is forwarded as 'invalid signature', a refresh
    token at or past its expiry as 'jwt expired'. Each has status 400; the
    world is unchanged and no cookie is set. *)
Theorem UpdateAccessToken_rejects_bad_tokens (w : World) (rq : Request) :
  let s' := serve UpdateAccessToken w rq in
  (forall text,
     cookie_refresh_token rq = Some (Raw text) -> text <> EmptyString ->
     (dot_parts text <> 3%nat ->
      s' = Build_St w rq (error_only (Build_ErrorHandler "jwt malformed" 400)))
     /\ (dot_parts text = 3%nat ->
         s' = Build_St w rq
                (error_only (Build_ErrorHandler (jwt_undecodable text) 400))))
  /\ (forall p key iat exp,
        cookie_refresh_token rq = Some (Signed p key iat exp) ->
        key <> REFRESH_TOKEN ->
        s' = Build_St w rq
               (error_only (Build_ErrorHandler "invalid signature" 400)))
  /\ (forall p iat exp,
        cookie_refresh_token rq = Some (Signed p REFRESH_TOKEN iat exp) ->
        exp <= now w ->
        s' = Build_St w rq (error_only (Build_ErrorHandler "jwt expired" 400))).
Proof.
  intros s'. subst s'. refine (conj _ (conj _ _)).
  - intros text Hc Ht.
    assert (He : String.eqb text EmptyString = false).
    { destruct (String.eqb text EmptyString) eqn:E; [| reflexivity].
      apply String.eqb_eq in E. contradiction. }
    assert (Htr : truthy_token (cookie_refresh_token rq) = true)
      by (rewrite Hc; unfold truthy_token; rewrite He; reflexivity).
    split; intros Hparts; apply UpdateAccessToken_verify_fails; try exact Htr;
      rewrite Hc; unfold jwt_verify; rewrite He.
    + destruct (Nat.eqb_spec (dot_parts text) 3); [contradiction | reflexivity].
    + rewrite Hparts. reflexivity.
  - intros p key iat exp Hc Hk. apply UpdateAccessToken_verify_fails.
    + rewrite Hc. reflexivity.
    + rewrite Hc. unfold jwt_verify.
      destruct (String.eqb key REFRESH_TOKEN) eqn:E; [| reflexivity].
      apply String.eqb_eq in E. contradiction.
  - intros p iat exp Hc He. apply UpdateAccessToken_verify_fails.
    + rewrite Hc. reflexivity.
    + rewrite Hc. unfold jwt_verify. rewrite String.eqb_refl. simpl.
      destruct (Z.leb_spec exp (now w)); [reflexivity | lia].
Qed.

(** X8. The cookies of a rotation chain: the refresh cookie that
    [UpdateAccessToken] sets is accepted by a later [UpdateAccessToken] for
    604800 seconds, which then reads the cache under the same user id, and
    is refused as expired from then on; the access cookie is refused as a
    refresh token whenever the two secrets differ. *)
Theorem rotation_cookies_chain (w : World) (rq : Request)
    (decoded : Payload) (user : Json) :
  let s1 := serve UpdateAccessToken w rq in
  let id := as_string (opt_prop user "_id") in
  jwt_verify (cookie_refresh_token rq) REFRESH_TOKEN (now w) = Ok decoded ->
  fault (C_redis_get (payload_id decoded)) w = None ->
  parse_text (cache_lookup w (payload_id decoded)) = Ok user ->
  user <> JNull ->
  exists access refresh,
    cookies (res s1)
    = [ {| c_name := "access_token"; c_value := access;
           c_options := accessTokenOptions |};
        {| c_name := "refresh_token"; c_value := refresh;
           c_options := refreshTokenOptions |} ]
    /\ forall w2 rq2,
         let s2 := serve UpdateAccessToken w2 rq2 in
         (cookie_refresh_token rq2 = Some refresh -> now w2 < now w + 604800 ->
          exists ok, calls_since w2 (world s2) = [(C_redis_get id, ok)])
         /\ (cookie_refresh_token rq2 = Some refresh -> now w + 604800 <= now w2 ->
             s2 = Build_St w2 rq2
                    (error_only (Build_ErrorHandler "jwt expired" 400)))
         /\ (cookie_refresh_token rq2 = Some access ->
             ACCESS_TOKEN <> REFRESH_TOKEN ->
             s2 = Build_St w2 rq2
                    (error_only (Build_ErrorHandler "invalid signature" 400))).
Proof.
  intros s1 id Hv Hf Hp Hu. subst s1 id.
  rewrite (UpdateAccessToken_rotates w rq decoded user Hv Hf Hp Hu).
  do 2 eexists. split; [reflexivity |].
  intros w2 rq2 s2. subst s2. refine (conj _ (conj _ _)).
  - intros Hc Hn.
    apply (UpdateAccessToken_reads_cache w2 rq2
             (IdPayload (as_string (opt_prop user "_id")))).
    rewrite Hc. unfold jwt_verify. rewrite String.eqb_refl. simpl.
    destruct (Z.leb_spec (now w + 604800) (now w2)); [lia | reflexivity].
  - intros Hc Hn. apply UpdateAccessToken_verify_fails.
    + rewrite Hc. reflexivity.
    + rewrite Hc. unfold jwt_verify. rewrite String.eqb_refl. simpl.
      destruct (Z.leb_spec (now w + 604800) (now w2)); [reflexivity | lia].
  - intros Hc Hs. apply UpdateAccessToken_verify_fails.
    + rewrite Hc. reflexivity.
    + rewrite Hc. unfold jwt_verify.
      destruct (String.eqb ACCESS_TOKEN REFRESH_TOKEN) eqn:E; [| reflexivity].
      apply String.eqb_eq in E. contradiction.
Qed.

(** X9. [getUserInfo] at its edges: a cache that throws and a cached text
    that does not parse are forwarded with their own message and status
    400; a cached text that parses to a falsy value ([null], [false], [0],
    the empty string) counts as no session and gives 404; so does a request
    without [req.user], with the id shown as 'undefined'. In every run the
    stores are as before and no cookie is set. *)
Theorem getUserInfo_edges (w : World) (rq : Request) :
  let s' := serve getUserInfo w rq in
  let id := req_user_id rq in
  (users (world s') = users w /\ sessions (world s') = sessions w
   /\ outbox (world s') = outbox w /\ cookies (res s') = [])
  /\ (forall msg, fault (C_redis_get id) w = Some msg ->
        res s' = error_only (Build_ErrorHandler msg 400))
  /\ (forall text msg,
        fault (C_redis_get id) w = None -> cache_lookup w id = Some text ->
        JSON_parse text = Throw msg ->
        res s' = error_only (Build_ErrorHandler msg 400))
  /\ (forall text v,
        fault (C_redis_get id) w = None -> cache_lookup w id = Some text ->
        JSON_parse text = Ok v -> truthy v = false ->
        res s' = error_only
                   (Build_ErrorHandler ("user: " ++ interpolate id ++ " not found")
                      404))
  /\ (req_user rq = None -> fault (C_redis_get None) w = None ->
      res s' = error_only (Build_ErrorHandler "user: undefined not found" 404)).
Proof.
  intros s' id. subst s' id.
  refine (conj _ (conj _ (conj _ (conj _ _)))).
  - destruct (fault (C_redis_get (req_user_id rq)) w) eqn:Hf.
    { erewrite getUserInfo_cache_fails by eassumption. repeat split. }
    destruct (parse_text (cache_lookup w (req_user_id rq))) as [user | msg] eqn:Hp.
    2:{ erewrite getUserInfo_parse_fails by eassumption. repeat split. }
    destruct (truthy user) eqn:Ht.
    + erewrite getUserInfo_found by eassumption. repeat split.
    + erewrite getUserInfo_not_found by eassumption. repeat split.
  - intros msg Hf. erewrite getUserInfo_cache_fails by eassumption. reflexivity.
  - intros text msg Hf Hc Hp.
    erewrite getUserInfo_parse_fails; [reflexivity | assumption |].
    rewrite Hc. exact Hp.
  - intros text v Hf Hc Hp Ht.
    erewrite getUserInfo_not_found; [reflexivity | assumption | | exact Ht].
    rewrite Hc. exact Hp.
  - intros Hu Hf.
    assert (Hid : req_user_id rq = None) by (unfold req_user_id; rewrite Hu; reflexivity).
    erewrite (getUserInfo_not_found w rq JNull);
      [rewrite Hid; reflexivity | rewrite Hid; assumption
      | rewrite Hid; reflexivity | reflexivity].
Qed.

End RefreshTokens.

Section Settling.

Context `{Collaborators}.

Lemma settled_error e : settled (error_only e).
Proof. left. repeat split. eauto. Qed.

Lemma settled_sent code b : settled (sent_only code b).
Proof. right. exists code, b. repeat split. Qed.

Lemma try_catch_next_ok (body : M unit) (f : string -> ErrorHandler) (s : St) :
  fst (try_catch body (fun msg => next (f msg)) s) = Ok tt.
Proof.
  unfold try_catch. destruct (body s) as [[[] | msg] s']; reflexivity.
Qed.

Lemma UpdateAccessToken_settles w rq : settled (res (serve UpdateAccessToken w rq)).
Proof.
  destruct (truthy_token (cookie_refresh_token rq)) eqn:Ht.
  2:{ rewrite UpdateAccessToken_no_cookie by assumption. apply settled_error. }
  destruct (jwt_verify (cookie_refresh_token rq) REFRESH_TOKEN (now w))
    as [decoded | msg] eqn:Hv.
  2:{ erewrite UpdateAccessToken_verify_fails by eassumption. apply settled_error. }
  destruct (fault (C_redis_get (payload_id decoded)) w) eqn:Hf.
  { erewrite UpdateAccessToken_cache_fails by eassumption. apply settled_error. }
  destruct (parse_text (cache_lookup w (payload_id decoded))) as [user | msg] eqn:Hp.
  2:{ erewrite UpdateAccessToken_parse_fails by eassumption. apply settled_error. }
  destruct (is_null_dec user) as [-> | Hu].
  - erewrite UpdateAccessToken_no_session by eassumption. apply settled_error.
  - erewrite UpdateAccessToken_rotates by eassumption.
    right. do 2 eexists. repeat split.
Qed.

Lemma getUserInfo_settles w rq : settled (res (serve getUserInfo w rq)).
Proof.
  destruct (fault (C_redis_get (req_user_id rq)) w) eqn:Hf.
  { erewrite getUserInfo_cache_fails by eassumption. apply settled_error. }
  destruct (parse_text (cache_lookup w (req_user_id rq))) as [user | msg] eqn:Hp.
  2:{ erewrite getUserInfo_parse_fails by eassumption. apply settled_error. }
  destruct (truthy user) eqn:Ht.
  - erewrite getUserInfo_found by eassumption. apply settled_sent.
  - erewrite getUserInfo_not_found by eassumption. apply settled_error.
Qed.

Lemma setReminder_settles w rq : settled (res (serve setReminder w rq)).
Proof.
  destruct (fault C_fetch_reminders w) as [msg |] eqn:Hf.
  { rewrite (setReminder_fetch_fails w rq msg Hf). apply settled_error. }
  destruct (List.filter (due (now w)) (reminders w)) as [| r rs] eqn:Hrs.
  { rewrite (setReminder_nothing_due w rq Hf Hrs). apply settled_sent. }
  destruct (setReminder_loop w rq Hf) as (res & w' & _ & E);
    [rewrite Hrs; discriminate |].
  rewrite E. simpl. destruct res; [apply settled_sent | apply settled_error].
Qed.

Lemma logoutUser_settles w rq : settled (res (serve logoutUser w rq)).
Proof.
  destruct (truthy_str (req_user_id rq)) eqn:Hu.
  - destruct (fault (C_redis_del (str (req_user_id rq))) w) eqn:Hf.
    + erewrite logoutUser_cache_fails by eassumption. left. repeat split. eauto.
    + erewrite logoutUser_deletes by eassumption. right. do 2 eexists. repeat split.
  - rewrite logoutUser_anonymous by assumption. right. do 2 eexists. repeat split.
Qed.

(** X10. No handler rejects: whatever is thrown inside is caught and
    forwarded, so every handler returns normally. And every run of
    [registerUser], [activateUser], [logoutUser], [UpdateAccessToken],
    [getUserInfo] and [setReminder] settles the request exactly once:
    either one error is forwarded and nothing is sent, or one body is sent
    with its status and nothing is forwarded. *)
Theorem handlers_settle_once (w : World) (rq : Request) (s : St) :
  (fst (registerUser s) = Ok tt /\ fst (activateUser s) = Ok tt
   /\ fst (userLogin s) = Ok tt /\ fst (logoutUser s) = Ok tt
   /\ fst (UpdateAccessToken s) = Ok tt /\ fst (getUserInfo s) = Ok tt
   /\ fst (setReminder s) = Ok tt)
  /\ settled (res (serve registerUser w rq))
  /\ settled (res (serve activateUser w rq))
  /\ settled (res (serve logoutUser w rq))
  /\ settled (res (serve UpdateAccessToken w rq))
  /\ settled (res (serve getUserInfo w rq))
  /\ settled (res (serve setReminder w rq)).
Proof.
  split.
  { repeat split;
      [ apply (try_catch_next_ok _ (fun msg => Build_ErrorHandler msg 500))
      | apply (try_catch_next_ok _ (fun msg => Build_ErrorHandler msg 500))
      | apply (try_catch_next_ok _ (fun msg => Build_ErrorHandler msg 400))
      | apply (try_catch_next_ok _ (fun msg => Build_ErrorHandler msg 400))
      | apply (try_catch_next_ok _ (fun msg => Build_ErrorHandler msg 400))
      | apply (try_catch_next_ok _ (fun msg => Build_ErrorHandler msg 400))
      | apply (try_catch_next_ok _ (fun msg => Build_ErrorHandler msg 500)) ]. }
  refine (conj _ (conj _ (conj _ (conj _ (conj _ _))))).
  - destruct (registerUser_cases w rq)
      as [[err E] | [(err & ok & E) | [(Hc & Hu & msg & E) | (Hc & Hu & E)]]];
      rewrite E; simpl; first [apply settled_error | apply settled_sent].
  - destruct (activateUser_cases w rq)
      as [[err E] | [(u0 & err & E) | (u0 & c0 & _ & _ & _ & E)]];
      rewrite E; simpl; first [apply settled_error | apply settled_sent].
  - apply logoutUser_settles.
  - apply UpdateAccessToken_settles.
  - apply getUserInfo_settles.
  - apply setReminder_settles.
Qed.

End Settling.

Section ReminderLoop.

Context `{Collaborators}.

Lemma same_or_sent_refl (rs : list Reminder) : Forall2 same_or_sent rs rs.
Proof. induction rs; constructor; [left; reflexivity | assumption]. Qed.

Lemma same_or_sent_patch (id : string) (rs : list Reminder) :
  Forall2 same_or_sent rs (patch_sent id rs).
Proof.
  unfold patch_sent. induction rs as [| r rs IH]; simpl; constructor; [| exact IH].
  destruct (String.eqb (r_id r) id); [right | left]; reflexivity.
Qed.

Lemma same_or_sent_trans (l1 l2 l3 : list Reminder) :
  Forall2 same_or_sent l1 l2 -> Forall2 same_or_sent l2 l3 ->
  Forall2 same_or_sent l1 l3.
Proof.
  intros H12. revert l3. induction H12 as [| a b l1 l2 Hab _ IH]; intros l3 H23.
  - inversion H23. constructor.
  - inversion H23 as [| b' c l2' l3' Hbc Hrest]; subst. constructor; [| apply IH; assumption].
    destruct Hab as [-> | ->], Hbc as [-> | ->];
      [left | right | right | right]; reflexivity.
Qed.

(** What one iteration leaves alone, and the mail it may add. *)
Lemma body_step_frame r w res w1 :
  body_step r w res w1 ->
  users w1 = users w /\ sessions w1 = sessions w /\ events w1 = events w
  /\ now w1 = now w
  /\ Forall2 same_or_sent (reminders w) (reminders w1)
  /\ exists new,
       outbox w1 = (outbox w ++ new)%list
       /\ (length new <= 1)%nat
       /\ forall m, In m new ->
            exists e ev u,
              event_ref r = Some e /\ find_event w e = Some ev
              /\ find_user w (r_userId r) = Some u /\ m = reminder_mail u ev.
Proof.
  inversion 1; subst; simpl;
    (split; [reflexivity |]); (split; [reflexivity |]);
    (split; [reflexivity |]); (split; [reflexivity |]);
    (split; [first [apply same_or_sent_patch | apply same_or_sent_refl] |]).
  all: try (exists []; split; [symmetry; apply app_nil_r |];
            split; [simpl; lia | intros m []]; fail).
  all: eexists; (split; [reflexivity |]); (split; [simpl; lia |]);
    intros m [<- | []]; eauto 10.
Qed.

Lemma loop_run_frame rs w res w' :
  loop_run rs w res w' ->
  users w' = users w /\ sessions w' = sessions w /\ events w' = events w
  /\ now w' = now w
  /\ Forall2 same_or_sent (reminders w) (reminders w')
  /\ exists new,
       outbox w' = (outbox w ++ new)%list
       /\ (length new <= length rs)%nat
       /\ forall m, In m new ->
            exists r e ev u,
              In r rs /\ event_ref r = Some e /\ find_event w e = Some ev
              /\ find_user w (r_userId r) = Some u /\ m = reminder_mail u ev.
Proof.
  induction 1 as [w | r rs w w1 res w2 Hstep Hloop IH | r rs w msg w1 Hstep].
  - repeat (split; [reflexivity |]). split; [apply same_or_sent_refl |].
    exists []. split; [symmetry; apply app_nil_r |]. split; [simpl; lia |].
    intros m [].
  - destruct (body_step_frame _ _ _ _ Hstep)
      as (U1 & S1 & E1 & N1 & R1 & new1 & O1 & L1 & M1).
    destruct IH as (U2 & S2 & E2 & N2 & R2 & new2 & O2 & L2 & M2).
    split; [congruence |]. split; [congruence |]. split; [congruence |].
    split; [congruence |].
    split; [eapply same_or_sent_trans; eassumption |].
    exists (new1 ++ new2)%list.
    split; [rewrite O2, O1, app_assoc; reflexivity |].
    split; [rewrite length_app; simpl; lia |].
    intros m Hin. apply in_app_or in Hin as [Hin | Hin].
    + destruct (M1 m Hin) as (e & ev & u & ? & ? & ? & ?).
      exists r, e, ev, u. repeat split; try assumption. left. reflexivity.
    + destruct (M2 m Hin) as (r' & e & ev & u & ? & ? & Hev & Hu & ?).
      exists r', e, ev, u. unfold find_event, find_user in *.
      rewrite E1 in Hev. rewrite U1 in Hu.
      repeat split; try assumption. right. assumption.
  - destruct (body_step_frame _ _ _ _ Hstep)
      as (U1 & S1 & E1 & N1 & R1 & new1 & O1 & L1 & M1).
    repeat (split; [assumption |]).
    exists new1. split; [assumption |]. split; [simpl; lia |].
    intros m Hin. destruct (M1 m Hin) as (e & ev & u & ? & ? & ? & ?).
    exists r, e, ev, u. repeat split; try assumption. left. reflexivity.
Qed.

(** X11. What an iteration of the reminder loop skips: a reminder without a
    usable event reference costs no call at all; one whose event is not in
    the dataset costs the event fetch only; one whose user is unknown costs
    the fetch and the lookup only. In all three the iteration ends
    normally, and outbox and reminders are as before. *)
Theorem setReminder_body_skips (r : Reminder) (s : St) :
  let w := world s in
  (event_ref r = None -> setReminder_body r s = (Ok tt, s))
  /\ (forall e,
        event_ref r = Some e -> fault (C_fetch_event e) w = None ->
        find_event w e = None ->
        setReminder_body r s
        = (Ok tt, with_world (logged [(C_fetch_event e, true)] w) s))
  /\ (forall e ev,
        event_ref r = Some e -> fault (C_fetch_event e) w = None ->
        find_event w e = Some ev ->
        fault (C_findById (r_userId r)) (logged [(C_fetch_event e, true)] w)
        = None ->
        find_user w (r_userId r) = None ->
        setReminder_body r s
        = (Ok tt,
           with_world
             (logged [(C_fetch_event e, true); (C_findById (r_userId r), true)] w)
             s)).
Proof.
  intros w. subst w.
  destruct (setReminder_body_step r s) as (res & w1 & E & Hstep).
  refine (conj _ (conj _ _)).
  - intros Hr. rewrite E. inversion Hstep; subst; try congruence.
    destruct s; reflexivity.
  - intros e Hr Hf He. rewrite E.
    inversion Hstep; subst; try congruence;
      match goal with
      | Hr' : event_ref r = Some ?e' |- _ =>
          assert (e' = e) by congruence; subst e'
      end;
      try congruence; reflexivity.
  - intros e ev Hr Hf He Hfb Hu. rewrite E.
    inversion Hstep; subst; try congruence;
      match goal with
      | Hr' : event_ref r = Some ?e' |- _ =>
          assert (e' = e) by congruence; subst e'
      end;
      try congruence; reflexivity.
Qed.

(** X12. What [setReminder] leaves alone: users, sessions, events and the
    clock are as before and no cookie is set; the stored reminders keep
    their number and order, and each is either unchanged or differs from
    before only in being marked sent; the outbox only grows at its end. *)
Theorem setReminder_frame (w : World) (rq : Request) :
  let s' := serve setReminder w rq in
  users (world s') = users w /\ sessions (world s') = sessions w
  /\ events (world s') = events w /\ now (world s') = now w
  /\ cookies (res s') = []
  /\ Forall2 same_or_sent (reminders w) (reminders (world s'))
  /\ exists new, outbox (world s') = (outbox w ++ new)%list.
Proof.
  intros s'. subst s'.
  destruct (fault C_fetch_reminders w) as [msg |] eqn:Hf.
  { rewrite (setReminder_fetch_fails w rq msg Hf). simpl.
    repeat (split; [reflexivity |]). split; [apply same_or_sent_refl |].
    exists []. symmetry. apply app_nil_r. }
  destruct (List.filter (due (now w)) (reminders w)) as [| r rs] eqn:Hrs.
  { rewrite (setReminder_nothing_due w rq Hf Hrs). simpl.
    repeat (split; [reflexivity |]). split; [apply same_or_sent_refl |].
    exists []. symmetry. apply app_nil_r. }
  destruct (setReminder_loop w rq Hf) as (res & w' & Hloop & E);
    [rewrite Hrs; discriminate |].
  rewrite E. simpl.
  destruct (loop_run_frame _ _ _ _ Hloop)
    as (U & S & Ev & N & R & new & O & _ & _).
  simpl in *. repeat (split; [assumption |]).
  split; [destruct res; reflexivity |]. split; [assumption |]. eauto.
Qed.

(** X13. Every mail [setReminder] adds to the outbox is the reminder mail
    of a stored reminder that was unsent and due, built from the event its
    reference names and addressed to the user its [userId] names; and it
    adds at most one mail per due reminder. *)
Theorem setReminder_mails_are_addressed (w : World) (rq : Request) :
  let s' := serve setReminder w rq in
  exists new,
    outbox (world s') = (outbox w ++ new)%list
    /\ (length new <= length (List.filter (due (now w)) (reminders w)))%nat
    /\ forall m, In m new ->
         exists r e ev u,
           In r (reminders w) /\ r_sent r = false /\ r_reminderTime r <= now w
           /\ event_ref r = Some e /\ find_event w e = Some ev
           /\ find_user w (r_userId r) = Some u
           /\ m = reminder_mail u ev
           /\ m_email m = u_email u
           /\ m_subject m = "Reminder: " ++ ev_title ev.
Proof.
  intros s'. subst s'.
  destruct (fault C_fetch_reminders w) as [msg |] eqn:Hf.
  { rewrite (setReminder_fetch_fails w rq msg Hf). simpl.
    exists []. split; [symmetry; apply app_nil_r |].
    split; [simpl; lia | intros m []]. }
  destruct (List.filter (due (now w)) (reminders w)) as [| r0 rs0] eqn:Hrs.
  { rewrite (setReminder_nothing_due w rq Hf Hrs). simpl.
    exists []. split; [symmetry; apply app_nil_r |].
    split; [simpl; lia | intros m []]. }
  destruct (setReminder_loop w rq Hf) as (res & w' & Hloop & E);
    [rewrite Hrs; discriminate |].
  rewrite E. simpl.
  destruct (loop_run_frame _ _ _ _ Hloop)
    as (_ & _ & _ & _ & _ & new & O & L & M).
  exists new. split; [exact O |]. rewrite Hrs in L. split; [exact L |].
  intros m Hin. destruct (M m Hin) as (r & e & ev & u & Hr & He & Hev & Hu & ->).
  rewrite Hrs in Hr. rewrite <- Hrs in Hr.
  apply filter_In in Hr as [Hr Hdue]. apply due_spec in Hdue as [Hs Ht].
  exists r, e, ev, u. repeat split; assumption.
Qed.

Lemma mark_sent_not_due (t : Z) (r : Reminder) : due t (mark_sent r) = false.
Proof. reflexivity. Qed.

(** With the services up, a loop over deliverable reminders marks each of
    them sent; if every due stored reminder shares its id with one of them,
    none is due afterwards. *)
Lemma loop_run_clears_due (t : Z) rs w res w' :
  services_up ->
  loop_run rs w res w' ->
  (forall r, In r rs -> deliverable w r) ->
  (forall x, In x (reminders w) -> due t x = true ->
             exists r, In r rs /\ r_id r = r_id x) ->
  forall x, In x (reminders w') -> due t x = false.
Proof.
  intros Hup.
  induction 1 as [w | r rs w w1 res w2 Hstep Hloop IH | r rs w msg w1 Hstep];
    intros Hdel Hcov x Hx.
  - destruct (due t x) eqn:Hd; [| reflexivity].
    destruct (Hcov x Hx Hd) as (r & [] & _).
  - destruct (Hdel r (or_introl eq_refl)) as (e & ev & u & Hr & Hev & Hu).
    assert (Hw1 : reminders w1 = patch_sent (r_id r) (reminders w)
                  /\ events w1 = events w /\ users w1 = users w).
    { inversion Hstep; subst; try congruence;
        match goal with
        | Hr' : event_ref r = Some ?e' |- _ =>
            assert (e' = e) by congruence; subst e'
        end;
        try congruence;
        try (match goal with
             | Hf : fault _ _ = Some _ |- _ => rewrite Hup in Hf; discriminate Hf
             end).
      repeat split. }
    destruct Hw1 as (Rw1 & Ew1 & Uw1).
    apply IH; [| | exact Hx].
    + intros r' Hr'. destruct (Hdel r' (or_intror Hr')) as (e' & ev' & u' & ? & ? & ?).
      exists e', ev', u'. unfold find_event, find_user in *.
      rewrite Ew1, Uw1. repeat split; assumption.
    + intros y Hy Hd. rewrite Rw1 in Hy. unfold patch_sent in Hy.
      apply in_map_iff in Hy as (y0 & Ey & Hy0).
      destruct (String.eqb (r_id y0) (r_id r)) eqn:Eid.
      * subst y. rewrite mark_sent_not_due in Hd. discriminate.
      * subst y. destruct (Hcov y0 Hy0 Hd) as (r' & [<- | Hr'] & Eid').
        -- rewrite Eid', String.eqb_refl in Eid. discriminate.
        -- eauto.
  - exfalso. inversion Hstep; subst;
      match goal with
      | Hf : fault _ _ = Some _ |- _ => rewrite Hup in Hf; discriminate Hf
      end.
Qed.

Lemma filter_all_false {A} (f : A -> bool) (l : list A) :
  (forall x, In x l -> f x = false) -> List.filter f l = [].
Proof.
  induction l as [| a l IH]; intros Hall; [reflexivity |].
  simpl. rewrite (Hall a (or_introl eq_refl)). apply IH.
  intros x Hx. apply Hall. right. exact Hx.
Qed.

(** X14. Dispatch is idempotent when it succeeds: with the services up and
    every due reminder deliverable, a run of [setReminder] leaves no
    reminder due, so a second run at the same clock sends no mail, patches
    nothing and answers 200 'No reminders to send'. *)
Theorem setReminder_second_run_is_idle (w : World) (rq rq2 : Request) :
  let w1 := world (serve setReminder w rq) in
  let s2 := serve setReminder w1 rq2 in
  services_up ->
  (forall r, In r (List.filter (due (now w)) (reminders w)) -> deliverable w r) ->
  List.filter (due (now w1)) (reminders w1) = []
  /\ res s2 = sent_only 200 (B_message "No reminders to send")
  /\ outbox (world s2) = outbox w1
  /\ reminders (world s2) = reminders w1.
Proof.
  intros w1 s2 Hup Hdel. subst s2.
  assert (Hidle : List.filter (due (now w1)) (reminders w1) = []).
  { subst w1.
    destruct (List.filter (due (now w)) (reminders w)) as [| r0 rs0] eqn:Hrs.
    { rewrite (setReminder_nothing_due w rq (Hup _ _) Hrs). simpl. exact Hrs. }
    destruct (setReminder_loop w rq (Hup _ _)) as (res & w' & Hloop & E);
      [rewrite Hrs; discriminate |].
    rewrite E. simpl.
    destruct (loop_run_frame _ _ _ _ Hloop) as (_ & _ & _ & N & _).
    simpl in N. rewrite N.
    apply filter_all_false.
    apply (loop_run_clears_due (now w) _ _ _ _ Hup Hloop).
    - rewrite Hrs. exact Hdel.
    - intros x Hx Hd. exists x. split; [| reflexivity].
      apply filter_In. split; assumption. }
  split; [exact Hidle |].
  rewrite (setReminder_nothing_due w1 rq2 (Hup _ _) Hidle).
  repeat split.
Qed.

End ReminderLoop.

Section Replays.

Context `{Collaborators}.

(** X15. Registration reserves nothing: when a registration succeeded, the
    same request passes the duplicate check again; with the services up it
    is answered 201 a second time and a second activation mail goes to the
    same address. *)
Theorem registerUser_twice_succeeds (w : World) (rq : Request) :
  let s1 := serve registerUser w rq in
  let s2 := serve registerUser (world s1) rq in
  checks_pass rq ->
  (forall u, In u (users w) -> u_email u <> str (body_email rq)) ->
  services_up ->
  status (res s1) = Some 201 /\ status (res s2) = Some 201
  /\ exists m1 m2,
       outbox (world s2) = (outbox w ++ [m1; m2])%list
       /\ m_email m1 = str (body_email rq) /\ m_email m2 = str (body_email rq)
       /\ m_template m1 = "activateEmail.ejs" /\ m_template m2 = "activateEmail.ejs".
Proof.
  intros s1 s2 Hc Hnone Hup. subst s1 s2.
  assert (Hu : find (fun u => String.eqb (u_email u) (str (body_email rq)))
                 (users w) = None).
  { destruct (find _ (users w)) eqn:Hu; [| reflexivity].
    apply find_some in Hu as [Hin He]. apply String.eqb_eq in He.
    exfalso. eapply Hnone; eassumption. }
  rewrite (registerUser_sends w rq Hc (Hup _ _) Hu (Hup _ _)). simpl.
  rewrite registerUser_sends; [| exact Hc | apply Hup | exact Hu | apply Hup].
  simpl. split; [reflexivity |]. split; [reflexivity |].
  do 2 eexists. rewrite <- app_assoc. simpl. repeat split.
Qed.

(** X16. Rotation revokes nothing: [UpdateAccessToken] never writes to the
    session cache, and after a successful rotation the refresh token that
    was presented is accepted again and, the cache answering, rotated
    again. *)
Theorem rotation_does_not_revoke (w : World) (rq : Request)
    (decoded : Payload) (user : Json) :
  let s1 := serve UpdateAccessToken w rq in
  let s2 := serve UpdateAccessToken (world s1) rq in
  jwt_verify (cookie_refresh_token rq) REFRESH_TOKEN (now w) = Ok decoded ->
  fault (C_redis_get (payload_id decoded)) w = None ->
  parse_text (cache_lookup w (payload_id decoded)) = Ok user ->
  user <> JNull ->
  fault (C_redis_get (payload_id decoded)) (world s1) = None ->
  sessions (world s1) = sessions w
  /\ status (res s1) = Some 200
  /\ status (res s2) = Some 200.
Proof.
  intros s1 s2 Hv Hf Hp Hu Hf2. subst s1 s2.
  rewrite (UpdateAccessToken_rotates w rq decoded user Hv Hf Hp Hu) in *.
  simpl in *.
  rewrite (UpdateAccessToken_rotates _ rq decoded user); try assumption.
  repeat split.
Qed.

(** X17. Tokens of one kind are not accepted as another when the secrets
    differ: the activation token of a successful registration presented as
    the refresh cookie is refused with 'invalid signature' and status 400,
    and a token signed with the refresh or the access secret presented as
    the activation token is refused with 'invalid signature' and status
    500, with nothing created. *)
Theorem tokens_are_not_interchangeable (w : World) (rq : Request) :
  let s1 := serve registerUser w rq in
  (forall t msg w2 rq2,
     ACTIVATION_SECRET <> REFRESH_TOKEN ->
     json (res s1) = Some (B_activation msg t) ->
     cookie_refresh_token rq2 = Some t ->
     serve UpdateAccessToken w2 rq2
     = Build_St w2 rq2 (error_only (Build_ErrorHandler "invalid signature" 400)))
  /\ (forall p key iat exp w2 rq2,
        key <> ACTIVATION_SECRET ->
        body_activation_token rq2 = Some (Signed p key iat exp) ->
        serve activateUser w2 rq2
        = Build_St w2 rq2 (error_only (Build_ErrorHandler "invalid signature" 500))).
Proof.
  intros s1. subst s1. split.
  - intros t msg w2 rq2 Hs Hj Hc.
    destruct (registerUser_cases w rq)
      as [[err E] | [(err & ok & E) | [(Hc' & Hu & m & E) | (Hc' & Hu & E)]]];
      rewrite E in Hj; simpl in Hj; try discriminate.
    inversion Hj; subst. apply UpdateAccessToken_verify_fails.
    + rewrite Hc. reflexivity.
    + rewrite Hc. unfold jwt_verify, activation_jwt.
      destruct (String.eqb ACTIVATION_SECRET REFRESH_TOKEN) eqn:Eq; [| reflexivity].
      apply String.eqb_eq in Eq. contradiction.
  - intros p key iat exp w2 rq2 Hk Ht. apply activateUser_verify_fails.
    rewrite Ht. unfold jwt_verify.
    destruct (String.eqb key ACTIVATION_SECRET) eqn:Eq; [| reflexivity].
    apply String.eqb_eq in Eq. contradiction.
Qed.

(** X18. [activateUser] adds no duplicate check of its own: every call it
    makes is a [userModel.create]. Replaying a verified activation request
    makes it call [create] again with no lookup in between, and the outcome
    is what [create] decides: if it accepts the document, a second record
    with the same e-mail is stored and 201 is answered again; if it throws,
    its message is forwarded with status 500 and the collection keeps the
    one record. *)
Theorem activateUser_replay_is_decided_by_create (w : World) (rq : Request)
    (u : IRegisterUser) (code : string) :
  let s1 := serve activateUser w rq in
  let s2 := serve activateUser (world s1) rq in
  jwt_verify (body_activation_token rq) ACTIVATION_SECRET (now w)
  = Ok (ActivationPayload u code) ->
  body_activation_code rq = Some code ->
  fault (C_create u) w = None ->
  (users (world s1) = (users w ++ [created w u])%list
   /\ status (res s1) = Some 201)
  /\ (exists ok,
        calls_since w (world s2) = [(C_create u, true); (C_create u, ok)])
  /\ (fault (C_create u) (world s1) = None ->
      users (world s2)
      = (users w ++ [created w u; created (world s1) u])%list
      /\ u_email (created w u) = reg_email u
      /\ u_email (created (world s1) u) = reg_email u
      /\ status (res s2) = Some 201)
  /\ (forall msg,
        fault (C_create u) (world s1) = Some msg ->
        users (world s2) = (users w ++ [created w u])%list
        /\ res s2 = error_only (Build_ErrorHandler msg 500))
  /\ (forall w0 rq0 c ok,
        In (c, ok) (calls_since w0 (world (serve activateUser w0 rq0))) ->
        exists u0, c = C_create u0).
Proof.
  intros s1 s2 Hv Hc Hf1. subst s1 s2.
  rewrite (activateUser_creates w rq u code Hv Hc Hf1). simpl.
  refine (conj _ (conj _ (conj _ (conj _ _)))).
  - split; reflexivity.
  - destruct (fault (C_create u)
                (with_users (users w ++ [created w u])
                   (logged [(C_create u, true)] w))) as [msg |] eqn:Hf2.
    + exists false.
      erewrite activateUser_create_fails; [| exact Hv | exact Hc | exact Hf2].
      apply calls_since_app. simpl. rewrite <- app_assoc. reflexivity.
    + exists true.
      erewrite activateUser_creates; [| exact Hv | exact Hc | exact Hf2].
      apply calls_since_app. simpl. rewrite <- app_assoc. reflexivity.
  - intros Hf2.
    erewrite activateUser_creates; [| exact Hv | exact Hc | exact Hf2].
    simpl. rewrite <- app_assoc. repeat split.
  - intros msg Hf2.
    erewrite activateUser_create_fails; [| exact Hv | exact Hc | exact Hf2].
    split; reflexivity.
  - intros w0 rq0 c ok Hin.
    destruct (activateUser_cases w0 rq0)
      as [[err E] | [(u0 & err & E) | (u0 & c0 & _ & _ & _ & E)]];
      rewrite E in Hin; simpl in Hin.
    + rewrite calls_since_refl in Hin. destruct Hin.
    + rewrite calls_since_logged in Hin. destruct Hin as [Hin | []].
      inversion Hin. eauto.
    + rewrite (calls_since_app w0 _ [(C_create u0, true)]) in Hin by reflexivity.
      destruct Hin as [Hin | []]. inversion Hin. eauto.
Qed.

End Replays.

(** * Concrete runs *)

Section Witnesses.

Import Demo Scenario.

Lemma registerUser_validation_witness :
  serve (@registerUser healthy) empty_world empty_request
  = Build_St empty_world empty_request
      (error_only (Build_ErrorHandler "Please enter all fields" 400))
  /\ res (serve (@registerUser healthy) empty_world
            (register_request "Bob" "bob.example.org" "Secret#2024"))
     = error_only (Build_ErrorHandler "Invalid Email" 400)
  /\ res (serve (@registerUser healthy) empty_world
            (register_request "Bob" "bob@example.org" "secret"))
     = error_only (Build_ErrorHandler password_rule 400)
  /\ res (serve (@registerUser healthy) busy_world
            (register_request "Eve" "ada@example.org" "Secret#2024"))
     = error_only (Build_ErrorHandler "Email already exists" 400)
  /\ res (serve (@registerUser healthy) empty_world bob_registers)
     = sent_only 201
         (B_activation "Activation code sent to bob@example.org" bob_token).
Proof.
  split; [| split; [| split; [| split]]].
  - apply (@registerUser_validation healthy empty_world empty_request).
    reflexivity.
  - rewrite (proj1 (proj2 (@registerUser_validation healthy empty_world
                             (register_request "Bob" "bob.example.org" "Secret#2024"))));
      reflexivity.
  - rewrite (proj1 (proj2 (proj2 (@registerUser_validation healthy empty_world
                                    (register_request "Bob" "bob@example.org" "secret")))));
      reflexivity.
  - rewrite (proj1 (proj2 (proj2 (proj2
               (@registerUser_validation healthy busy_world
                  (register_request "Eve" "ada@example.org" "Secret#2024"))))));
      [reflexivity | repeat split | reflexivity |].
    exists ada. split; [left; reflexivity | reflexivity].
  - destruct (proj2 (proj2 (proj2 (proj2 (proj2
               (@registerUser_validation healthy empty_world bob_registers))))))
      as [_ Hres].
    + repeat split.
    + intros u [].
    + intros c w'. reflexivity.
    + rewrite Hres. reflexivity.
Defined.

Lemma registerUser_response_discloses_code_witness :
  code_in_response (res (serve (@registerUser healthy) empty_world bob_registers))
  = Some "5500"
  /\ outbox (world (serve (@registerUser healthy) empty_world bob_registers))
     = [{| m_template := "activateEmail.ejs"; m_email := "bob@example.org";
           m_subject := "Account Activation";
           m_data := ActivationData "Bob" "5500" |}].
Proof.
  destruct (@registerUser_response_discloses_code healthy empty_world bob_registers)
    as (t & code & Hjson & Hdec & Hpw & Hlen & (sent & Hout & Hdata) & Hcode).
  - intros w'. split; vm_compute; [intros Hc; discriminate Hc | reflexivity].
  - reflexivity.
  - split; reflexivity.
Defined.

Lemma activateUser_activation_witness :
  res (serve (@activateUser healthy) five_minutes_later bob_activates)
  = error_only (Build_ErrorHandler "jwt expired" 500)
  /\ res (serve (@activateUser healthy) empty_world
            (activation_request bob_token "0000"))
     = error_only (Build_ErrorHandler "Invalid Activation Code" 400)
  /\ users (world (serve (@activateUser healthy) empty_world bob_activates))
     = [bob]
  /\ res (serve (@activateUser healthy) empty_world bob_activates)
     = sent_only 201 (B_activated bob "Account activated successfully").
Proof.
  split; [| split].
  - rewrite (proj1 (@activateUser_activation healthy five_minutes_later
                      bob_activates) "jwt expired"); reflexivity.
  - rewrite (proj1 (proj2 (proj2 (@activateUser_activation healthy empty_world
                                    (activation_request bob_token "0000"))))
               (ActivationPayload
                  {| reg_name := "Bob"; reg_email := "bob@example.org";
                     reg_password := "Secret#2024" |} "5500"));
      reflexivity.
  - destruct (proj2 (proj2 (proj2 (@activateUser_activation healthy empty_world
                                     bob_activates)))
                {| reg_name := "Bob"; reg_email := "bob@example.org";
                   reg_password := "Secret#2024" |} "5500" eq_refl eq_refl)
      as [_ Hcreated].
    destruct (Hcreated eq_refl) as (Husers & _ & _ & _ & Hres).
    split; [rewrite Husers | rewrite Hres]; reflexivity.
Defined.

Lemma userLogin_credentials_witness :
  res (serve (@userLogin healthy) busy_world empty_request)
  = error_only (Build_ErrorHandler "Please provide all the fields" 400)
  /\ res (serve (@userLogin healthy) busy_world
            (login_request "eve@example.org" "Secret#2024"))
     = error_only (Build_ErrorHandler "email or password is invalid" 400)
  /\ res (serve (@userLogin healthy) busy_world
            (login_request "ada@example.org" "Wrong#2024"))
     = error_only (Build_ErrorHandler "email or password is invalid" 400)
  /\ In (C_sendToken ada, true)
       (calls_since busy_world
          (world (serve (@userLogin healthy) busy_world
                    (login_request "ada@example.org" "Secret#2024")))).
Proof.
  split; [| split; [| split]].
  - rewrite (proj1 (@userLogin_credentials healthy busy_world empty_request));
      reflexivity.
  - rewrite (proj1 (proj2 (@userLogin_credentials healthy busy_world
                             (login_request "eve@example.org" "Secret#2024"))));
      [reflexivity | reflexivity | reflexivity |].
    intros u [<- | []]. discriminate.
  - rewrite (proj1 (proj2 (proj2 (@userLogin_credentials healthy busy_world
                                    (login_request "ada@example.org" "Wrong#2024"))))
               ada);
      reflexivity.
  - apply (proj2 (proj2 (proj2 (proj2
             (@userLogin_credentials healthy busy_world
                (login_request "ada@example.org" "Secret#2024")))))).
    + reflexivity.
    + intros c w'. reflexivity.
    + reflexivity.
    + reflexivity.
Defined.

Lemma UpdateAccessToken_rotation_witness :
  res (serve (@UpdateAccessToken healthy) busy_world ada_request)
  = {| cookies :=
         [ {| c_name := "access_token";
              c_value := Signed (IdPayload (Some "u1")) "access-secret" 1000 1300;
              c_options := accessTokenOptions |};
           {| c_name := "refresh_token";
              c_value := Signed (IdPayload (Some "u1")) "refresh-secret" 1000 605800;
              c_options := refreshTokenOptions |} ];
       status := Some 200;
       json :=
         Some (B_accessToken
                 (Signed (IdPayload (Some "u1")) "access-secret" 1000 1300));
       forwarded := [] |}
  /\ res (serve (@UpdateAccessToken healthy) busy_world empty_request)
     = error_only (Build_ErrorHandler "Refresh token not found" 401).
Proof.
  split.
  - rewrite (proj2 (@UpdateAccessToken_rotation healthy busy_world ada_request)
               (IdPayload (Some "u1")) ada_session);
      [reflexivity | reflexivity | reflexivity | vm_compute; reflexivity
      | discriminate].
  - destruct (proj1 (@UpdateAccessToken_rotation healthy busy_world empty_request))
      as [Hs _]; [reflexivity |].
    rewrite Hs. reflexivity.
Defined.

Lemma session_lookup_is_cache_backed_witness :
  calls_since busy_world
    (world (serve (@UpdateAccessToken healthy) busy_world ada_request))
  = [(C_redis_get (Some "u1"), true)]
  /\ req_user (req (serve (@UpdateAccessToken healthy) busy_world ada_request))
     = Some ada_session
  /\ res (serve (@getUserInfo healthy) busy_world ada_request)
     = sent_only 200 (B_user ada_session)
  /\ res (serve (@getUserInfo healthy) after_logout ada_request)
     = error_only (Build_ErrorHandler "user: u1 not found" 404).
Proof.
  split; [| split; [| split]].
  - vm_compute. reflexivity.
  - apply (proj1 (@session_lookup_is_cache_backed healthy busy_world ada_request)
             (IdPayload (Some "u1")) eq_refl);
      [reflexivity | vm_compute; reflexivity].
  - apply (proj1 (proj2 (proj2 (proj2
             (@session_lookup_is_cache_backed healthy busy_world ada_request))))
             ada_session);
      [reflexivity | vm_compute; reflexivity | reflexivity].
  - rewrite (proj1 (proj2 (proj2
               (@session_lookup_is_cache_backed healthy after_logout ada_request))));
      [reflexivity | reflexivity | vm_compute; reflexivity].
Defined.

Lemma setReminder_mail_failures_are_local_witness :
  let s' := serve (@setReminder mail_down) busy_world empty_request in
  res s' = sent_only 200 (B_message "Reminders processed successfully")
  /\ outbox (world s') = []
  /\ map r_sent (reminders (world s')) = [false; false; false; true]
  /\ In (C_fetch_event "e1", true) (calls_since busy_world (world s')).
Proof.
  destruct (@setReminder_mail_failures_are_local mail_down busy_world empty_request)
    as [Hres Hvisit].
  - reflexivity.
  - vm_compute. discriminate.
  - intros e w0. reflexivity.
  - intros id w0. reflexivity.
  - split; [exact Hres |]. split; [reflexivity |]. split; [reflexivity |].
    apply (Hvisit (remind "r2" (Some (Some "e1")) false 950) "e1").
    + vm_compute. auto.
    + reflexivity.
Defined.

Lemma setReminder_polls_due_unsent_witness :
  let s' := serve (@setReminder healthy) quiet_world empty_request in
  res s' = sent_only 200 (B_message "No reminders to send")
  /\ calls_since quiet_world (world s') = [(C_fetch_reminders, true)]
  /\ outbox (world s') = []
  /\ reminders (world s') = reminders quiet_world.
Proof.
  destruct (proj2 (proj2 (@setReminder_polls_due_unsent healthy quiet_world
                            empty_request)))
    as (Hs & Hcalls & Hout & Hrem).
  - reflexivity.
  - vm_compute. reflexivity.
  - cbv zeta. rewrite Hs. repeat split; assumption || reflexivity.
Defined.

Lemma setReminder_patch_after_mail_witness :
  In (remind "r1" (Some (Some "e1")) false 900)
    (reminders (world (serve (@setReminder mail_down) busy_world empty_request)))
  /\ exists l0 m,
       [(C_fetch_reminders, true); (C_fetch_event "e1", true);
        (C_findById "u1", true); (C_sendMail (@reminder_mail healthy ada standup), true)]
       = (l0 ++ [(C_sendMail m, true)])%list.
Proof.
  split.
  - apply (proj1 (proj2 (proj2 (@setReminder_patch_after_mail mail_down busy_world
                                  empty_request)))).
    + left. reflexivity.
    + vm_compute. intros Hin. in_list Hin.
  - apply (proj1 (@setReminder_patch_after_mail healthy busy_world empty_request)
             _ "r1" true
             [(C_fetch_event "e1", true); (C_findById "u1", true);
              (C_sendMail (@reminder_mail healthy ada standup), true);
              (C_patch_sent "r2", true)]).
    vm_compute. reflexivity.
Defined.

(** C1, as stated, fails: Ada's refresh token still verifies after she
    logged out, but her session is gone from the cache, and the refresh is
    answered with a forwarded error and no cookie. *)
Lemma UpdateAccessToken_after_logout_fails :
  let s' := serve (@UpdateAccessToken healthy) after_logout ada_request in
  @jwt_verify healthy (cookie_refresh_token ada_request) (@REFRESH_TOKEN healthy)
    (now after_logout)
  = Ok (IdPayload (Some "u1"))
  /\ status (res s') = None
  /\ cookies (res s') = []
  /\ forwarded (res s')
     = [Build_ErrorHandler "Cannot read properties of null (reading '_id')" 400].
Proof. vm_compute. repeat split. Qed.

(** C5, as stated, fails: with two reminders due, the user lookup for the
    first throws; the error is not caught for that item, the second reminder
    is never visited, and the routine forwards a 500 error instead of
    responding 200. *)
Lemma setReminder_lookup_failure_aborts :
  let s' := serve (@setReminder lookup_down) busy_world empty_request in
  map r_id (List.filter (due (now busy_world)) (reminders busy_world))
  = ["r1"; "r2"]
  /\ calls_since busy_world (world s')
     = [(C_fetch_reminders, true); (C_fetch_event "e1", true);
        (C_findById "u1", false)]
  /\ status (res s') = None
  /\ forwarded (res s') = [Build_ErrorHandler "Cast to ObjectId failed" 500].
Proof. vm_compute. repeat split. Qed.

End Witnesses.

Section MoreWitnesses.

Import Demo Scenario MoreScenarios.

Lemma logoutUser_clears_cookies_witness :
  sessions (world (serve (@logoutUser healthy) busy_world ada_request)) !! "u1"
  = None
  /\ status (res (serve (@logoutUser healthy) busy_world ada_request)) = Some 200
  /\ res (serve (@logoutUser cache_down) busy_world ada_request)
     = {| cookies := cleared_cookies; status := None; json := None;
          forwarded := [Build_ErrorHandler "Connection is closed." 400] |}
  /\ serve (@logoutUser healthy) busy_world empty_request
     = Build_St busy_world empty_request
         {| cookies := cleared_cookies; status := Some 200;
            json := Some (B_message "User logged out"); forwarded := [] |}.
Proof.
  destruct (@logoutUser_clears_cookies healthy busy_world ada_request)
    as (_ & _ & _ & Hdel & _).
  destruct (Hdel eq_refl eq_refl) as (H200 & _ & _ & _ & Hgone & _).
  split; [exact Hgone |]. split; [exact H200 |]. split.
  - destruct (@logoutUser_clears_cookies cache_down busy_world ada_request)
      as (Hck & _ & _ & _ & Hfail).
    destruct (Hfail "Connection is closed." eq_refl eq_refl) as (Hs & Hj & Hfw & _).
    destruct (res (serve (@logoutUser cache_down) busy_world ada_request)).
    simpl in *. subst. reflexivity.
  - apply (@logoutUser_clears_cookies healthy busy_world empty_request).
    reflexivity.
Defined.

Lemma logout_ends_session_witness :
  res (serve (@getUserInfo healthy) after_logout ada_request)
  = error_only (Build_ErrorHandler "user: u1 not found" 404)
  /\ cookies (res (serve (@UpdateAccessToken healthy) after_logout ada_request))
     = [].
Proof.
  destruct (@logout_ends_session healthy busy_world ada_request eq_refl eq_refl)
    as [Hinfo Hrefresh].
  split.
  - unfold after_logout. rewrite (Hinfo eq_refl). reflexivity.
  - apply (Hrefresh ada_request (IdPayload (Some "u1"))); reflexivity.
Defined.

Lemma registration_token_activates_witness :
  users (world (serve (@activateUser healthy) empty_world bob_activates)) = [bob]
  /\ res (serve (@activateUser healthy) five_minutes_later bob_activates)
     = error_only (Build_ErrorHandler "jwt expired" 500).
Proof.
  destruct (@registration_token_activates healthy empty_world bob_registers eq_refl)
    as (t & code & Hjson & Hmail & Hact).
  assert (Ht : t = bob_token) by (vm_compute in Hjson; inversion Hjson; reflexivity).
  assert (Hc : code = "5500").
  { vm_compute in Hmail. destruct Hmail as [Hm | []]. inversion Hm. reflexivity. }
  subst t code. split.
  - destruct (Hact empty_world bob_activates eq_refl) as (_ & _ & Hok).
    destruct Hok as (Hu & _); [reflexivity | reflexivity | reflexivity |].
    rewrite Hu. reflexivity.
  - destruct (Hact five_minutes_later bob_activates eq_refl) as (Hlate & _).
    rewrite Hlate; [reflexivity | vm_compute; discriminate].
Defined.

Lemma registerUser_writes_nothing_witness :
  res (serve (@registerUser mail_down) empty_world bob_registers)
  = error_only (Build_ErrorHandler "connect ECONNREFUSED" 500)
  /\ outbox (world (serve (@registerUser mail_down) empty_world bob_registers))
     = [].
Proof.
  apply (proj2 (proj2 (@registerUser_writes_nothing mail_down empty_world
                         bob_registers))).
  - repeat split.
  - reflexivity.
  - intros u [].
  - reflexivity.
Defined.

Lemma activateUser_appends_one_record_witness :
  (exists u,
     users (world (serve (@activateUser healthy) busy_world bob_activates))
     = [ada; @created healthy busy_world u])
  /\ users (world (serve (@activateUser healthy) busy_world
                     (activation_request bob_token "0000")))
     = [ada].
Proof.
  split.
  - destruct (proj1 (@activateUser_appends_one_record healthy busy_world
                       bob_activates) eq_refl)
      as (u & Hu & _).
    exists u. exact Hu.
  - apply (proj1 (proj2 (@activateUser_appends_one_record healthy busy_world
                           (activation_request bob_token "0000")))).
    vm_compute. discriminate.
Defined.

Lemma UpdateAccessToken_rejects_bad_tokens_witness :
  res (serve (@UpdateAccessToken healthy) busy_world (refresh_request (Raw "abc")))
  = error_only (Build_ErrorHandler "jwt malformed" 400)
  /\ res (serve (@UpdateAccessToken healthy) busy_world
            (refresh_request (Raw "a.b.c")))
     = error_only (Build_ErrorHandler "invalid token" 400)
  /\ res (serve (@UpdateAccessToken healthy) busy_world (refresh_request bob_token))
     = error_only (Build_ErrorHandler "invalid signature" 400)
  /\ res (serve (@UpdateAccessToken healthy) busy_world
            (refresh_request (Signed (IdPayload (Some "u1")) "refresh-secret" 0 1000)))
     = error_only (Build_ErrorHandler "jwt expired" 400).
Proof.
  split; [| split; [| split]].
  - rewrite (proj1 (proj1 (@UpdateAccessToken_rejects_bad_tokens healthy busy_world
                             (refresh_request (Raw "abc")))
                      "abc" eq_refl ltac:(discriminate)));
      [reflexivity | vm_compute; discriminate].
  - rewrite (proj2 (proj1 (@UpdateAccessToken_rejects_bad_tokens healthy busy_world
                             (refresh_request (Raw "a.b.c")))
                      "a.b.c" eq_refl ltac:(discriminate)));
      reflexivity.
  - rewrite (proj1 (proj2 (@UpdateAccessToken_rejects_bad_tokens healthy busy_world
                             (refresh_request bob_token)))
               _ "activation-secret" 1000 1300 eq_refl);
      [reflexivity | discriminate].
  - rewrite (proj2 (proj2 (@UpdateAccessToken_rejects_bad_tokens healthy busy_world
                             (refresh_request
                                (Signed (IdPayload (Some "u1")) "refresh-secret" 0 1000))))
               (IdPayload (Some "u1")) 0 1000 eq_refl);
      [reflexivity | vm_compute; discriminate].
Defined.

Lemma rotation_cookies_chain_witness :
  exists ok,
    calls_since busy_world
      (world (serve (@UpdateAccessToken healthy) busy_world
                (refresh_request
                   (Signed (IdPayload (Some "u1")) "refresh-secret" 1000 605800))))
    = [(C_redis_get (Some "u1"), ok)].
Proof.
  destruct (@rotation_cookies_chain healthy busy_world ada_request
              (IdPayload (Some "u1")) ada_session eq_refl eq_refl)
    as (access & refresh & Hck & Hnext).
  - vm_compute. reflexivity.
  - discriminate.
  - assert (Hr : refresh
                 = Signed (IdPayload (Some "u1")) "refresh-secret" 1000 605800)
      by (vm_compute in Hck; inversion Hck; reflexivity).
    subst refresh.
    apply (proj1 (Hnext busy_world
                    (refresh_request
                       (Signed (IdPayload (Some "u1")) "refresh-secret" 1000 605800))));
      reflexivity.
Defined.

Lemma getUserInfo_edges_witness :
  res (serve (@getUserInfo cache_down) busy_world ada_request)
  = error_only (Build_ErrorHandler "Connection is closed." 400)
  /\ res (serve (@getUserInfo healthy) busy_world empty_request)
     = error_only (Build_ErrorHandler "user: undefined not found" 404).
Proof.
  split.
  - apply (proj1 (proj2 (@getUserInfo_edges cache_down busy_world ada_request))).
    reflexivity.
  - apply (proj2 (proj2 (proj2 (proj2
             (@getUserInfo_edges healthy busy_world empty_request)))));
      reflexivity.
Defined.

Lemma setReminder_body_skips_witness :
  let s := Build_St busy_world empty_request fresh_response in
  @setReminder_body healthy no_reference s = (Ok tt, s)
  /\ @setReminder_body healthy dangling_event s
     = (Ok tt, with_world (logged [(C_fetch_event "e9", true)] busy_world) s)
  /\ @setReminder_body healthy unknown_user s
     = (Ok tt,
        with_world
          (logged [(C_fetch_event "e1", true); (C_findById "u9", true)] busy_world)
          s).
Proof.
  split; [| split].
  - apply (@setReminder_body_skips healthy no_reference). reflexivity.
  - apply (proj1 (proj2 (@setReminder_body_skips healthy dangling_event
                           (Build_St busy_world empty_request fresh_response))));
      reflexivity.
  - apply (proj2 (proj2 (@setReminder_body_skips healthy unknown_user
                           (Build_St busy_world empty_request fresh_response)))
             "e1" standup);
      reflexivity.
Defined.

Lemma setReminder_mails_are_addressed_witness :
  exists r,
    In r (reminders busy_world) /\ r_sent r = false
    /\ r_reminderTime r <= now busy_world
    /\ In (@reminder_mail healthy ada standup)
         (outbox (world (serve (@setReminder healthy) busy_world empty_request))).
Proof.
  destruct (@setReminder_mails_are_addressed healthy busy_world empty_request)
    as (new & Hout & _ & Hmail).
  assert (Hnew : new = [@reminder_mail healthy ada standup;
                        @reminder_mail healthy ada standup]).
  { vm_compute in Hout. inversion Hout. reflexivity. }
  destruct (Hmail (@reminder_mail healthy ada standup))
    as (r & e & ev & u & Hr & Hs & Ht & _).
  { rewrite Hnew. left. reflexivity. }
  exists r. repeat split; try assumption.
  rewrite Hout, Hnew. simpl. left. reflexivity.
Defined.

Lemma setReminder_second_run_is_idle_witness :
  let w1 := world (serve (@setReminder healthy) busy_world empty_request) in
  map r_sent (reminders w1) = [true; true; false; true]
  /\ res (serve (@setReminder healthy) w1 empty_request)
     = sent_only 200 (B_message "No reminders to send").
Proof.
  split; [reflexivity |].
  apply (@setReminder_second_run_is_idle healthy busy_world empty_request
           empty_request).
  - intros c w'. reflexivity.
  - intros r Hin. vm_compute in Hin.
    destruct Hin as [<- | [<- | []]]; exists "e1", standup, ada;
      repeat split; reflexivity.
Defined.

Lemma registerUser_twice_succeeds_witness :
  let s1 := serve (@registerUser healthy) empty_world bob_registers in
  map m_email (outbox (world (serve (@registerUser healthy) (world s1) bob_registers)))
  = ["bob@example.org"; "bob@example.org"].
Proof.
  destruct (@registerUser_twice_succeeds healthy empty_world bob_registers)
    as (_ & _ & m1 & m2 & Hout & E1 & E2 & _).
  - repeat split.
  - intros u [].
  - intros c w'. reflexivity.
  - cbv zeta. rewrite Hout. simpl. rewrite E1, E2. reflexivity.
Defined.

Lemma rotation_does_not_revoke_witness :
  let s1 := serve (@UpdateAccessToken healthy) busy_world ada_request in
  status (res (serve (@UpdateAccessToken healthy) (world s1) ada_request))
  = Some 200.
Proof.
  apply (@rotation_does_not_revoke healthy busy_world ada_request
           (IdPayload (Some "u1")) ada_session);
    [reflexivity | reflexivity | vm_compute; reflexivity | discriminate
    | reflexivity].
Defined.

Lemma tokens_are_not_interchangeable_witness :
  res (serve (@UpdateAccessToken healthy) busy_world (refresh_request bob_token))
  = error_only (Build_ErrorHandler "invalid signature" 400)
  /\ users (world (serve (@activateUser healthy) busy_world
                     (activation_request ada_refresh_token "5500")))
     = [ada].
Proof.
  destruct (@tokens_are_not_interchangeable healthy empty_world bob_registers)
    as [Hact Href].
  split.
  - rewrite (Hact bob_token "Activation code sent to bob@example.org"
               busy_world (refresh_request bob_token));
      [reflexivity | discriminate | reflexivity | reflexivity].
  - rewrite (Href (IdPayload (Some "u1")) "refresh-secret" 900 605700 busy_world
               (activation_request ada_refresh_token "5500"));
      [reflexivity | discriminate | reflexivity].
Defined.

Lemma activateUser_replay_is_decided_by_create_witness :
  let s1 := serve (@activateUser healthy) empty_world bob_activates in
  let t1 := serve (@activateUser unique_email) empty_world bob_activates in
  map u_email (users (world (serve (@activateUser healthy) (world s1) bob_activates)))
  = ["bob@example.org"; "bob@example.org"]
  /\ map u_email
       (users (world (serve (@activateUser unique_email) (world t1) bob_activates)))
     = ["bob@example.org"]
  /\ res (serve (@activateUser unique_email) (world t1) bob_activates)
     = error_only (Build_ErrorHandler "E11000 duplicate key error collection" 500).
Proof.
  split.
  - destruct (@activateUser_replay_is_decided_by_create healthy empty_world
                bob_activates
                {| reg_name := "Bob"; reg_email := "bob@example.org";
                   reg_password := "Secret#2024" |} "5500"
                eq_refl eq_refl eq_refl)
      as (_ & _ & Hacc & _).
    destruct (Hacc eq_refl) as (Husers & _). cbv zeta. rewrite Husers. reflexivity.
  - destruct (@activateUser_replay_is_decided_by_create unique_email empty_world
                bob_activates
                {| reg_name := "Bob"; reg_email := "bob@example.org";
                   reg_password := "Secret#2024" |} "5500"
                eq_refl eq_refl eq_refl)
      as (_ & _ & _ & Hrej & _).
    destruct (Hrej "E11000 duplicate key error collection" eq_refl)
      as (Husers & Hres).
    cbv zeta. rewrite Husers, Hres. split; reflexivity.
Defined.

End MoreWitnesses.
